(** * Texas Hold'em calculator: card utilities, hand evaluation and
      probability estimation, embedded from the TypeScript sources

    Sources embedded here:
    - [src/types/card.ts], [src/types/poker.ts]            (data model)
    - [src/lib/card-utils/src/card-utils.ts]               (cards, decks, validation)
    - [src/lib/card-utils/src/deck.ts], the module that probability.ts imports
      [getRemainingCards] and [simulateDeal] from    (remaining cards, simulated deals)
    - [src/lib/card-utils/src/validation.ts], the module that poker-engine.ts
      imports [validateHandForEvaluation] from       (validateHandForEvaluation)
    - [src/lib/poker-engine/src/evaluation.ts]             (hand evaluator)
    - [src/lib/poker-engine/src/probability.ts]            (probability estimator, outs)
    - [src/lib/poker-engine/src/poker-engine.ts]           (entry points)

    Conventions of the embedding.
    - The union types [Suit] and [Rank] are inductive types; a [Card] is the
      record of the five fields the interface declares, so a card whose
      derived fields do not match its suit and rank is representable.
    - JavaScript numbers that hold card values and counts are integers ([Z]
      or [nat]); probabilities are exact rationals ([Q]) wrapped in [JsNum],
      which adds the non-finite values NaN and the infinities.
    - Strings are sequences of 8-bit code units, as all strings of the
      sources and all card ids are; [parseCard], which takes any string, is
      also given on sequences of 16-bit code units, in the module [Utf16].
    - [throw] is the [Throw] constructor of [Outcome]; reading a property of
      [undefined] is [Throw TypeError]. *)

From Stdlib Require Import ZArith QArith Qround String Ascii List Lia DecimalString.
From stdpp Require Import base numbers strings list sorting gmap.
Import ListNotations.

Local Open Scope string_scope.
Local Open Scope list_scope.
Local Open Scope Z_scope.

(** ** Exceptions *)

Inductive Exn : Type :=
| Error (message : string)
| TypeError.

(** What running a function does: it returns, it throws, or it never
    ends. *)
Inductive Outcome (A : Type) : Type :=
| Ok (a : A)
| Throw (e : Exn)
| Diverge.
Arguments Ok {A} a.
Arguments Throw {A} e.
Arguments Diverge {A}.

Definition bind {A B : Type} (m : Outcome A) (k : A -> Outcome B) : Outcome B :=
  match m with
  | Ok a => k a
  | Throw e => Throw e
  | Diverge => Diverge
  end.

Notation "'let*' x ':=' m 'in' k" := (bind m (fun x => k))
  (at level 10, x name, m at level 100, k at level 200).

Notation "'let*' ( x , y ) ':=' m 'in' k" := (bind m (fun '(x, y) => k))
  (at level 10, x name, y name, m at level 100, k at level 200).

(** ** src/types/card.ts *)

Inductive Suit : Type := hearts | diamonds | clubs | spades.

Inductive Rank : Type :=
| rA | r2 | r3 | r4 | r5 | r6 | r7 | r8 | r9 | r10 | rJ | rQ | rK.

#[global] Instance Suit_eq_dec : EqDecision Suit.
Proof. solve_decision. Defined.

#[global] Instance Rank_eq_dec : EqDecision Rank.
Proof. solve_decision. Defined.

Record Card : Type := mkCard {
  suit : Suit;
  rank : Rank;
  value : Z;
  display : string;
  id : string
}.

#[global] Instance Card_eq_dec : EqDecision Card.
Proof. solve_decision. Defined.

Record Deck : Type := mkDeck {
  availableCards : list Card;
  usedCards : list Card;
  totalCards : Z
}.

Record ValidationError : Type := mkValidationError {
  code : string;
  message : string;
  field : option string
}.

#[global] Instance ValidationError_eq_dec : EqDecision ValidationError.
Proof. solve_decision. Defined.

Record ValidationResult : Type := mkValidationResult {
  isValid : bool;
  errors : list ValidationError
}.

Definition SUITS : list Suit := [hearts; diamonds; clubs; spades].

Definition RANKS : list Rank :=
  [rA; r2; r3; r4; r5; r6; r7; r8; r9; r10; rJ; rQ; rK].

(** The string each member of the [Suit] and [Rank] unions stands for. *)
Definition Suit_str (s : Suit) : string :=
  match s with
  | hearts => "hearts" | diamonds => "diamonds"
  | clubs => "clubs" | spades => "spades"
  end.

Definition Rank_str (r : Rank) : string :=
  match r with
  | rA => "A" | r2 => "2" | r3 => "3" | r4 => "4" | r5 => "5" | r6 => "6"
  | r7 => "7" | r8 => "8" | r9 => "9" | r10 => "10"
  | rJ => "J" | rQ => "Q" | rK => "K"
  end.

Definition SUIT_SYMBOLS (s : Suit) : string :=
  match s with
  | hearts => "♥" | diamonds => "♦" | clubs => "♣" | spades => "♠"
  end.

Definition SUIT_ABBREVIATIONS (s : Suit) : string :=
  match s with
  | hearts => "H" | diamonds => "D" | clubs => "C" | spades => "S"
  end.

Definition CARD_VALUES (r : Rank) : Z :=
  match r with
  | rA => 14 | r2 => 2 | r3 => 3 | r4 => 4 | r5 => 5 | r6 => 6 | r7 => 7
  | r8 => 8 | r9 => 9 | r10 => 10 | rJ => 11 | rQ => 12 | rK => 13
  end.

Definition CARD_VALUES_ACE_LOW (r : Rank) : Z :=
  match r with
  | rA => 1 | r2 => 2 | r3 => 3 | r4 => 4 | r5 => 5 | r6 => 6 | r7 => 7
  | r8 => 8 | r9 => 9 | r10 => 10 | rJ => 11 | rQ => 12 | rK => 13
  end.

(** ** JavaScript helpers *)

(** [Array.prototype.includes] on a typed array. *)
Definition includes {A : Type} `{EqDecision A} (l : list A) (x : A) : bool :=
  existsb (fun y => bool_decide (y = x)) l.

(** [`${n}`] for an integer. *)
Definition string_of_Z (z : Z) : string := NilZero.string_of_int (Z.to_int z).

Definition string_of_nat (n : nat) : string := string_of_Z (Z.of_nat n).

(** [s.charAt(i)]: the one-unit string at index [i], or the empty string. *)
Definition charAt (s : string) (i : nat) : string :=
  match String.get i s with
  | Some c => String c EmptyString
  | None => EmptyString
  end.

(** [s.startsWith(p)]. *)
Definition startsWith (s p : string) : bool := String.prefix p s.

(** [s.toUpperCase()] as far as [parseCard] needs it on a string of 8-bit
    units: within these units the only characters whose upper case is an
    ASCII capital are the letters a-z. [Utf16.toUpperCase] below has the
    upper case of every unit. *)
Definition upper_ascii (c : ascii) : ascii :=
  let n := nat_of_ascii c in
  if ((97 <=? n) && (n <=? 122))%nat then ascii_of_nat (n - 32) else c.

Fixpoint toUpperCase (s : string) : string :=
  match s with
  | EmptyString => EmptyString
  | String c s' => String (upper_ascii c) (toUpperCase s')
  end.

(** ** src/lib/card-utils/src/card-utils.ts *)

Definition createCard (suit : Suit) (rank : Rank) : Outcome Card :=
  if negb (includes SUITS suit) then Throw (Error "INVALID_SUIT")
  else if negb (includes RANKS rank) then Throw (Error "INVALID_RANK")
  else
    let value := CARD_VALUES rank in
    let display := Rank_str rank +:+ SUIT_SYMBOLS suit in
    let id := Rank_str rank +:+ SUIT_ABBREVIATIONS suit in
    Ok (mkCard suit rank value display id).

(** The two nested [for ... of] loops of [createDeck]; a throwing
    [createCard] would abort the whole construction. *)
Fixpoint createDeck_ranks (suit : Suit) (ranks : list Rank) (acc : list Card)
  : Outcome (list Card) :=
  match ranks with
  | [] => Ok acc
  | rank :: ranks' =>
      let* c := createCard suit rank in
      createDeck_ranks suit ranks' (acc ++ [c])
  end.

Fixpoint createDeck_suits (suits : list Suit) (acc : list Card)
  : Outcome (list Card) :=
  match suits with
  | [] => Ok acc
  | suit :: suits' =>
      let* acc' := createDeck_ranks suit RANKS acc in
      createDeck_suits suits' acc'
  end.

Definition createDeck : Outcome Deck :=
  let* availableCards := createDeck_suits SUITS [] in
  Ok (mkDeck availableCards [] 52).

(** [dealCards]; [count] is a number of cards, a natural number.
    [slice(0, count)] is [take] and [slice(count)] is [drop]; both build new
    arrays and the function assigns to no field of [deck]. *)
Record DealResult : Type := mkDealResult {
  dealtCards : list Card;
  remainingDeck : Deck
}.

Definition dealCards (deck : Deck) (count : nat) : Outcome DealResult :=
  if (length (availableCards deck) <? count)%nat then
    Throw (Error "INSUFFICIENT_CARDS")
  else
    let dealtCards := take count (availableCards deck) in
    let remainingAvailable := drop count (availableCards deck) in
    let newUsedCards := usedCards deck ++ dealtCards in
    Ok (mkDealResult dealtCards (mkDeck remainingAvailable newUsedCards 52)).

(** [Set.prototype.has] on a set of ids. *)
Definition has (X : gset string) (x : string) : bool := bool_decide (x ∈ X).

(** One iteration of the loop of [validateCards]: the set of ids seen so far
    and the errors pushed so far. *)
Definition validateCards_step (st : gset string * list ValidationError) (card : Card)
  : gset string * list ValidationError :=
  let '(seenIds, errs) := st in
  let errs :=
    if has seenIds (id card) then
      errs ++ [mkValidationError "DUPLICATE_CARD"
                   ("Card already exists: " +:+ display card) (Some (id card))]
    else errs in
  let seenIds := {[ id card ]} ∪ seenIds in
  let errs :=
    if negb (includes SUITS (suit card)) then
      errs ++ [mkValidationError "INVALID_SUIT"
                   ("Invalid suit: " +:+ Suit_str (suit card)) (Some (id card))]
    else errs in
  let errs :=
    if negb (includes RANKS (rank card)) then
      errs ++ [mkValidationError "INVALID_RANK"
                   ("Invalid rank: " +:+ Rank_str (rank card)) (Some (id card))]
    else errs in
  let errs :=
    if negb (Z.eqb (value card) (CARD_VALUES (rank card))) then
      errs ++ [mkValidationError "INVALID_VALUE"
                   ("Incorrect value for " +:+ Rank_str (rank card) +:+ ": expected "
                    +:+ string_of_Z (CARD_VALUES (rank card)) +:+ ", got "
                    +:+ string_of_Z (value card)) (Some (id card))]
    else errs in
  let expectedDisplay := Rank_str (rank card) +:+ SUIT_SYMBOLS (suit card) in
  let errs :=
    if negb (String.eqb (display card) expectedDisplay) then
      errs ++ [mkValidationError "INVALID_DISPLAY"
                   ("Incorrect display format: expected " +:+ expectedDisplay
                    +:+ ", got " +:+ display card) (Some (id card))]
    else errs in
  let expectedId := Rank_str (rank card) +:+ SUIT_ABBREVIATIONS (suit card) in
  let errs :=
    if negb (String.eqb (id card) expectedId) then
      errs ++ [mkValidationError "INVALID_ID"
                   ("Incorrect ID format: expected " +:+ expectedId
                    +:+ ", got " +:+ id card) (Some (id card))]
    else errs in
  (seenIds, errs).

Definition validateCards (cards : list Card) : ValidationResult :=
  let errs := snd (fold_left validateCards_step cards (∅, [])) in
  mkValidationResult (Nat.eqb (length errs) 0) errs.

(** The string-keyed properties every object literal inherits from
    [Object.prototype], each with the text that [`${value}`] gives for its
    value, as Node.js prints it. Reading an object literal at one of these
    keys gives the inherited value, which is neither [undefined] nor a
    number. *)
Definition Object_prototype : list (string * string) :=
  [("constructor", "function Object() { [native code] }");
   ("__defineGetter__", "function __defineGetter__() { [native code] }");
   ("__defineSetter__", "function __defineSetter__() { [native code] }");
   ("hasOwnProperty", "function hasOwnProperty() { [native code] }");
   ("__lookupGetter__", "function __lookupGetter__() { [native code] }");
   ("__lookupSetter__", "function __lookupSetter__() { [native code] }");
   ("isPrototypeOf", "function isPrototypeOf() { [native code] }");
   ("propertyIsEnumerable", "function propertyIsEnumerable() { [native code] }");
   ("toString", "function toString() { [native code] }");
   ("valueOf", "function valueOf() { [native code] }");
   ("__proto__", "[object Object]");
   ("toLocaleString", "function toLocaleString() { [native code] }")].

Definition inherited (key : string) : option string :=
  snd <$> find (fun p => String.eqb (fst p) key) Object_prototype.

(** The own properties of the object literal [stageRequirements]. *)
Definition stageRequirements (stage : string) : option nat :=
  if String.eqb stage "pre-flop" then Some 0%nat
  else if String.eqb stage "flop" then Some 3%nat
  else if String.eqb stage "turn" then Some 4%nat
  else if String.eqb stage "river" then Some 5%nat
  else None.

(** [validatePokerHand]. [stageRequirements[stage]] is the number of an own
    property, the value inherited from [Object.prototype], with which
    [communityCards.length !== expectedCommunityCount] holds whatever the
    length is, or [undefined]. *)
Definition validatePokerHand (playerHand communityCards : list Card) (stage : string)
  : ValidationResult :=
  let errs : list ValidationError := [] in
  let allCards := playerHand ++ communityCards in
  let cardValidation := validateCards allCards in
  let errs :=
    if negb (isValid cardValidation) then errs ++ errors cardValidation
    else errs in
  let errs :=
    if negb (String.eqb stage "pre-flop") && negb (Nat.eqb (length playerHand) 2) then
      errs ++ [mkValidationError "INVALID_PLAYER_HAND_SIZE"
                   ("Player hand must have exactly 2 cards, got "
                    +:+ string_of_nat (length playerHand)) None]
    else errs in
  let expectedCommunityCount := stageRequirements stage in
  let errs :=
    match expectedCommunityCount with
    | Some expected =>
        if negb (Nat.eqb (length communityCards) expected) then
          errs ++ [mkValidationError "INVALID_COMMUNITY_CARDS"
                       (stage +:+ " stage requires " +:+ string_of_nat expected
                        +:+ " community cards, got "
                        +:+ string_of_nat (length communityCards)) None]
        else errs
    | None =>
        match inherited stage with
        | Some expected =>
            errs ++ [mkValidationError "INVALID_COMMUNITY_CARDS"
                         (stage +:+ " stage requires " +:+ expected
                          +:+ " community cards, got "
                          +:+ string_of_nat (length communityCards)) None]
        | None => errs
        end
    end in
  mkValidationResult (Nat.eqb (length errs) 0) errs.

(** The object [suitMap] of [parseCard], read at a string key. *)
Definition suitMap (key : string) : option Suit :=
  if String.eqb key "H" then Some hearts
  else if String.eqb key "D" then Some diamonds
  else if String.eqb key "C" then Some clubs
  else if String.eqb key "S" then Some spades
  else None.

(** [RANKS.includes(rank)] for a [rank] that is an arbitrary string cast to
    [Rank]: the member of [RANKS] the string denotes, if any. *)
Definition RANKS_find (rank : string) : option Rank :=
  find (fun r => String.eqb (Rank_str r) rank) RANKS.

Definition parseCard (cardString : string) : Outcome Card :=
  if (String.length cardString <? 2)%nat then Throw (Error "INVALID_CARD_STRING")
  else
    let '(rank, suitChar) :=
      if startsWith cardString "10" then ("10", charAt cardString 2)
      else (charAt cardString 0, charAt cardString 1) in
    match suitMap (toUpperCase suitChar) with
    | None => Throw (Error "INVALID_CARD_STRING")
    | Some suit =>
        match RANKS_find rank with
        | None => Throw (Error "INVALID_CARD_STRING")
        | Some rank => createCard suit rank
        end
    end.

(** ** [parseCard] on strings of 16-bit code units *)

(** A JavaScript string is a sequence of UTF-16 code units. [parseCard]
    above reads a string of 8-bit units, as ids and card codes of ASCII
    characters are. The module [Utf16] below has [parseCard], and the string
    functions it calls, on every string. *)

(** The code units of a string of 8-bit units. *)
Definition units (s : string) : list N := map N_of_ascii (list_ascii_of_string s).

(** The code units [c] of the basic plane for which [c.toUpperCase()] is
    not [c], each with the units of its upper case: the full case mappings
    of Unicode 14, which do not depend on the locale or on the context. *)
Definition upperCase_table : list (N * list N) :=
  [(97, [65]); (98, [66]); (99, [67]); (100, [68]); (101, [69]); (102, [70]);
   (103, [71]); (104, [72]); (105, [73]); (106, [74]); (107, [75]); (108, [76]);
   (109, [77]); (110, [78]); (111, [79]); (112, [80]); (113, [81]); (114, [82]);
   (115, [83]); (116, [84]); (117, [85]); (118, [86]); (119, [87]); (120, [88]);
   (121, [89]); (122, [90]); (181, [924]); (223, [83; 83]); (224, [192]); (225, [193]);
   (226, [194]); (227, [195]); (228, [196]); (229, [197]); (230, [198]); (231, [199]);
   (232, [200]); (233, [201]); (234, [202]); (235, [203]); (236, [204]); (237, [205]);
   (238, [206]); (239, [207]); (240, [208]); (241, [209]); (242, [210]); (243, [211]);
   (244, [212]); (245, [213]); (246, [214]); (248, [216]); (249, [217]); (250, [218]);
   (251, [219]); (252, [220]); (253, [221]); (254, [222]); (255, [376]); (257, [256]);
   (259, [258]); (261, [260]); (263, [262]); (265, [264]); (267, [266]); (269, [268]);
   (271, [270]); (273, [272]); (275, [274]); (277, [276]); (279, [278]); (281, [280]);
   (283, [282]); (285, [284]); (287, [286]); (289, [288]); (291, [290]); (293, [292]);
   (295, [294]); (297, [296]); (299, [298]); (301, [300]); (303, [302]); (305, [73]);
   (307, [306]); (309, [308]); (311, [310]); (314, [313]); (316, [315]); (318, [317]);
   (320, [319]); (322, [321]); (324, [323]); (326, [325]); (328, [327]);
   (329, [700; 78]); (331, [330]); (333, [332]); (335, [334]); (337, [336]);
   (339, [338]); (341, [340]); (343, [342]); (345, [344]); (347, [346]); (349, [348]);
   (351, [350]); (353, [352]); (355, [354]); (357, [356]); (359, [358]); (361, [360]);
   (363, [362]); (365, [364]); (367, [366]); (369, [368]); (371, [370]); (373, [372]);
   (375, [374]); (378, [377]); (380, [379]); (382, [381]); (383, [83]); (384, [579]);
   (387, [386]); (389, [388]); (392, [391]); (396, [395]); (402, [401]); (405, [502]);
   (409, [408]); (410, [573]); (414, [544]); (417, [416]); (419, [418]); (421, [420]);
   (424, [423]); (429, [428]); (432, [431]); (436, [435]); (438, [437]); (441, [440]);
   (445, [444]); (447, [503]); (453, [452]); (454, [452]); (456, [455]); (457, [455]);
   (459, [458]); (460, [458]); (462, [461]); (464, [463]); (466, [465]); (468, [467]);
   (470, [469]); (472, [471]); (474, [473]); (476, [475]); (477, [398]); (479, [478]);
   (481, [480]); (483, [482]); (485, [484]); (487, [486]); (489, [488]); (491, [490]);
   (493, [492]); (495, [494]); (496, [74; 780]); (498, [497]); (499, [497]);
   (501, [500]); (505, [504]); (507, [506]); (509, [508]); (511, [510]); (513, [512]);
   (515, [514]); (517, [516]); (519, [518]); (521, [520]); (523, [522]); (525, [524]);
   (527, [526]); (529, [528]); (531, [530]); (533, [532]); (535, [534]); (537, [536]);
   (539, [538]); (541, [540]); (543, [542]); (547, [546]); (549, [548]); (551, [550]);
   (553, [552]); (555, [554]); (557, [556]); (559, [558]); (561, [560]); (563, [562]);
   (572, [571]); (575, [11390]); (576, [11391]); (578, [577]); (583, [582]);
   (585, [584]); (587, [586]); (589, [588]); (591, [590]); (592, [11375]);
   (593, [11373]); (594, [11376]); (595, [385]); (596, [390]); (598, [393]);
   (599, [394]); (601, [399]); (603, [400]); (604, [42923]); (608, [403]);
   (609, [42924]); (611, [404]); (613, [42893]); (614, [42922]); (616, [407]);
   (617, [406]); (618, [42926]); (619, [11362]); (620, [42925]); (623, [412]);
   (625, [11374]); (626, [413]); (629, [415]); (637, [11364]); (640, [422]);
   (642, [42949]); (643, [425]); (647, [42929]); (648, [430]); (649, [580]);
   (650, [433]); (651, [434]); (652, [581]); (658, [439]); (669, [42930]);
   (670, [42928]); (837, [921]); (881, [880]); (883, [882]); (887, [886]);
   (891, [1021]); (892, [1022]); (893, [1023]); (912, [921; 776; 769]); (940, [902]);
   (941, [904]); (942, [905]); (943, [906]); (944, [933; 776; 769]); (945, [913]);
   (946, [914]); (947, [915]); (948, [916]); (949, [917]); (950, [918]); (951, [919]);
   (952, [920]); (953, [921]); (954, [922]); (955, [923]); (956, [924]); (957, [925]);
   (958, [926]); (959, [927]); (960, [928]); (961, [929]); (962, [931]); (963, [931]);
   (964, [932]); (965, [933]); (966, [934]); (967, [935]); (968, [936]); (969, [937]);
   (970, [938]); (971, [939]); (972, [908]); (973, [910]); (974, [911]); (976, [914]);
   (977, [920]); (981, [934]); (982, [928]); (983, [975]); (985, [984]); (987, [986]);
   (989, [988]); (991, [990]); (993, [992]); (995, [994]); (997, [996]); (999, [998]);
   (1001, [1000]); (1003, [1002]); (1005, [1004]); (1007, [1006]); (1008, [922]);
   (1009, [929]); (1010, [1017]); (1011, [895]); (1013, [917]); (1016, [1015]);
   (1019, [1018]); (1072, [1040]); (1073, [1041]); (1074, [1042]); (1075, [1043]);
   (1076, [1044]); (1077, [1045]); (1078, [1046]); (1079, [1047]); (1080, [1048]);
   (1081, [1049]); (1082, [1050]); (1083, [1051]); (1084, [1052]); (1085, [1053]);
   (1086, [1054]); (1087, [1055]); (1088, [1056]); (1089, [1057]); (1090, [1058]);
   (1091, [1059]); (1092, [1060]); (1093, [1061]); (1094, [1062]); (1095, [1063]);
   (1096, [1064]); (1097, [1065]); (1098, [1066]); (1099, [1067]); (1100, [1068]);
   (1101, [1069]); (1102, [1070]); (1103, [1071]); (1104, [1024]); (1105, [1025]);
   (1106, [1026]); (1107, [1027]); (1108, [1028]); (1109, [1029]); (1110, [1030]);
   (1111, [1031]); (1112, [1032]); (1113, [1033]); (1114, [1034]); (1115, [1035]);
   (1116, [1036]); (1117, [1037]); (1118, [1038]); (1119, [1039]); (1121, [1120]);
   (1123, [1122]); (1125, [1124]); (1127, [1126]); (1129, [1128]); (1131, [1130]);
   (1133, [1132]); (1135, [1134]); (1137, [1136]); (1139, [1138]); (1141, [1140]);
   (1143, [1142]); (1145, [1144]); (1147, [1146]); (1149, [1148]); (1151, [1150]);
   (1153, [1152]); (1163, [1162]); (1165, [1164]); (1167, [1166]); (1169, [1168]);
   (1171, [1170]); (1173, [1172]); (1175, [1174]); (1177, [1176]); (1179, [1178]);
   (1181, [1180]); (1183, [1182]); (1185, [1184]); (1187, [1186]); (1189, [1188]);
   (1191, [1190]); (1193, [1192]); (1195, [1194]); (1197, [1196]); (1199, [1198]);
   (1201, [1200]); (1203, [1202]); (1205, [1204]); (1207, [1206]); (1209, [1208]);
   (1211, [1210]); (1213, [1212]); (1215, [1214]); (1218, [1217]); (1220, [1219]);
   (1222, [1221]); (1224, [1223]); (1226, [1225]); (1228, [1227]); (1230, [1229]);
   (1231, [1216]); (1233, [1232]); (1235, [1234]); (1237, [1236]); (1239, [1238]);
   (1241, [1240]); (1243, [1242]); (1245, [1244]); (1247, [1246]); (1249, [1248]);
   (1251, [1250]); (1253, [1252]); (1255, [1254]); (1257, [1256]); (1259, [1258]);
   (1261, [1260]); (1263, [1262]); (1265, [1264]); (1267, [1266]); (1269, [1268]);
   (1271, [1270]); (1273, [1272]); (1275, [1274]); (1277, [1276]); (1279, [1278]);
   (1281, [1280]); (1283, [1282]); (1285, [1284]); (1287, [1286]); (1289, [1288]);
   (1291, [1290]); (1293, [1292]); (1295, [1294]); (1297, [1296]); (1299, [1298]);
   (1301, [1300]); (1303, [1302]); (1305, [1304]); (1307, [1306]); (1309, [1308]);
   (1311, [1310]); (1313, [1312]); (1315, [1314]); (1317, [1316]); (1319, [1318]);
   (1321, [1320]); (1323, [1322]); (1325, [1324]); (1327, [1326]); (1377, [1329]);
   (1378, [1330]); (1379, [1331]); (1380, [1332]); (1381, [1333]); (1382, [1334]);
   (1383, [1335]); (1384, [1336]); (1385, [1337]); (1386, [1338]); (1387, [1339]);
   (1388, [1340]); (1389, [1341]); (1390, [1342]); (1391, [1343]); (1392, [1344]);
   (1393, [1345]); (1394, [1346]); (1395, [1347]); (1396, [1348]); (1397, [1349]);
   (1398, [1350]); (1399, [1351]); (1400, [1352]); (1401, [1353]); (1402, [1354]);
   (1403, [1355]); (1404, [1356]); (1405, [1357]); (1406, [1358]); (1407, [1359]);
   (1408, [1360]); (1409, [1361]); (1410, [1362]); (1411, [1363]); (1412, [1364]);
   (1413, [1365]); (1414, [1366]); (1415, [1333; 1362]); (4304, [7312]); (4305, [7313]);
   (4306, [7314]); (4307, [7315]); (4308, [7316]); (4309, [7317]); (4310, [7318]);
   (4311, [7319]); (4312, [7320]); (4313, [7321]); (4314, [7322]); (4315, [7323]);
   (4316, [7324]); (4317, [7325]); (4318, [7326]); (4319, [7327]); (4320, [7328]);
   (4321, [7329]); (4322, [7330]); (4323, [7331]); (4324, [7332]); (4325, [7333]);
   (4326, [7334]); (4327, [7335]); (4328, [7336]); (4329, [7337]); (4330, [7338]);
   (4331, [7339]); (4332, [7340]); (4333, [7341]); (4334, [7342]); (4335, [7343]);
   (4336, [7344]); (4337, [7345]); (4338, [7346]); (4339, [7347]); (4340, [7348]);
   (4341, [7349]); (4342, [7350]); (4343, [7351]); (4344, [7352]); (4345, [7353]);
   (4346, [7354]); (4349, [7357]); (4350, [7358]); (4351, [7359]); (5112, [5104]);
   (5113, [5105]); (5114, [5106]); (5115, [5107]); (5116, [5108]); (5117, [5109]);
   (7296, [1042]); (7297, [1044]); (7298, [1054]); (7299, [1057]); (7300, [1058]);
   (7301, [1058]); (7302, [1066]); (7303, [1122]); (7304, [42570]); (7545, [42877]);
   (7549, [11363]); (7566, [42950]); (7681, [7680]); (7683, [7682]); (7685, [7684]);
   (7687, [7686]); (7689, [7688]); (7691, [7690]); (7693, [7692]); (7695, [7694]);
   (7697, [7696]); (7699, [7698]); (7701, [7700]); (7703, [7702]); (7705, [7704]);
   (7707, [7706]); (7709, [7708]); (7711, [7710]); (7713, [7712]); (7715, [7714]);
   (7717, [7716]); (7719, [7718]); (7721, [7720]); (7723, [7722]); (7725, [7724]);
   (7727, [7726]); (7729, [7728]); (7731, [7730]); (7733, [7732]); (7735, [7734]);
   (7737, [7736]); (7739, [7738]); (7741, [7740]); (7743, [7742]); (7745, [7744]);
   (7747, [7746]); (7749, [7748]); (7751, [7750]); (7753, [7752]); (7755, [7754]);
   (7757, [7756]); (7759, [7758]); (7761, [7760]); (7763, [7762]); (7765, [7764]);
   (7767, [7766]); (7769, [7768]); (7771, [7770]); (7773, [7772]); (7775, [7774]);
   (7777, [7776]); (7779, [7778]); (7781, [7780]); (7783, [7782]); (7785, [7784]);
   (7787, [7786]); (7789, [7788]); (7791, [7790]); (7793, [7792]); (7795, [7794]);
   (7797, [7796]); (7799, [7798]); (7801, [7800]); (7803, [7802]); (7805, [7804]);
   (7807, [7806]); (7809, [7808]); (7811, [7810]); (7813, [7812]); (7815, [7814]);
   (7817, [7816]); (7819, [7818]); (7821, [7820]); (7823, [7822]); (7825, [7824]);
   (7827, [7826]); (7829, [7828]); (7830, [72; 817]); (7831, [84; 776]);
   (7832, [87; 778]); (7833, [89; 778]); (7834, [65; 702]); (7835, [7776]);
   (7841, [7840]); (7843, [7842]); (7845, [7844]); (7847, [7846]); (7849, [7848]);
   (7851, [7850]); (7853, [7852]); (7855, [7854]); (7857, [7856]); (7859, [7858]);
   (7861, [7860]); (7863, [7862]); (7865, [7864]); (7867, [7866]); (7869, [7868]);
   (7871, [7870]); (7873, [7872]); (7875, [7874]); (7877, [7876]); (7879, [7878]);
   (7881, [7880]); (7883, [7882]); (7885, [7884]); (7887, [7886]); (7889, [7888]);
   (7891, [7890]); (7893, [7892]); (7895, [7894]); (7897, [7896]); (7899, [7898]);
   (7901, [7900]); (7903, [7902]); (7905, [7904]); (7907, [7906]); (7909, [7908]);
   (7911, [7910]); (7913, [7912]); (7915, [7914]); (7917, [7916]); (7919, [7918]);
   (7921, [7920]); (7923, [7922]); (7925, [7924]); (7927, [7926]); (7929, [7928]);
   (7931, [7930]); (7933, [7932]); (7935, [7934]); (7936, [7944]); (7937, [7945]);
   (7938, [7946]); (7939, [7947]); (7940, [7948]); (7941, [7949]); (7942, [7950]);
   (7943, [7951]); (7952, [7960]); (7953, [7961]); (7954, [7962]); (7955, [7963]);
   (7956, [7964]); (7957, [7965]); (7968, [7976]); (7969, [7977]); (7970, [7978]);
   (7971, [7979]); (7972, [7980]); (7973, [7981]); (7974, [7982]); (7975, [7983]);
   (7984, [7992]); (7985, [7993]); (7986, [7994]); (7987, [7995]); (7988, [7996]);
   (7989, [7997]); (7990, [7998]); (7991, [7999]); (8000, [8008]); (8001, [8009]);
   (8002, [8010]); (8003, [8011]); (8004, [8012]); (8005, [8013]); (8016, [933; 787]);
   (8017, [8025]); (8018, [933; 787; 768]); (8019, [8027]); (8020, [933; 787; 769]);
   (8021, [8029]); (8022, [933; 787; 834]); (8023, [8031]); (8032, [8040]);
   (8033, [8041]); (8034, [8042]); (8035, [8043]); (8036, [8044]); (8037, [8045]);
   (8038, [8046]); (8039, [8047]); (8048, [8122]); (8049, [8123]); (8050, [8136]);
   (8051, [8137]); (8052, [8138]); (8053, [8139]); (8054, [8154]); (8055, [8155]);
   (8056, [8184]); (8057, [8185]); (8058, [8170]); (8059, [8171]); (8060, [8186]);
   (8061, [8187]); (8064, [7944; 921]); (8065, [7945; 921]); (8066, [7946; 921]);
   (8067, [7947; 921]); (8068, [7948; 921]); (8069, [7949; 921]); (8070, [7950; 921]);
   (8071, [7951; 921]); (8072, [7944; 921]); (8073, [7945; 921]); (8074, [7946; 921]);
   (8075, [7947; 921]); (8076, [7948; 921]); (8077, [7949; 921]); (8078, [7950; 921]);
   (8079, [7951; 921]); (8080, [7976; 921]); (8081, [7977; 921]); (8082, [7978; 921]);
   (8083, [7979; 921]); (8084, [7980; 921]); (8085, [7981; 921]); (8086, [7982; 921]);
   (8087, [7983; 921]); (8088, [7976; 921]); (8089, [7977; 921]); (8090, [7978; 921]);
   (8091, [7979; 921]); (8092, [7980; 921]); (8093, [7981; 921]); (8094, [7982; 921]);
   (8095, [7983; 921]); (8096, [8040; 921]); (8097, [8041; 921]); (8098, [8042; 921]);
   (8099, [8043; 921]); (8100, [8044; 921]); (8101, [8045; 921]); (8102, [8046; 921]);
   (8103, [8047; 921]); (8104, [8040; 921]); (8105, [8041; 921]); (8106, [8042; 921]);
   (8107, [8043; 921]); (8108, [8044; 921]); (8109, [8045; 921]); (8110, [8046; 921]);
   (8111, [8047; 921]); (8112, [8120]); (8113, [8121]); (8114, [8122; 921]);
   (8115, [913; 921]); (8116, [902; 921]); (8118, [913; 834]); (8119, [913; 834; 921]);
   (8124, [913; 921]); (8126, [921]); (8130, [8138; 921]); (8131, [919; 921]);
   (8132, [905; 921]); (8134, [919; 834]); (8135, [919; 834; 921]); (8140, [919; 921]);
   (8144, [8152]); (8145, [8153]); (8146, [921; 776; 768]); (8147, [921; 776; 769]);
   (8150, [921; 834]); (8151, [921; 776; 834]); (8160, [8168]); (8161, [8169]);
   (8162, [933; 776; 768]); (8163, [933; 776; 769]); (8164, [929; 787]); (8165, [8172]);
   (8166, [933; 834]); (8167, [933; 776; 834]); (8178, [8186; 921]); (8179, [937; 921]);
   (8180, [911; 921]); (8182, [937; 834]); (8183, [937; 834; 921]); (8188, [937; 921]);
   (8526, [8498]); (8560, [8544]); (8561, [8545]); (8562, [8546]); (8563, [8547]);
   (8564, [8548]); (8565, [8549]); (8566, [8550]); (8567, [8551]); (8568, [8552]);
   (8569, [8553]); (8570, [8554]); (8571, [8555]); (8572, [8556]); (8573, [8557]);
   (8574, [8558]); (8575, [8559]); (8580, [8579]); (9424, [9398]); (9425, [9399]);
   (9426, [9400]); (9427, [9401]); (9428, [9402]); (9429, [9403]); (9430, [9404]);
   (9431, [9405]); (9432, [9406]); (9433, [9407]); (9434, [9408]); (9435, [9409]);
   (9436, [9410]); (9437, [9411]); (9438, [9412]); (9439, [9413]); (9440, [9414]);
   (9441, [9415]); (9442, [9416]); (9443, [9417]); (9444, [9418]); (9445, [9419]);
   (9446, [9420]); (9447, [9421]); (9448, [9422]); (9449, [9423]); (11312, [11264]);
   (11313, [11265]); (11314, [11266]); (11315, [11267]); (11316, [11268]);
   (11317, [11269]); (11318, [11270]); (11319, [11271]); (11320, [11272]);
   (11321, [11273]); (11322, [11274]); (11323, [11275]); (11324, [11276]);
   (11325, [11277]); (11326, [11278]); (11327, [11279]); (11328, [11280]);
   (11329, [11281]); (11330, [11282]); (11331, [11283]); (11332, [11284]);
   (11333, [11285]); (11334, [11286]); (11335, [11287]); (11336, [11288]);
   (11337, [11289]); (11338, [11290]); (11339, [11291]); (11340, [11292]);
   (11341, [11293]); (11342, [11294]); (11343, [11295]); (11344, [11296]);
   (11345, [11297]); (11346, [11298]); (11347, [11299]); (11348, [11300]);
   (11349, [11301]); (11350, [11302]); (11351, [11303]); (11352, [11304]);
   (11353, [11305]); (11354, [11306]); (11355, [11307]); (11356, [11308]);
   (11357, [11309]); (11358, [11310]); (11359, [11311]); (11361, [11360]);
   (11365, [570]); (11366, [574]); (11368, [11367]); (11370, [11369]); (11372, [11371]);
   (11379, [11378]); (11382, [11381]); (11393, [11392]); (11395, [11394]);
   (11397, [11396]); (11399, [11398]); (11401, [11400]); (11403, [11402]);
   (11405, [11404]); (11407, [11406]); (11409, [11408]); (11411, [11410]);
   (11413, [11412]); (11415, [11414]); (11417, [11416]); (11419, [11418]);
   (11421, [11420]); (11423, [11422]); (11425, [11424]); (11427, [11426]);
   (11429, [11428]); (11431, [11430]); (11433, [11432]); (11435, [11434]);
   (11437, [11436]); (11439, [11438]); (11441, [11440]); (11443, [11442]);
   (11445, [11444]); (11447, [11446]); (11449, [11448]); (11451, [11450]);
   (11453, [11452]); (11455, [11454]); (11457, [11456]); (11459, [11458]);
   (11461, [11460]); (11463, [11462]); (11465, [11464]); (11467, [11466]);
   (11469, [11468]); (11471, [11470]); (11473, [11472]); (11475, [11474]);
   (11477, [11476]); (11479, [11478]); (11481, [11480]); (11483, [11482]);
   (11485, [11484]); (11487, [11486]); (11489, [11488]); (11491, [11490]);
   (11500, [11499]); (11502, [11501]); (11507, [11506]); (11520, [4256]);
   (11521, [4257]); (11522, [4258]); (11523, [4259]); (11524, [4260]); (11525, [4261]);
   (11526, [4262]); (11527, [4263]); (11528, [4264]); (11529, [4265]); (11530, [4266]);
   (11531, [4267]); (11532, [4268]); (11533, [4269]); (11534, [4270]); (11535, [4271]);
   (11536, [4272]); (11537, [4273]); (11538, [4274]); (11539, [4275]); (11540, [4276]);
   (11541, [4277]); (11542, [4278]); (11543, [4279]); (11544, [4280]); (11545, [4281]);
   (11546, [4282]); (11547, [4283]); (11548, [4284]); (11549, [4285]); (11550, [4286]);
   (11551, [4287]); (11552, [4288]); (11553, [4289]); (11554, [4290]); (11555, [4291]);
   (11556, [4292]); (11557, [4293]); (11559, [4295]); (11565, [4301]); (42561, [42560]);
   (42563, [42562]); (42565, [42564]); (42567, [42566]); (42569, [42568]);
   (42571, [42570]); (42573, [42572]); (42575, [42574]); (42577, [42576]);
   (42579, [42578]); (42581, [42580]); (42583, [42582]); (42585, [42584]);
   (42587, [42586]); (42589, [42588]); (42591, [42590]); (42593, [42592]);
   (42595, [42594]); (42597, [42596]); (42599, [42598]); (42601, [42600]);
   (42603, [42602]); (42605, [42604]); (42625, [42624]); (42627, [42626]);
   (42629, [42628]); (42631, [42630]); (42633, [42632]); (42635, [42634]);
   (42637, [42636]); (42639, [42638]); (42641, [42640]); (42643, [42642]);
   (42645, [42644]); (42647, [42646]); (42649, [42648]); (42651, [42650]);
   (42787, [42786]); (42789, [42788]); (42791, [42790]); (42793, [42792]);
   (42795, [42794]); (42797, [42796]); (42799, [42798]); (42803, [42802]);
   (42805, [42804]); (42807, [42806]); (42809, [42808]); (42811, [42810]);
   (42813, [42812]); (42815, [42814]); (42817, [42816]); (42819, [42818]);
   (42821, [42820]); (42823, [42822]); (42825, [42824]); (42827, [42826]);
   (42829, [42828]); (42831, [42830]); (42833, [42832]); (42835, [42834]);
   (42837, [42836]); (42839, [42838]); (42841, [42840]); (42843, [42842]);
   (42845, [42844]); (42847, [42846]); (42849, [42848]); (42851, [42850]);
   (42853, [42852]); (42855, [42854]); (42857, [42856]); (42859, [42858]);
   (42861, [42860]); (42863, [42862]); (42874, [42873]); (42876, [42875]);
   (42879, [42878]); (42881, [42880]); (42883, [42882]); (42885, [42884]);
   (42887, [42886]); (42892, [42891]); (42897, [42896]); (42899, [42898]);
   (42900, [42948]); (42903, [42902]); (42905, [42904]); (42907, [42906]);
   (42909, [42908]); (42911, [42910]); (42913, [42912]); (42915, [42914]);
   (42917, [42916]); (42919, [42918]); (42921, [42920]); (42933, [42932]);
   (42935, [42934]); (42937, [42936]); (42939, [42938]); (42941, [42940]);
   (42943, [42942]); (42945, [42944]); (42947, [42946]); (42952, [42951]);
   (42954, [42953]); (42961, [42960]); (42967, [42966]); (42969, [42968]);
   (42998, [42997]); (43859, [42931]); (43888, [5024]); (43889, [5025]);
   (43890, [5026]); (43891, [5027]); (43892, [5028]); (43893, [5029]); (43894, [5030]);
   (43895, [5031]); (43896, [5032]); (43897, [5033]); (43898, [5034]); (43899, [5035]);
   (43900, [5036]); (43901, [5037]); (43902, [5038]); (43903, [5039]); (43904, [5040]);
   (43905, [5041]); (43906, [5042]); (43907, [5043]); (43908, [5044]); (43909, [5045]);
   (43910, [5046]); (43911, [5047]); (43912, [5048]); (43913, [5049]); (43914, [5050]);
   (43915, [5051]); (43916, [5052]); (43917, [5053]); (43918, [5054]); (43919, [5055]);
   (43920, [5056]); (43921, [5057]); (43922, [5058]); (43923, [5059]); (43924, [5060]);
   (43925, [5061]); (43926, [5062]); (43927, [5063]); (43928, [5064]); (43929, [5065]);
   (43930, [5066]); (43931, [5067]); (43932, [5068]); (43933, [5069]); (43934, [5070]);
   (43935, [5071]); (43936, [5072]); (43937, [5073]); (43938, [5074]); (43939, [5075]);
   (43940, [5076]); (43941, [5077]); (43942, [5078]); (43943, [5079]); (43944, [5080]);
   (43945, [5081]); (43946, [5082]); (43947, [5083]); (43948, [5084]); (43949, [5085]);
   (43950, [5086]); (43951, [5087]); (43952, [5088]); (43953, [5089]); (43954, [5090]);
   (43955, [5091]); (43956, [5092]); (43957, [5093]); (43958, [5094]); (43959, [5095]);
   (43960, [5096]); (43961, [5097]); (43962, [5098]); (43963, [5099]); (43964, [5100]);
   (43965, [5101]); (43966, [5102]); (43967, [5103]); (64256, [70; 70]);
   (64257, [70; 73]); (64258, [70; 76]); (64259, [70; 70; 73]); (64260, [70; 70; 76]);
   (64261, [83; 84]); (64262, [83; 84]); (64275, [1348; 1350]); (64276, [1348; 1333]);
   (64277, [1348; 1339]); (64278, [1358; 1350]); (64279, [1348; 1341]);
   (65345, [65313]); (65346, [65314]); (65347, [65315]); (65348, [65316]);
   (65349, [65317]); (65350, [65318]); (65351, [65319]); (65352, [65320]);
   (65353, [65321]); (65354, [65322]); (65355, [65323]); (65356, [65324]);
   (65357, [65325]); (65358, [65326]); (65359, [65327]); (65360, [65328]);
   (65361, [65329]); (65362, [65330]); (65363, [65331]); (65364, [65332]);
   (65365, [65333]); (65366, [65334]); (65367, [65335]); (65368, [65336]);
   (65369, [65337]); (65370, [65338])]%N.

(** [c.toUpperCase()] for a string [c] of one code unit; a unit without a
    mapping, as a surrogate is, stays as it is. *)
Definition toUpperCase_unit (u : N) : list N :=
  match find (fun p => N.eqb (fst p) u) upperCase_table with
  | Some p => snd p
  | None => [u]
  end.

Arguments toUpperCase_unit : simpl never.

Module Utf16.

(** [s.charAt(i)]: the string of the one unit at index [i], or the empty
    string. *)
Definition charAt (s : list N) (i : nat) : list N :=
  match s !! i with
  | Some u => [u]
  | None => []
  end.

(** [s.startsWith(p)]. *)
Definition startsWith (s p : list N) : bool := bool_decide (take (length p) s = p).

(** [s.toUpperCase()], unit by unit: this is the upper case of a string
    that has no letter outside the basic plane, as a string of at most one
    unit is. *)
Definition toUpperCase (s : list N) : list N := s ≫= toUpperCase_unit.

(** The own properties of the object literal [suitMap]. *)
Definition suitMap (key : list N) : option Suit :=
  if bool_decide (key = units "H") then Some hearts
  else if bool_decide (key = units "D") then Some diamonds
  else if bool_decide (key = units "C") then Some clubs
  else if bool_decide (key = units "S") then Some spades
  else None.

(** Whether an object literal inherits a property of this name. *)
Definition inherits (key : list N) : bool :=
  bool_decide (key ∈ map (fun p => units (fst p)) Object_prototype).

(** [RANKS.includes(rank)] for a [rank] that is an arbitrary string cast to
    [Rank]: the member of [RANKS] the string denotes, if any. *)
Definition RANKS_find (rank : list N) : option Rank :=
  find (fun r => bool_decide (units (Rank_str r) = rank)) RANKS.

(** [parseCard]. A [suitMap[key]] that is inherited is no suit but passes
    the test [!suit], and [createCard] then throws INVALID_SUIT. *)
Definition parseCard (cardString : list N) : Outcome Card :=
  if (length cardString <? 2)%nat then Throw (Error "INVALID_CARD_STRING")
  else
    let '(rank, suitChar) :=
      if startsWith cardString (units "10") then (units "10", charAt cardString 2)
      else (charAt cardString 0, charAt cardString 1) in
    let key := toUpperCase suitChar in
    match suitMap key with
    | Some suit =>
        match RANKS_find rank with
        | None => Throw (Error "INVALID_CARD_STRING")
        | Some rank => createCard suit rank
        end
    | None =>
        if inherits key then
          match RANKS_find rank with
          | None => Throw (Error "INVALID_CARD_STRING")
          | Some _ => Throw (Error "INVALID_SUIT")
          end
        else Throw (Error "INVALID_CARD_STRING")
    end.

End Utf16.

(** ** src/types/poker.ts *)

Inductive HandStrength : Type :=
| HIGH_CARD | PAIR | TWO_PAIR | THREE_OF_A_KIND | STRAIGHT
| FLUSH | FULL_HOUSE | FOUR_OF_A_KIND | STRAIGHT_FLUSH | ROYAL_FLUSH.

#[global] Instance HandStrength_eq_dec : EqDecision HandStrength.
Proof. solve_decision. Defined.

(** The number each member of the enum is. *)
Definition HandStrength_value (h : HandStrength) : Z :=
  match h with
  | HIGH_CARD => 0 | PAIR => 1 | TWO_PAIR => 2 | THREE_OF_A_KIND => 3
  | STRAIGHT => 4 | FLUSH => 5 | FULL_HOUSE => 6 | FOUR_OF_A_KIND => 7
  | STRAIGHT_FLUSH => 8 | ROYAL_FLUSH => 9
  end.

(** An array slot of type [Card] that may hold [undefined] ([None]): the
    results of [find] and of indexing enter [bestHand] and [kickers]
    unchecked. *)
Record HandEvaluation : Type := mkHandEvaluation {
  bestHand : list (option Card);
  handStrength : HandStrength;
  kickers : list (option Card);
  description : string
}.

(** ** More JavaScript helpers *)

(** [Array.prototype.sort] with a comparator: the sort is stable, and an
    element goes before the first one it does not compare greater than. *)
Fixpoint sort_insert {A : Type} (cmp : A -> A -> Z) (x : A) (l : list A) : list A :=
  match l with
  | [] => [x]
  | y :: l' => if cmp x y <=? 0 then x :: y :: l' else y :: sort_insert cmp x l'
  end.

Definition Array_sort {A : Type} (cmp : A -> A -> Z) (l : list A) : list A :=
  foldr (sort_insert cmp) [] l.

(** The same sort with a comparator that may throw. *)
Fixpoint sort_insertM {A : Type} (cmp : A -> A -> Outcome Z) (x : A) (l : list A)
  : Outcome (list A) :=
  match l with
  | [] => Ok [x]
  | y :: l' =>
      let* c := cmp x y in
      if c <=? 0 then Ok (x :: y :: l')
      else let* r := sort_insertM cmp x l' in Ok (y :: r)
  end.

Fixpoint Array_sortM {A : Type} (cmp : A -> A -> Outcome Z) (l : list A)
  : Outcome (list A) :=
  match l with
  | [] => Ok []
  | x :: l' => let* r := Array_sortM cmp l' in sort_insertM cmp x r
  end.

(** [[...new Set(l)]]: the distinct elements in order of first occurrence. *)
Fixpoint Set_of {A : Type} `{EqDecision A} (l : list A) : list A :=
  match l with
  | [] => []
  | x :: l' => x :: filter (fun y => y <> x) (Set_of l')
  end.

(** A [Record<string, number>] built by assignments: the keys in insertion
    order with their values. *)
Definition Record_get {K : Type} `{EqDecision K} (o : list (K * Z)) (k : K) : option Z :=
  snd <$> find (fun kv => bool_decide (fst kv = k)) o.

Fixpoint Record_set {K : Type} `{EqDecision K} (o : list (K * Z)) (k : K) (v : Z)
  : list (K * Z) :=
  match o with
  | [] => [(k, v)]
  | (k', v') :: o' =>
      if bool_decide (k' = k) then (k, v) :: o' else (k', v') :: Record_set o' k v
  end.

(** [o[k] || 0] for a count. *)
Definition get_or_0 {K : Type} `{EqDecision K} (o : list (K * Z)) (k : K) : Z :=
  match Record_get o k with
  | Some v => if v =? 0 then 0 else v
  | None => 0
  end.

(** [Object.keys] lists the keys that are array indices first, in ascending
    numeric order, then the other string keys in insertion order. Of the
    rank strings, "2" to "10" are array indices; no suit name is. *)
Definition is_index_key (r : Rank) : bool :=
  match r with
  | rA | rJ | rQ | rK => false
  | _ => true
  end.

Definition Object_keys_Rank (o : list (Rank * Z)) : list Rank :=
  filter (fun r => includes (map fst o) r) [r2; r3; r4; r5; r6; r7; r8; r9; r10]
  ++ filter (fun r => negb (is_index_key r)) (map fst o).

Definition Object_keys_Suit (o : list (Suit * Z)) : list Suit := map fst o.

(** [undefined] printed inside a template string. *)
Definition show_Rank (r : option Rank) : string :=
  match r with
  | Some r => Rank_str r
  | None => "undefined"
  end.

(** ** src/lib/poker-engine/src/evaluation.ts *)

Definition countRanks (cards : list Card) : list (Rank * Z) :=
  fold_left (fun counts card =>
               Record_set counts (rank card) (get_or_0 counts (rank card) + 1))
            cards [].

Definition countSuits (cards : list Card) : list (Suit * Z) :=
  fold_left (fun counts card =>
               Record_set counts (suit card) (get_or_0 counts (suit card) + 1))
            cards [].

(** [(a, b) => b.value - a.value] *)
Definition byValueDesc (a b : Card) : Z := value b - value a.

(** [rankCounts[rank] === n] *)
Definition count_is (o : list (Rank * Z)) (n : Z) (r : Rank) : bool :=
  bool_decide (Record_get o r = Some n).

Definition checkFlush (cards : list Card) : Outcome (option HandEvaluation) :=
  let suitCounts := countSuits cards in
  match find (fun suit => match Record_get suitCounts suit with
                          | Some n => 5 <=? n
                          | None => false
                          end)
             (Object_keys_Suit suitCounts) with
  | Some flushSuit =>
      let flushCards := take 5 (filter (fun c => suit c = flushSuit) cards) in
      match flushCards with
      | c0 :: _ =>
          Ok (Some (mkHandEvaluation (map Some flushCards) FLUSH
                      (map Some (drop 1 flushCards))
                      ("Flush, " +:+ display c0 +:+ " high")))
      | [] => Throw TypeError
      end
  | None => Ok None
  end.

(** The [for] loop of [checkStraight] at index [i]: [uniqueValues] here is
    the part of the array from index [i] on, and the loop goes on while
    [i <= length - 5], that is while the element at [i + 4] exists. The
    result [Ok None] says that the loop ended without returning. *)
Fixpoint checkStraight_loop (cards : list Card) (uniqueValues : list Z)
  : Outcome (option HandEvaluation) :=
  match uniqueValues with
  | [] => Ok None
  | hi :: rest =>
      match rest !! 3%nat with
      | None => Ok None
      | Some lo =>
          if hi - lo =? 4 then
            let straightCards :=
              take 5 (filter (fun c => (lo <=? value c) && (value c <=? hi)) cards) in
            match straightCards with
            | c0 :: _ =>
                Ok (Some (mkHandEvaluation (map Some straightCards) STRAIGHT []
                            ("Straight, " +:+ display c0 +:+ " high")))
            | [] => Throw TypeError
            end
          else checkStraight_loop cards rest
      end
  end.

Definition has_rank (cards : list Card) (r : Rank) : bool :=
  existsb (fun c => bool_decide (rank c = r)) cards.

Definition find_rank (cards : list Card) (r : Rank) : option Card :=
  find (fun c => bool_decide (rank c = r)) cards.

Definition checkStraight (cards : list Card) : Outcome (option HandEvaluation) :=
  let uniqueValues := Array_sort (fun a b => b - a) (Set_of (map value cards)) in
  let* found := checkStraight_loop cards uniqueValues in
  match found with
  | Some result => Ok (Some result)
  | None =>
      let hasAce := has_rank cards rA in
      let hasTwo := has_rank cards r2 in
      let hasThree := has_rank cards r3 in
      let hasFour := has_rank cards r4 in
      let hasFive := has_rank cards r5 in
      if hasAce && hasTwo && hasThree && hasFour && hasFive then
        let wheelCards :=
          [find_rank cards r5; find_rank cards r4; find_rank cards r3;
           find_rank cards r2; find_rank cards rA] in
        Ok (Some (mkHandEvaluation wheelCards STRAIGHT [] "Straight, 5 high (wheel)"))
      else Ok None
  end.

Definition checkRoyalFlush (cards : list Card) : Outcome (option HandEvaluation) :=
  let* flushResult := checkFlush cards in
  match flushResult with
  | None => Ok None
  | Some _ =>
      let ranks := map rank cards in
      let royalRanks := [rA; rK; rQ; rJ; r10] in
      let isRoyal := forallb (fun rank => includes ranks rank) royalRanks in
      if isRoyal then
        match cards with
        | c0 :: _ =>
            Ok (Some (mkHandEvaluation (map Some cards) ROYAL_FLUSH []
                        ("Royal Flush of " +:+ Suit_str (suit c0))))
        | [] => Throw TypeError
        end
      else Ok None
  end.

Definition checkStraightFlush (cards : list Card) : Outcome (option HandEvaluation) :=
  let* flushResult := checkFlush cards in
  let* straightResult := checkStraight cards in
  match flushResult, straightResult with
  | Some _, Some _ =>
      match cards with
      | c0 :: _ =>
          Ok (Some (mkHandEvaluation (map Some cards) STRAIGHT_FLUSH []
                      ("Straight Flush, " +:+ display c0 +:+ " high")))
      | [] => Throw TypeError
      end
  | _, _ => Ok None
  end.

Definition checkFourOfAKind (cards : list Card) : option HandEvaluation :=
  let rankCounts := countRanks cards in
  match find (count_is rankCounts 4) (Object_keys_Rank rankCounts) with
  | Some fourOfAKindRank =>
      let fourCards := filter (fun c => rank c = fourOfAKindRank) cards in
      let kicker := find (fun c => bool_decide (rank c <> fourOfAKindRank)) cards in
      Some (mkHandEvaluation (map Some fourCards ++ [kicker]) FOUR_OF_A_KIND [kicker]
              ("Four of a Kind, " +:+ Rank_str fourOfAKindRank +:+ "s"))
  | None => None
  end.

Definition checkFullHouse (cards : list Card) : option HandEvaluation :=
  let rankCounts := countRanks cards in
  let threeOfAKindRank := find (count_is rankCounts 3) (Object_keys_Rank rankCounts) in
  let pairRank := find (count_is rankCounts 2) (Object_keys_Rank rankCounts) in
  match threeOfAKindRank, pairRank with
  | Some threeOfAKindRank, Some pairRank =>
      let threeCards := filter (fun c => rank c = threeOfAKindRank) cards in
      let pairCards := filter (fun c => rank c = pairRank) cards in
      Some (mkHandEvaluation (map Some (threeCards ++ pairCards)) FULL_HOUSE []
              ("Full House, " +:+ Rank_str threeOfAKindRank +:+ "s over "
               +:+ Rank_str pairRank +:+ "s"))
  | _, _ => None
  end.

Definition checkThreeOfAKind (cards : list Card) : option HandEvaluation :=
  let rankCounts := countRanks cards in
  match find (count_is rankCounts 3) (Object_keys_Rank rankCounts) with
  | Some threeOfAKindRank =>
      let threeCards := filter (fun c => rank c = threeOfAKindRank) cards in
      let kickers :=
        take 2 (Array_sort byValueDesc
                  (filter (fun c => rank c <> threeOfAKindRank) cards)) in
      Some (mkHandEvaluation (map Some (threeCards ++ kickers)) THREE_OF_A_KIND
              (map Some kickers)
              ("Three of a Kind, " +:+ Rank_str threeOfAKindRank +:+ "s"))
  | None => None
  end.

(** The comparator of [pairs.sort] in [checkTwoPair]; [aCard.value] throws
    when [find] gave [undefined]. *)
Definition byPairValueDesc (cards : list Card) (a b : Rank) : Outcome Z :=
  match find_rank cards a, find_rank cards b with
  | Some aCard, Some bCard => Ok (value bCard - value aCard)
  | _, _ => Throw TypeError
  end.

Definition checkTwoPair (cards : list Card) : Outcome (option HandEvaluation) :=
  let rankCounts := countRanks cards in
  let pairs := filter (fun r => count_is rankCounts 2 r) (Object_keys_Rank rankCounts) in
  if (2 <=? length pairs)%nat then
    let* sortedPairs := Array_sortM (byPairValueDesc cards) pairs in
    let higherPair := filter (fun c => Some (rank c) = sortedPairs !! 0%nat) cards in
    let lowerPair := filter (fun c => Some (rank c) = sortedPairs !! 1%nat) cards in
    let kicker :=
      Array_sort byValueDesc
        (filter (fun c => negb (includes sortedPairs (rank c))) cards) !! 0%nat in
    Ok (Some (mkHandEvaluation (map Some (higherPair ++ lowerPair) ++ [kicker]) TWO_PAIR
                [kicker]
                ("Two Pair, " +:+ show_Rank (sortedPairs !! 0%nat) +:+ "s and "
                 +:+ show_Rank (sortedPairs !! 1%nat) +:+ "s")))
  else Ok None.

Definition checkOnePair (cards : list Card) : option HandEvaluation :=
  let rankCounts := countRanks cards in
  match find (count_is rankCounts 2) (Object_keys_Rank rankCounts) with
  | Some pairRank =>
      let pairCards := filter (fun c => rank c = pairRank) cards in
      let kickers :=
        take 3 (Array_sort byValueDesc (filter (fun c => rank c <> pairRank) cards)) in
      Some (mkHandEvaluation (map Some (pairCards ++ kickers)) PAIR (map Some kickers)
              ("Pair of " +:+ Rank_str pairRank +:+ "s"))
  | None => None
  end.

(** The chain [result = check(...); if (result) return result] of
    [evaluateFiveCardHand]. *)
Definition orElse (r : Outcome (option HandEvaluation))
    (k : Outcome HandEvaluation) : Outcome HandEvaluation :=
  let* result := r in
  match result with
  | Some result => Ok result
  | None => k
  end.

Definition evaluateFiveCardHand (cards : list Card) : Outcome HandEvaluation :=
  let sortedCards := Array_sort byValueDesc cards in
  orElse (checkRoyalFlush sortedCards) (
  orElse (checkStraightFlush sortedCards) (
  orElse (Ok (checkFourOfAKind sortedCards)) (
  orElse (Ok (checkFullHouse sortedCards)) (
  orElse (checkFlush sortedCards) (
  orElse (checkStraight sortedCards) (
  orElse (Ok (checkThreeOfAKind sortedCards)) (
  orElse (checkTwoPair sortedCards) (
  orElse (Ok (checkOnePair sortedCards)) (
  match sortedCards with
  | c0 :: _ =>
      Ok (mkHandEvaluation (map Some sortedCards) HIGH_CARD
            (map Some (drop 1 sortedCards))
            ("High Card, " +:+ display c0 +:+ " high"))
  | [] => Throw TypeError
  end))))))))).

Fixpoint getCombinations (cards : list Card) (k : nat) : list (list Card) :=
  match k with
  | O => [[]]
  | S k' =>
      match cards with
      | [] => []
      | first :: rest =>
          let combosWithoutFirst := getCombinations rest k in
          let combosWithFirst :=
            map (fun combo => first :: combo) (getCombinations rest k') in
          combosWithoutFirst ++ combosWithFirst
      end
  end.

(** [kickers[i]?.value || 0] *)
Definition kickerValue (ks : list (option Card)) (i : nat) : Z :=
  match ks !! i with
  | Some (Some c) => if value c =? 0 then 0 else value c
  | _ => 0
  end.

(** The kicker loop of [compareHands] from index [i], with [n] indices left
    below [Math.max] of the two lengths. *)
Fixpoint compareHands_loop (n i : nat) (kickers1 kickers2 : list (option Card)) : Z :=
  match n with
  | O => 0
  | S n' =>
      let kicker1Value := kickerValue kickers1 i in
      let kicker2Value := kickerValue kickers2 i in
      if negb (kicker1Value =? kicker2Value) then kicker1Value - kicker2Value
      else compareHands_loop n' (S i) kickers1 kickers2
  end.

Definition compareHands (hand1 hand2 : HandEvaluation) : Z :=
  if negb (HandStrength_value (handStrength hand1) =? HandStrength_value (handStrength hand2))
  then HandStrength_value (handStrength hand1) - HandStrength_value (handStrength hand2)
  else compareHands_loop (Nat.max (length (kickers hand1)) (length (kickers hand2))) 0
         (kickers hand1) (kickers hand2).

(** One iteration of the loop of [findBestFiveCardHand]. *)
Definition findBest_step (bestHand : option HandEvaluation) (combo : list Card)
  : Outcome (option HandEvaluation) :=
  let* evaluation := evaluateFiveCardHand combo in
  match bestHand with
  | None => Ok (Some evaluation)
  | Some best =>
      if HandStrength_value (handStrength best) <? HandStrength_value (handStrength evaluation)
      then Ok (Some evaluation)
      else if HandStrength_value (handStrength evaluation)
              =? HandStrength_value (handStrength best)
      then (if 0 <? compareHands evaluation best then Ok (Some evaluation)
            else Ok (Some best))
      else Ok (Some best)
  end.

Fixpoint findBest_loop (combinations : list (list Card)) (bestHand : option HandEvaluation)
  : Outcome (option HandEvaluation) :=
  match combinations with
  | [] => Ok bestHand
  | combo :: combinations' =>
      let* bestHand' := findBest_step bestHand combo in
      findBest_loop combinations' bestHand'
  end.

(** [return bestHand!]: with no combination the function returns [null];
    each caller reads a property of the result, which is modelled here as
    the [TypeError] that read raises. *)
Definition findBestFiveCardHand (cards : list Card) : Outcome HandEvaluation :=
  let combinations := getCombinations cards 5 in
  let* bestHand := findBest_loop combinations None in
  match bestHand with
  | Some best => Ok best
  | None => Throw TypeError
  end.

Definition evaluatePokerHand (cards : list Card) : Outcome HandEvaluation :=
  if (length cards <? 5)%nat then Throw (Error "INSUFFICIENT_CARDS")
  else if (length cards =? 5)%nat then evaluateFiveCardHand cards
  else findBestFiveCardHand cards.

(** ** JavaScript numbers *)

(** A number is a rational (doubles are idealised as the exact values they
    approximate), NaN, or an infinity. *)
Inductive JsNum : Type :=
| Num (q : Q)
| NaN
| PosInf
| NegInf.

(** A run-time value that is a number or a string: the parameter
    [numSimulations] is declared [number] and receives a string on one
    path. *)
Inductive JsVal : Type :=
| VNum (n : JsNum)
| VStr (s : string).

Definition is_digit (c : ascii) : bool :=
  let n := nat_of_ascii c in ((48 <=? n) && (n <=? 57))%nat.

Fixpoint digits_value (s : string) (acc : Z) : option Z :=
  match s with
  | EmptyString => Some acc
  | String c s' =>
      if is_digit c then digits_value s' (10 * acc + Z.of_nat (nat_of_ascii c - 48))
      else None
  end.

(** [ToNumber] of a string: the empty string is 0, a string of decimal
    digits is its value, and a string that is no numeric literal is NaN.
    The other literal forms (sign, fraction, exponent, radix prefix,
    [Infinity], white space around a literal or alone) are not modelled. The
    model is exact on the strings of digits and on every string without a
    digit that has a character other than white space and does not contain
    "Infinity", as the stage names are. *)
Definition StringToNumber (s : string) : JsNum :=
  match digits_value s 0 with
  | Some z => Num (inject_Z z)
  | None => NaN
  end.

Definition ToNumber (v : JsVal) : JsNum :=
  match v with
  | VNum n => n
  | VStr s => StringToNumber s
  end.

Definition js_sgn (a : JsNum) : Z :=
  match a with
  | Num x => Z.sgn (Qnum x)
  | NaN => 0
  | PosInf => 1
  | NegInf => -1
  end.

Definition js_inf (sign : Z) : JsNum :=
  match sign with
  | Z0 => NaN
  | Zpos _ => PosInf
  | Zneg _ => NegInf
  end.

(** [a / b]; the zero is the positive zero. *)
Definition js_div (a b : JsNum) : JsNum :=
  match a, b with
  | NaN, _ | _, NaN => NaN
  | Num x, Num y => if Qeq_bool y 0 then js_inf (js_sgn a) else Num (x / y)
  | Num _, _ => Num 0
  | _, Num y => js_inf (js_sgn a * (if Qle_bool 0 y then 1 else -1))
  | _, _ => NaN
  end.

(** [a - b] *)
Definition js_sub (a b : JsNum) : JsNum :=
  match a, b with
  | NaN, _ | _, NaN => NaN
  | Num x, Num y => Num (x - y)
  | Num _, PosInf => NegInf
  | Num _, NegInf => PosInf
  | PosInf, PosInf | NegInf, NegInf => NaN
  | PosInf, _ => PosInf
  | NegInf, _ => NegInf
  end.

(** [a * b] *)
Definition js_mul (a b : JsNum) : JsNum :=
  match a, b with
  | NaN, _ | _, NaN => NaN
  | Num x, Num y => Num (x * y)
  | _, _ => js_inf (js_sgn a * js_sgn b)
  end.

(** [a === q] for a finite constant [q] *)
Definition js_eq_const (a : JsNum) (q : Q) : bool :=
  match a with
  | Num x => Qeq_bool x q
  | _ => false
  end.

(** How often the body of [for (let i = 0; i < n; i++)] runs: the number of
    naturals below [n], none when [n] is NaN, and [None] when the loop never
    ends. *)
Definition for_count (n : JsNum) : option nat :=
  match n with
  | Num q => Some (Z.to_nat (Qceiling q))
  | NaN | NegInf => Some O
  | PosInf => None
  end.

(** [Math.round] *)
Definition Math_round (x : Q) : Z := Qfloor (x + (1 # 2))%Q.

(** [x.toFixed(1)] for a finite [x] below 10^21 in size: the sign, then the
    integer [n] for which [n / 10] is closest to the size of [x] (the larger
    one of two), printed with one digit after the point. *)
Definition toFixed1 (x : JsNum) : string :=
  match x with
  | NaN => "NaN"
  | PosInf => "Infinity"
  | NegInf => "-Infinity"
  | Num q =>
      let neg := negb (Qle_bool 0 q) in
      let a := if neg then Qopp q else q in
      let n := Qfloor (a * 10 + (1 # 2))%Q in
      (if neg then "-" else "") +:+ string_of_Z (n / 10) +:+ "." +:+ string_of_Z (n mod 10)
  end.

(** ** src/lib/card-utils/src/deck.ts, and [shuffleDeck] of card-utils.ts *)

Definition getRemainingCards (knownCards : list Card) : Outcome (list Card) :=
  let* fullDeck := createDeck in
  let knownIds : gset string := list_to_set (map id knownCards) in
  Ok (filter (fun card => negb (has knownIds (id card))) (availableCards fullDeck)).

(** [[a[i], a[j]] = [a[j], a[i]]] for indices within the array. *)
Definition swap (i j : nat) (cards : list Card) : list Card :=
  match cards !! i, cards !! j with
  | Some ci, Some cj => <[i := cj]> (<[j := ci]> cards)
  | _, _ => cards
  end.

Section RandomSource.

(** The random source: [rnd k] is what the [k]-th call of [Math.random]
    contributes, and [Math.floor(Math.random() * (i + 1))] is that draw
    reduced to the range 0..i. Functions that draw take the number of calls
    made so far and return the new number. *)
Variable rnd : nat -> nat.

(** The loop of [shuffleDeck], entered at index [i] and run while [i > 0]. *)
Fixpoint shuffle_loop (i : nat) (shuffledCards : list Card) (k : nat)
  : list Card * nat :=
  match i with
  | O => (shuffledCards, k)
  | S i' =>
      let j := (rnd k mod (i + 1))%nat in
      shuffle_loop i' (swap i j shuffledCards) (S k)
  end.

Definition shuffleDeck (deck : Deck) (k : nat) : Deck * nat :=
  let '(shuffledCards, k') :=
    shuffle_loop (length (availableCards deck) - 1) (availableCards deck) k in
  (mkDeck shuffledCards (usedCards deck) (totalCards deck), k').

(** The body of the loop of [simulateDeal], run [iterations] times. *)
Fixpoint simulateDeal_loop (iterations : nat) (knownCards available : list Card)
    (simulations : list (list Card)) (k : nat) : Outcome (list (list Card) * nat) :=
  match iterations with
  | O => Ok (simulations, k)
  | S iterations' =>
      let simulationDeck := mkDeck available knownCards 52 in
      let '(shuffled, k') := shuffleDeck simulationDeck k in
      let neededCards := 7 - Z.of_nat (length knownCards) in
      let* simulations' :=
        if 0 <? neededCards then
          let* dealt :=
            dealCards shuffled
              (Nat.min (Z.to_nat neededCards) (length (availableCards shuffled))) in
          Ok (simulations ++ [knownCards ++ dealtCards dealt])
        else Ok (simulations ++ [knownCards]) in
      simulateDeal_loop iterations' knownCards available simulations' k'
  end.

(** [simulateDeal]; the loop test [i < numSimulations] converts a string
    bound to a number. *)
Definition simulateDeal (knownCards : list Card) (numSimulations : JsVal) (k : nat)
  : Outcome (list (list Card) * nat) :=
  let* available := getRemainingCards knownCards in
  match for_count (ToNumber numSimulations) with
  | Some iterations => simulateDeal_loop iterations knownCards available [] k
  | None => Diverge
  end.

End RandomSource.

(** ** src/lib/card-utils/src/validation.ts *)

Definition validateHandForEvaluation (cards : list Card) : ValidationResult :=
  let errs : list ValidationError := [] in
  let errs :=
    if (length cards <? 5)%nat then
      errs ++ [mkValidationError "INSUFFICIENT_CARDS"
                 ("Hand evaluation requires at least 5 cards, got "
                  +:+ string_of_nat (length cards)) None]
    else errs in
  let errs :=
    if (7 <? length cards)%nat then
      errs ++ [mkValidationError "TOO_MANY_CARDS"
                 ("Hand evaluation supports maximum 7 cards, got "
                  +:+ string_of_nat (length cards)) None]
    else errs in
  let cardValidation := validateCards cards in
  let errs :=
    if negb (isValid cardValidation) then errs ++ errors cardValidation
    else errs in
  mkValidationResult (Nat.eqb (length errs) 0) errs.

(** ** src/lib/poker-engine/src/probability.ts *)

Record ProbabilityResult : Type := mkProbabilityResult {
  handType : HandStrength;
  probability : JsNum;
  percentage : JsNum;
  odds : string;
  occurrences : Z;
  totalOutcomes : JsVal
}.

Inductive CalculationMethod : Type := auto | lookup | simulation | exact.

#[global] Instance CalculationMethod_eq_dec : EqDecision CalculationMethod.
Proof. solve_decision. Defined.

(** The handType values 0 to 9 in order, which is also the order in which
    [Object.keys] and [Object.values] list a [Record<HandStrength, number>]. *)
Definition HandStrength_all : list HandStrength :=
  [HIGH_CARD; PAIR; TWO_PAIR; THREE_OF_A_KIND; STRAIGHT;
   FLUSH; FULL_HOUSE; FOUR_OF_A_KIND; STRAIGHT_FLUSH; ROYAL_FLUSH].

(** [record[key] = v] on a record that has all ten keys. *)
Definition Record_upd {V : Type} (record : HandStrength -> V) (key : HandStrength) (v : V)
  : HandStrength -> V :=
  fun h => if bool_decide (h = key) then v else record h.

(** The string literal of the first branch is written in the source file
    with the six bytes C3 A2 CB 86 C5 BE, the three characters below. *)
Definition formatOdds (probability : JsNum) : string :=
  if js_eq_const probability 0 then "âˆž:1"
  else if js_eq_const probability 1 then "1:1"
  else
    let odds := js_div (js_sub (Num 1) probability) probability in
    toFixed1 odds +:+ ":1".

Definition getBaseProbabilities : HandStrength -> Q :=
  fun h =>
    match h with
    | HIGH_CARD => 0.501177
    | PAIR => 0.422569
    | TWO_PAIR => 0.047539
    | THREE_OF_A_KIND => 0.021128
    | STRAIGHT => 0.003925
    | FLUSH => 0.001965
    | FULL_HOUSE => 0.001441
    | FOUR_OF_A_KIND => 0.000240
    | STRAIGHT_FLUSH => 0.000015
    | ROYAL_FLUSH => 0.000002
    end%Q.

Definition Object_values_Rank (o : list (Rank * Z)) : list (option Z) :=
  map (Record_get o) (Object_keys_Rank o).

Definition Object_values_Suit (o : list (Suit * Z)) : list (option Z) :=
  map (Record_get o) (Object_keys_Suit o).

(** [Math.max(...values)]; [None] is the [-Infinity] of no argument. *)
Definition Math_max (values : list (option Z)) : option Z :=
  fold_left (fun acc v =>
               match acc, v with
               | Some a, Some b => Some (Z.max a b)
               | None, v => v
               | acc, None => acc
               end) values None.

(** The loop that counts the adjacent values that differ by one. *)
Fixpoint straightDraw_loop (sortedValues : list Z) (straightDraw : Z) : Z :=
  match sortedValues with
  | a :: (b :: _) as rest =>
      straightDraw_loop rest (if b - a =? 1 then straightDraw + 1 else straightDraw)
  | _ => straightDraw
  end.

(** [adjustProbabilitiesForHand]. Each early [return] gives the record
    [adjusted], which starts with all ten keys at 0, after the assignments of
    its branch. *)
Definition adjustProbabilitiesForHand (baseProbabilities : HandStrength -> Q)
    (knownCards : list Card) : HandStrength -> Q :=
  let adjusted : HandStrength -> Q := fun _ => 0%Q in
  let rankCounts := countRanks knownCards in
  let suitCounts := countSuits knownCards in
  let pairCount := length (filter (fun c => c = Some 2) (Object_values_Rank rankCounts)) in
  let tripCount := length (filter (fun c => c = Some 3) (Object_values_Rank rankCounts)) in
  let quadCount := length (filter (fun c => c = Some 4) (Object_values_Rank rankCounts)) in
  if (0 <? quadCount)%nat then
    Record_upd adjusted FOUR_OF_A_KIND 1.0%Q
  else if (0 <? tripCount)%nat then
    let adjusted := Record_upd adjusted HIGH_CARD 0%Q in
    let adjusted := Record_upd adjusted PAIR 0%Q in
    let adjusted := Record_upd adjusted THREE_OF_A_KIND 0.6%Q in
    let adjusted := Record_upd adjusted FULL_HOUSE 0.35%Q in
    let adjusted := Record_upd adjusted FOUR_OF_A_KIND 0.05%Q in
    adjusted
  else if (2 <=? pairCount)%nat then
    let adjusted := Record_upd adjusted HIGH_CARD 0%Q in
    let adjusted := Record_upd adjusted PAIR 0%Q in
    let adjusted := Record_upd adjusted TWO_PAIR 0.7%Q in
    let adjusted := Record_upd adjusted FULL_HOUSE 0.25%Q in
    let adjusted := Record_upd adjusted THREE_OF_A_KIND 0.03%Q in
    let adjusted := Record_upd adjusted FOUR_OF_A_KIND 0.02%Q in
    adjusted
  else if (pairCount =? 1)%nat then
    let adjusted := Record_upd adjusted HIGH_CARD 0%Q in
    let adjusted := Record_upd adjusted PAIR 0.18%Q in
    let adjusted := Record_upd adjusted TWO_PAIR 0.23%Q in
    let adjusted := Record_upd adjusted THREE_OF_A_KIND 0.12%Q in
    let adjusted := Record_upd adjusted STRAIGHT 0.04%Q in
    let adjusted := Record_upd adjusted FLUSH 0.02%Q in
    let adjusted := Record_upd adjusted FULL_HOUSE 0.025%Q in
    let adjusted := Record_upd adjusted FOUR_OF_A_KIND 0.002%Q in
    let adjusted := Record_upd adjusted STRAIGHT_FLUSH 0.0001%Q in
    let adjusted := Record_upd adjusted ROYAL_FLUSH 0.000001%Q in
    adjusted
  else
    let maxSuitCount := Math_max (Object_values_Suit suitCounts) in
    let sortedValues := Array_sort (fun a b => a - b) (Set_of (map value knownCards)) in
    let straightDraw := straightDraw_loop sortedValues 0 in
    let atLeast (n : Z) := match maxSuitCount with Some m => n <=? m | None => false end in
    let adjusted := Record_upd adjusted HIGH_CARD (baseProbabilities HIGH_CARD) in
    let adjusted := Record_upd adjusted PAIR (baseProbabilities PAIR) in
    let adjusted := Record_upd adjusted TWO_PAIR (baseProbabilities TWO_PAIR) in
    let adjusted :=
      Record_upd adjusted THREE_OF_A_KIND (baseProbabilities THREE_OF_A_KIND) in
    let adjusted :=
      Record_upd adjusted STRAIGHT
        (baseProbabilities STRAIGHT * (if (3 <=? straightDraw)%Z then 3 else 1))%Q in
    let adjusted :=
      Record_upd adjusted FLUSH
        (baseProbabilities FLUSH
         * (if atLeast 4%Z then 8 else if atLeast 3%Z then 2 else 1))%Q in
    let adjusted := Record_upd adjusted FULL_HOUSE (baseProbabilities FULL_HOUSE) in
    let adjusted := Record_upd adjusted FOUR_OF_A_KIND (baseProbabilities FOUR_OF_A_KIND) in
    let adjusted := Record_upd adjusted STRAIGHT_FLUSH (baseProbabilities STRAIGHT_FLUSH) in
    let adjusted := Record_upd adjusted ROYAL_FLUSH (baseProbabilities ROYAL_FLUSH) in
    let total := fold_left (fun sum prob => (sum + prob)%Q) (map adjusted HandStrength_all) 0%Q in
    if negb (Qle_bool total 0) then
      fold_left (fun adjusted key => Record_upd adjusted key (adjusted key / total)%Q)
                HandStrength_all adjusted
    else adjusted.

Definition createProbabilityResults (probabilities : HandStrength -> Q) (totalOutcomes : Q)
  : list ProbabilityResult :=
  map (fun handType =>
         let probability :=
           if Qeq_bool (probabilities handType) 0 then 0%Q else probabilities handType in
         let occurrences := Math_round (probability * totalOutcomes) in
         mkProbabilityResult handType (Num probability) (js_mul (Num probability) (Num 100))
           (formatOdds (Num probability)) occurrences (VNum (Num totalOutcomes)))
      HandStrength_all.

Definition calculateUsingLookup (playerHand communityCards : list Card)
  : list ProbabilityResult :=
  let knownCards := playerHand ++ communityCards in
  let totalKnownCards := length knownCards in
  let baseProbabilities := getBaseProbabilities in
  let baseProbabilities :=
    if (2 <=? totalKnownCards)%nat then adjustProbabilitiesForHand baseProbabilities knownCards
    else baseProbabilities in
  createProbabilityResults baseProbabilities 1000.

(** The tally loop of [calculateUsingSimulation]: a simulation whose
    evaluation throws is skipped. *)
Fixpoint tally_loop (simulations : list (list Card)) (handCounts : HandStrength -> Z)
  : Outcome (HandStrength -> Z) :=
  match simulations with
  | [] => Ok handCounts
  | simulatedCards :: simulations' =>
      match evaluatePokerHand simulatedCards with
      | Ok evaluation =>
          tally_loop simulations'
            (Record_upd handCounts (handStrength evaluation)
               (handCounts (handStrength evaluation) + 1))
      | Throw _ => tally_loop simulations' handCounts
      | Diverge => Diverge
      end
  end.

Definition calculateUsingSimulation (rnd : nat -> nat)
    (playerHand communityCards : list Card) (numSimulations : JsVal) (k : nat)
  : Outcome (list ProbabilityResult * nat) :=
  let knownCards := playerHand ++ communityCards in
  let handCounts : HandStrength -> Z := fun _ => 0 in
  let* (simulations, k') := simulateDeal rnd knownCards numSimulations k in
  let* handCounts := tally_loop simulations handCounts in
  let results :=
    map (fun handType =>
           let count := handCounts handType in
           let probability := js_div (Num (inject_Z count)) (ToNumber numSimulations) in
           mkProbabilityResult handType probability (js_mul probability (Num 100))
             (formatOdds probability) count numSimulations)
        HandStrength_all in
  Ok (results, k').

(** The default value of the parameter [numSimulations]. *)
Definition numSimulations_default : JsVal := VNum (Num 10000).

(** [calculateUsingExact] calls
    [calculateUsingSimulation(playerHand, communityCards, stage, 100000)]:
    the third parameter, [numSimulations], receives [stage], and the fourth
    argument has no parameter to go to. *)
Definition calculateUsingExact (rnd : nat -> nat)
    (playerHand communityCards : list Card) (stage : string) (k : nat)
  : Outcome (list ProbabilityResult * nat) :=
  calculateUsingSimulation rnd playerHand communityCards (VStr stage) k.

Definition calculateHandProbabilities (rnd : nat -> nat)
    (playerHand communityCards : list Card) (stage : string) (method : CalculationMethod)
    (k : nat) : Outcome (list ProbabilityResult * nat) :=
  match method with
  | lookup => Ok (calculateUsingLookup playerHand communityCards, k)
  | simulation =>
      calculateUsingSimulation rnd playerHand communityCards numSimulations_default k
  | exact => calculateUsingExact rnd playerHand communityCards stage k
  | auto => Ok (calculateUsingLookup playerHand communityCards, k)
  end.

(** The loop of [calculateOuts]: a candidate whose evaluation throws is
    skipped. *)
Fixpoint calculateOuts_loop (knownCards remainingCards : list Card)
    (targetHand : HandStrength) (outs : Z) : Outcome Z :=
  match remainingCards with
  | [] => Ok outs
  | card :: remainingCards' =>
      let testCards := knownCards ++ [card] in
      match evaluatePokerHand testCards with
      | Ok evaluation =>
          calculateOuts_loop knownCards remainingCards' targetHand
            (if HandStrength_value targetHand <=? HandStrength_value (handStrength evaluation)
             then outs + 1 else outs)
      | Throw _ => calculateOuts_loop knownCards remainingCards' targetHand outs
      | Diverge => Diverge
      end
  end.

Definition calculateOuts (playerHand communityCards : list Card) (targetHand : HandStrength)
  : Outcome Z :=
  let knownCards := playerHand ++ communityCards in
  let* remainingCards := getRemainingCards knownCards in
  calculateOuts_loop knownCards remainingCards targetHand 0.

(** ** src/lib/poker-engine/src/poker-engine.ts *)

Module CalculationRequest.

Record t : Type := mk {
  playerHand : list Card;
  communityCards : list Card;
  stage : string;
  preferredMethod : option CalculationMethod
}.

End CalculationRequest.

Module CalculationResults.

Record t : Type := mk {
  stage : string;
  playerHand : list Card;
  communityCards : list Card;
  probabilities : list ProbabilityResult;
  calculationTime : Q;
  method : CalculationMethod;
  timestamp : Q
}.

End CalculationResults.

Definition determineOptimalMethod (request : CalculationRequest.t) : CalculationMethod :=
  let byCardCount :=
    let totalCards :=
      (length (CalculationRequest.playerHand request)
       + length (CalculationRequest.communityCards request))%nat in
    if (totalCards <=? 5)%nat then lookup
    else if (6 <=? totalCards)%nat then simulation
    else lookup in
  match CalculationRequest.preferredMethod request with
  | Some preferred => if bool_decide (preferred <> auto) then preferred else byCardCount
  | None => byCardCount
  end.

Section Engine.

(** The environment of one call: the random source of the simulation, the
    two readings of [performance.now()] and the reading of [Date.now()]. *)
Variable rnd : nat -> nat.
Variables startTime endTime now : Q.

(** [calculateProbabilities]; the calculation starts with [k] random draws
    made so far. A failed validation rejects with the code of the first
    error, and whatever the calculation throws is replaced by
    CALCULATION_FAILED. *)
Definition calculateProbabilities (request : CalculationRequest.t) (k : nat)
  : Outcome CalculationResults.t :=
  let validation :=
    validatePokerHand (CalculationRequest.playerHand request)
      (CalculationRequest.communityCards request) (CalculationRequest.stage request) in
  if negb (isValid validation) then
    match errors validation with
    | firstError :: _ => Throw (Error (code firstError))
    | [] => Throw TypeError
    end
  else
    let method := determineOptimalMethod request in
    match calculateHandProbabilities rnd (CalculationRequest.playerHand request)
            (CalculationRequest.communityCards request) (CalculationRequest.stage request)
            method k with
    | Ok (probabilities, _) =>
        let calculationTime := (endTime - startTime)%Q in
        Ok (CalculationResults.mk (CalculationRequest.stage request)
              (CalculationRequest.playerHand request)
              (CalculationRequest.communityCards request)
              probabilities calculationTime method now)
    | Throw _ => Throw (Error "CALCULATION_FAILED")
    | Diverge => Diverge
    end.

End Engine.

Definition evaluateHand (cards : list Card) : Outcome HandEvaluation :=
  let validation := validateHandForEvaluation cards in
  if negb (isValid validation) then
    match errors validation with
    | firstError :: _ => Throw (Error (code firstError))
    | [] => Throw TypeError
    end
  else evaluatePokerHand cards.

(** * Further functions of the same files *)

(** ** [compareCards] of card-utils.ts *)

Record ComparisonResult : Type := mkComparisonResult {
  result : Z;
  reasoning : string
}.

(** [compareCards]; the parameter [aceHigh] has the default [true]. *)
Definition compareCards (card1 card2 : Card) (aceHigh : bool) : ComparisonResult :=
  let values := if aceHigh then CARD_VALUES else CARD_VALUES_ACE_LOW in
  let value1 := values (rank card1) in
  let value2 := values (rank card2) in
  let '(result, reasoning) :=
    if value1 <? value2 then
      (-1, display card1 +:+ " (" +:+ string_of_Z value1 +:+ ") is lower than "
           +:+ display card2 +:+ " (" +:+ string_of_Z value2 +:+ ")")
    else if value2 <? value1 then
      (1, display card1 +:+ " (" +:+ string_of_Z value1 +:+ ") is higher than "
          +:+ display card2 +:+ " (" +:+ string_of_Z value2 +:+ ")")
    else
      (0, display card1 +:+ " and " +:+ display card2 +:+ " have equal rank ("
          +:+ string_of_Z value1 +:+ ")") in
  let anAce := bool_decide (rank card1 = rA) || bool_decide (rank card2 = rA) in
  let reasoning :=
    if aceHigh && anAce then reasoning +:+ " (Ace is high)"
    else if negb aceHigh && anAce then reasoning +:+ " (Ace is low)"
    else reasoning in
  mkComparisonResult result reasoning.

(** ** The other functions of deck.ts *)

Definition createShuffledDeck (rnd : nat -> nat) (k : nat) : Outcome (Deck * nat) :=
  let* deck := createDeck in
  Ok (shuffleDeck rnd deck k).

Definition removeCardsFromDeck (deck : Deck) (cardsToRemove : list Card) : Deck :=
  let removeIds : gset string := list_to_set (map id cardsToRemove) in
  let available := filter (fun card => negb (has removeIds (id card))) (availableCards deck) in
  let used := usedCards deck ++ cardsToRemove in
  mkDeck available used 52.

Module DealHands.

Record t : Type := mk {
  hands : list (list Card);
  remainingDeck : Deck
}.

End DealHands.

(** The loop of [dealHands], with [numHands] iterations left. *)
Fixpoint dealHands_loop (numHands cardsPerHand : nat) (currentDeck : Deck)
    (hands : list (list Card)) : Outcome DealHands.t :=
  match numHands with
  | O => Ok (DealHands.mk hands currentDeck)
  | S numHands' =>
      let* result := dealCards currentDeck cardsPerHand in
      dealHands_loop numHands' cardsPerHand (remainingDeck result)
        (hands ++ [dealtCards result])
  end.

(** [dealHands]; the two counts are natural numbers. *)
Definition dealHands (deck : Deck) (numHands cardsPerHand : nat) : Outcome DealHands.t :=
  dealHands_loop numHands cardsPerHand deck [].

Record DeckStats : Type := mkDeckStats {
  availableCount : nat;
  usedCount : nat;
  availablePercentage : Q;
  suitCounts : Suit -> Z;
  rankCounts : Rank -> Z
}.

(** [record[key]++] on a record that has every key. *)
Definition incr {K : Type} `{EqDecision K} (record : K -> Z) (key : K) : K -> Z :=
  fun k => if bool_decide (k = key) then record k + 1 else record k.

(** [getDeckStats]; the percentage is the exact quotient, of which the
    source has the nearest double. *)
Definition getDeckStats (deck : Deck) : DeckStats :=
  let suitCounts : Suit -> Z := fun _ => 0 in
  let rankCounts : Rank -> Z := fun _ => 0 in
  let '(suitCounts, rankCounts) :=
    fold_left (fun '(suitCounts, rankCounts) card =>
                 (incr suitCounts (suit card), incr rankCounts (rank card)))
              (availableCards deck) (suitCounts, rankCounts) in
  mkDeckStats (length (availableCards deck)) (length (usedCards deck))
    ((inject_Z (Z.of_nat (length (availableCards deck))) / 52) * 100)%Q
    suitCounts rankCounts.

Definition canDealCards (deck : Deck) (count : nat) : bool :=
  (count <=? length (availableCards deck))%nat.

Definition resetDeck : Outcome Deck := createDeck.

(** ** The other functions of validation.ts *)

(** The table [stageRequirements] of [validateTexasHoldemCards]: the pair of
    [min] and [max]. The stage is the string the enum member is. *)
Definition stageRange (stage : string) : option (nat * nat) :=
  if String.eqb stage "pre-flop" then Some (0, 0)%nat
  else if String.eqb stage "flop" then Some (3, 3)%nat
  else if String.eqb stage "turn" then Some (4, 4)%nat
  else if String.eqb stage "river" then Some (5, 5)%nat
  else None.

Definition maxCardsForStage (stage : string) : option nat :=
  if String.eqb stage "pre-flop" then Some 2%nat
  else if String.eqb stage "flop" then Some 5%nat
  else if String.eqb stage "turn" then Some 6%nat
  else if String.eqb stage "river" then Some 7%nat
  else None.

(** [`${x}`] for a number that may be [undefined]. *)
Definition show_count (n : option nat) : string :=
  match n with
  | Some n => string_of_nat n
  | None => "undefined"
  end.

Definition validateTexasHoldemCards (playerHand communityCards : list Card) (stage : string)
  : ValidationResult :=
  let errs : list ValidationError := [] in
  let allCards := playerHand ++ communityCards in
  let basicValidation := validateCards allCards in
  if negb (isValid basicValidation) then basicValidation
  else
    let errs :=
      if (2 <? length playerHand)%nat then
        errs ++ [mkValidationError "TOO_MANY_HOLE_CARDS"
                   ("Player can only have 2 hole cards, got "
                    +:+ string_of_nat (length playerHand)) None]
      else errs in
    let requirement := stageRange stage in
    let errs :=
      match requirement with
      | Some (min, max) =>
          let errs :=
            if (length communityCards <? min)%nat then
              errs ++ [mkValidationError "INSUFFICIENT_COMMUNITY_CARDS"
                         (stage +:+ " requires at least " +:+ string_of_nat min
                          +:+ " community cards, got "
                          +:+ string_of_nat (length communityCards)) None]
            else errs in
          if (max <? length communityCards)%nat then
            errs ++ [mkValidationError "TOO_MANY_COMMUNITY_CARDS"
                       (stage +:+ " allows maximum " +:+ string_of_nat max
                        +:+ " community cards, got "
                        +:+ string_of_nat (length communityCards)) None]
          else errs
      | None => errs
      end in
    let totalCards := (length playerHand + length communityCards)%nat in
    let errs :=
      match maxCardsForStage stage with
      | Some most =>
          if (most <? totalCards)%nat then
            errs ++ [mkValidationError "TOO_MANY_TOTAL_CARDS"
                       (stage +:+ " allows maximum " +:+ show_count (maxCardsForStage stage)
                        +:+ " total cards, got " +:+ string_of_nat totalCards) None]
          else errs
      | None => errs
      end in
    mkValidationResult (Nat.eqb (length errs) 0) errs.

(** The table [validProgressions]. *)
Definition validProgressions (stage : string) : option (list string) :=
  if String.eqb stage "pre-flop" then Some ["flop"]
  else if String.eqb stage "flop" then Some ["turn"]
  else if String.eqb stage "turn" then Some ["river"]
  else if String.eqb stage "river" then Some []
  else None.

(** [validateGameProgression]; [validProgressions[currentStage].includes]
    throws when the current stage is no key of the table. *)
Definition validateGameProgression (currentStage targetStage : string)
    (playerHand communityCards : list Card) : Outcome ValidationResult :=
  let errs : list ValidationError := [] in
  let* targets :=
    match validProgressions currentStage with
    | Some targets => Ok targets
    | None => Throw TypeError
    end in
  let errs :=
    if negb (includes targets targetStage) then
      errs ++ [mkValidationError "INVALID_STAGE_PROGRESSION"
                 ("Cannot progress from " +:+ currentStage +:+ " to " +:+ targetStage) None]
    else errs in
  let errs :=
    if String.eqb targetStage "flop" && (length playerHand <? 2)%nat then
      errs ++ [mkValidationError "MISSING_HOLE_CARDS"
                 "Both hole cards must be selected before flop" None]
    else errs in
  let errs :=
    if String.eqb targetStage "turn" && (length communityCards <? 3)%nat then
      errs ++ [mkValidationError "MISSING_FLOP_CARDS"
                 "All 3 flop cards must be selected before turn" None]
    else errs in
  let errs :=
    if String.eqb targetStage "river" && (length communityCards <? 4)%nat then
      errs ++ [mkValidationError "MISSING_TURN_CARD"
                 "Turn card must be selected before river" None]
    else errs in
  Ok (mkValidationResult (Nat.eqb (length errs) 0) errs).

Definition validateCardSelection (card : Card) (slot : string) (existingCards : list Card)
  : ValidationResult :=
  let errs : list ValidationError := [] in
  let errs :=
    if existsb (fun existing => String.eqb (id existing) (id card)) existingCards then
      errs ++ [mkValidationError "DUPLICATE_CARD"
                 (display card +:+ " is already selected") (Some (id card))]
    else errs in
  let errs :=
    if startsWith slot "hole"
       && (2 <=? length (filter (fun c => startsWith (id c) "hole") existingCards))%nat then
      errs ++ [mkValidationError "HOLE_CARDS_FULL"
                 "Both hole card slots are already filled" None]
    else errs in
  let errs :=
    if startsWith slot "flop"
       && (3 <=? length (filter (fun c => startsWith (id c) "flop") existingCards))%nat then
      errs ++ [mkValidationError "FLOP_CARDS_FULL"
                 "All flop card slots are already filled" None]
    else errs in
  let errs :=
    if String.eqb slot "turn"
       && existsb (fun c => String.eqb (id c) "turn") existingCards then
      errs ++ [mkValidationError "TURN_CARD_FILLED"
                 "Turn card slot is already filled" None]
    else errs in
  let errs :=
    if String.eqb slot "river"
       && existsb (fun c => String.eqb (id c) "river") existingCards then
      errs ++ [mkValidationError "RIVER_CARD_FILLED"
                 "River card slot is already filled" None]
    else errs in
  mkValidationResult (Nat.eqb (length errs) 0) errs.

(** ** [calculateStage] of the calculator store (src/unnamed/part_010) *)

(** The slots of the store hold a card or [undefined] ([None]). *)
Definition calculateStage (playerHand communityCards : list (option Card)) : string :=
  let playerCount := length (filter (fun card => card <> None) playerHand) in
  let communityCount := length (filter (fun card => card <> None) communityCards) in
  if (playerCount <? 2)%nat then "pre-flop"
  else if (communityCount =? 0)%nat then "pre-flop"
  else if (communityCount <=? 3)%nat then "flop"
  else if (communityCount =? 4)%nat then "turn"
  else "river".

(** The cards the store passes on: [slots.filter(c => c !== undefined) as Card[]]. *)
Definition definedCards (slots : list (option Card)) : list Card := omap (fun c => c) slots.

(** * Definitions used to state the properties *)

(** The card [createCard] builds. *)
Definition card_of (s : Suit) (r : Rank) : Card :=
  mkCard s r (CARD_VALUES r) (Rank_str r +:+ SUIT_SYMBOLS s)
         (Rank_str r +:+ SUIT_ABBREVIATIONS s).

(** Closed decidable goals, such as membership of a literal in a literal
    list, by evaluation. *)
Ltac by_decide := apply (bool_decide_unpack _); vm_compute; reflexivity.

(** Membership hypotheses in short literal lists, split into their cases. *)
Ltac mem_cases H :=
  repeat (rewrite elem_of_cons in H; destruct H as [H | H]; [try discriminate H|]);
  try (apply elem_of_nil in H; destruct H).

(** The codes of the errors [validateCards] can push. *)
Definition card_level_codes : list string :=
  ["DUPLICATE_CARD"; "INVALID_SUIT"; "INVALID_RANK"; "INVALID_VALUE";
   "INVALID_DISPLAY"; "INVALID_ID"].

Definition codes (r : ValidationResult) : list string := map code (errors r).

(** The suit letters: H, D, C, S in either case. *)
Definition suit_letters : list (string * Suit) :=
  [("H", hearts); ("D", diamonds); ("C", clubs); ("S", spades);
   ("h", hearts); ("d", diamonds); ("c", clubs); ("s", spades)].

Definition suit_of_letter (l : string) : option Suit :=
  snd <$> find (fun p => String.eqb (fst p) l) suit_letters.

(** The canonical shape: a rank token followed by one suit letter and
    nothing else. *)
Definition card_code_shape (s : string) : bool :=
  existsb (fun r =>
             existsb (fun p => String.eqb s (Rank_str r +:+ fst p)) suit_letters)
          RANKS.

(** The code units that [parseCard] takes for a suit: the four letters in
    either case, and U+017F, the long s, whose upper case is S. *)
Definition suit_of_unit (u : N) : option Suit :=
  if (u =? 72)%N || (u =? 104)%N then Some hearts
  else if (u =? 68)%N || (u =? 100)%N then Some diamonds
  else if (u =? 67)%N || (u =? 99)%N then Some clubs
  else if (u =? 83)%N || (u =? 115)%N || (u =? 383)%N then Some spades
  else None.

(** [a + b] *)
Definition js_add (a b : JsNum) : JsNum :=
  match a, b with
  | NaN, _ | _, NaN => NaN
  | Num x, Num y => Num (x + y)
  | PosInf, NegInf | NegInf, PosInf => NaN
  | PosInf, _ | _, PosInf => PosInf
  | NegInf, _ | _, NegInf => NegInf
  end.

(** [results.reduce((sum, p) => sum + p.probability, 0)] *)
Definition probability_sum (results : list ProbabilityResult) : JsNum :=
  fold_left (fun sum p => js_add sum (probability p)) results (Num 0).

(** Whether a number lies within 0.02 of 1. *)
Definition close_to_1 (x : JsNum) : bool :=
  match x with
  | Num q => Qle_bool 0.98 q && Qle_bool q 1.02
  | _ => false
  end.

(** The deck [createDeck] builds. *)
Definition fullDeck : Deck := mkDeck (s ← SUITS; r ← RANKS; [card_of s r]) [] 52.

(** The request of the contract test for the lookup method: a pair of aces
    before the flop. *)
Definition pocket_aces (preferred : CalculationMethod) : CalculationRequest.t :=
  CalculationRequest.mk [card_of spades rA; card_of hearts rA] [] "pre-flop"
    (Some preferred).

(** How many ranks occur exactly [n] times among the known cards, as
    [adjustProbabilitiesForHand] counts them. *)
Definition knownRankCount (knownCards : list Card) (n : Z) : nat :=
  length (filter (fun c => c = Some n) (Object_values_Rank (countRanks knownCards))).

(** The result of the simulation when nothing was simulated and the divisor
    is not a number. *)
Definition nothing_simulated (numSimulations : JsVal) : list ProbabilityResult :=
  map (fun handType => mkProbabilityResult handType NaN NaN "NaN:1" 0 numSimulations)
      HandStrength_all.

(** How often [k] occurs in a list of keys. *)
Definition occ {K : Type} `{EqDecision K} (k : K) (keys : list K) : Z :=
  Z.of_nat (length (filter (fun x => x = k) keys)).

(** The body of the counting loops: [counts[k] = (counts[k] || 0) + 1]. *)
Definition count_step {K : Type} `{EqDecision K} (counts : list (K * Z)) (k : K)
  : list (K * Z) :=
  Record_set counts k (get_or_0 counts k + 1).

(** Descending order on integers, as [(a, b) => b - a] sorts. *)
Definition desc (a b : Z) : Prop := b <= a.

(** The array [uniqueValues] of [checkStraight]. *)
Definition uniqueValues (cards : list Card) : list Z :=
  Array_sort (fun a b => b - a) (Set_of (map value cards)).

(** The category tests as functions of how often each rank, suit and value
    occurs among the cards. *)
Definition hasRankCount (cards : list Card) (n : Z) : bool :=
  existsb (fun r => bool_decide (r ∈ map rank cards /\ occ r (map rank cards) = n)) RANKS.

Definition pairCount (cards : list Card) : nat :=
  length (filter (fun r => r ∈ map rank cards /\ occ r (map rank cards) = 2) RANKS).

Definition isFlush (cards : list Card) : bool :=
  existsb (fun s => bool_decide (s ∈ map suit cards /\ 5 <= occ s (map suit cards))) SUITS.

Definition isRoyal (cards : list Card) : bool :=
  forallb (fun r => bool_decide (r ∈ map rank cards)) [rA; rK; rQ; rJ; r10].

Definition isWheel (cards : list Card) : bool :=
  forallb (fun r => bool_decide (r ∈ map rank cards)) [rA; r2; r3; r4; r5].

Fixpoint straightRun (uniqueValues : list Z) : bool :=
  match uniqueValues with
  | [] => false
  | hi :: rest =>
      match rest !! 3%nat with
      | None => false
      | Some lo => (hi - lo =? 4) || straightRun rest
      end
  end.

Definition isStraight (cards : list Card) : bool :=
  straightRun (uniqueValues cards) || isWheel cards.

Definition strength5 (cards : list Card) : HandStrength :=
  if isFlush cards && isRoyal cards then ROYAL_FLUSH
  else if isFlush cards && isStraight cards then STRAIGHT_FLUSH
  else if hasRankCount cards 4 then FOUR_OF_A_KIND
  else if hasRankCount cards 3 && hasRankCount cards 2 then FULL_HOUSE
  else if isFlush cards then FLUSH
  else if isStraight cards then STRAIGHT
  else if hasRankCount cards 3 then THREE_OF_A_KIND
  else if (2 <=? pairCount cards)%nat then TWO_PAIR
  else if hasRankCount cards 2 then PAIR
  else HIGH_CARD.

(** The category a check reports, if any. *)
Definition strength_of (r : Outcome (option HandEvaluation)) : Outcome (option HandStrength) :=
  match r with
  | Ok o => Ok (handStrength <$> o)
  | Throw e => Throw e
  | Diverge => Diverge
  end.

(** The category of an evaluation that may throw. *)
Definition strengthO (r : Outcome HandEvaluation) : Outcome HandStrength :=
  match r with
  | Ok ev => Ok (handStrength ev)
  | Throw e => Throw e
  | Diverge => Diverge
  end.

(** The number of the category of an evaluation, and of five cards. *)
Definition sv (ev : HandEvaluation) : Z := HandStrength_value (handStrength ev).
Definition s5 (combo : list Card) : Z := HandStrength_value (strength5 combo).

(** The largest category number seen after one more combination. *)
Definition best_step (acc : option Z) (combo : list Card) : option Z :=
  Some (match acc with
        | None => s5 combo
        | Some a => Z.max a (s5 combo)
        end).

(** Whether the known cards with one more card evaluate to the target
    category or a higher one; not when the evaluation throws. *)
Definition reaches (knownCards : list Card) (targetHand : HandStrength) (card : Card) : bool :=
  match evaluatePokerHand (knownCards ++ [card]) with
  | Ok evaluation =>
      HandStrength_value targetHand <=? HandStrength_value (handStrength evaluation)
  | _ => false
  end.

(** A card is an out when its id is not the id of a known card and the known
    cards with it reach the target. *)
Definition is_out (knownCards : list Card) (targetHand : HandStrength) (card : Card) : bool :=
  negb (bool_decide (id card ∈ map id knownCards)) && reaches knownCards targetHand card.

(** A card is well formed when it is one of the 52 cards of the deck. *)
Definition well_formed (card : Card) : Prop := card ∈ availableCards fullDeck.

(** The two counterexample inputs of C3. *)
Definition six_run : list Card :=
  [card_of spades r2; card_of hearts r3; card_of clubs r4; card_of diamonds r5;
   card_of spades r6; card_of hearts r7].

Definition six_run_reordered : list Card :=
  [card_of hearts r7; card_of spades r2; card_of hearts r3; card_of clubs r4;
   card_of diamonds r5; card_of spades r6].

Definition quads_kings : list Card :=
  [card_of spades rA; card_of hearts rA; card_of clubs rA; card_of diamonds rA;
   card_of spades rK; card_of hearts rK; card_of clubs r7].

Definition quads_kings_reordered : list Card :=
  [card_of spades rA; card_of hearts rA; card_of clubs rA; card_of diamonds rA;
   card_of hearts rK; card_of spades rK; card_of clubs r7].

(** ** Definitions for the further properties *)

(** The errors one card adds in [validateCards], given the ids seen before
    it. *)
Definition card_errors (seenIds : gset string) (card : Card) : list ValidationError :=
  snd (validateCards_step (seenIds, []) card).

(** The DUPLICATE_CARD errors of a result. *)
Definition duplicate_errors (r : ValidationResult) : list ValidationError :=
  filter (fun e => code e = "DUPLICATE_CARD") (errors r).

(** What one simulation adds to the known cards. *)
Definition simulated_from (knownCards remaining hand : list Card) : Prop :=
  exists dealt,
    hand = knownCards ++ dealt /\
    dealt ⊆+ remaining /\
    length dealt = Nat.min (7 - length knownCards) (length remaining).

(** The sum of a record of counters over the ten categories. *)
Definition total_count (handCounts : HandStrength -> Z) : Z :=
  foldr Z.add 0 (map handCounts HandStrength_all).

(** The codes [validatePokerHand] can report. *)
Definition poker_hand_codes : list string :=
  card_level_codes ++ ["INVALID_PLAYER_HAND_SIZE"; "INVALID_COMMUNITY_CARDS"].

(** The values of the enum [GameStage]. *)
Definition GameStage_values : list string := ["pre-flop"; "flop"; "turn"; "river"].

(** The number of ways to choose [k] of [n] things, by Pascal's rule. *)
Fixpoint choose (n k : nat) : nat :=
  match k with
  | O => 1
  | S k' =>
      match n with
      | O => 0
      | S n' => choose n' k + choose n' k'
      end
  end.

(** How many ranks occur exactly [n] times among the cards. *)
Definition ranksWithCount (cards : list Card) (n : Z) : nat :=
  length (filter (fun r => occ r (map rank cards) = n) RANKS).

(** The known cards for which [adjustProbabilitiesForHand] takes its branch
    for one pair: one rank twice, and none three or four times. *)
Definition one_pair_known (knownCards : list Card) : Prop :=
  (2 <= length knownCards)%nat /\
  ranksWithCount knownCards 4 = 0%nat /\
  ranksWithCount knownCards 3 = 0%nat /\
  ranksWithCount knownCards 2 = 1%nat.

(** The best hand holds exactly the given cards, each of them defined. *)
Definition holds_cards (ev : HandEvaluation) (cards : list Card) : Prop :=
  exists best, bestHand ev = map Some best /\ best ≡ₚ cards.

(** Membership of an element that a literal list shows. *)
Ltac by_mem := repeat first [apply list_elem_of_here | apply list_elem_of_further].

(** * Properties *)

Lemma createCard_ok (s : Suit) (r : Rank) : createCard s r = Ok (card_of s r).
Proof. destruct s, r; reflexivity. Qed.

(** ** Round trip through the card id *)

(** C6: for every suit and rank, [createCard] succeeds, and parsing the id of
    the card it returns gives back that same card, equal in all five
    fields. *)
Theorem parseCard_createCard_roundtrip (s : Suit) (r : Rank) :
  exists c : Card,
    createCard s r = Ok c /\
    exists c' : Card,
      parseCard (id c) = Ok c' /\
      suit c' = suit c /\ rank c' = rank c /\ value c' = value c /\
      display c' = display c /\ id c' = id c.
Proof.
  exists (card_of s r). split; [apply createCard_ok|].
  exists (card_of s r). destruct s, r; repeat split; reflexivity.
Qed.

(** ** Dealing *)

(** C9: [dealCards deck n] throws INSUFFICIENT_CARDS exactly when [n] is more
    than the number of available cards; otherwise it returns the first [n]
    available cards as [dealtCards] and a deck whose available cards are the
    rest and whose used cards are the old used cards followed by the dealt
    ones. The function is a pure function of [deck]: the deck passed in is
    the same value after the call. *)
Theorem dealCards_spec (deck : Deck) (n : nat) :
  (dealCards deck n = Throw (Error "INSUFFICIENT_CARDS")
   <-> (length (availableCards deck) < n)%nat) /\
  ((n <= length (availableCards deck))%nat ->
   dealCards deck n =
     Ok {| dealtCards := take n (availableCards deck);
           remainingDeck :=
             {| availableCards := drop n (availableCards deck);
                usedCards := usedCards deck ++ take n (availableCards deck);
                totalCards := 52 |} |}) /\
  (forall r, dealCards deck n = Ok r ->
     (n <= length (availableCards deck))%nat /\
     dealtCards r ++ availableCards (remainingDeck r) = availableCards deck /\
     length (dealtCards r) = n).
Proof.
  unfold dealCards.
  destruct (Nat.ltb_spec (length (availableCards deck)) n) as [Hlt | Hge].
  - split; [|split].
    + split; [intros _; exact Hlt | reflexivity].
    + intros Hle. lia.
    + intros r Hr. discriminate Hr.
  - split; [|split].
    + split; [intros H; discriminate H | intros Hlt; lia].
    + reflexivity.
    + intros r Hr. injection Hr as <-. simpl.
      split; [exact Hge|]. split; [apply take_drop|].
      rewrite length_take. lia.
Qed.

Lemma dealCards_spec_witness :
  let deck := {| availableCards := [card_of spades rA; card_of hearts rK; card_of clubs r2];
                 usedCards := [card_of diamonds r7];
                 totalCards := 52 |} in
  dealCards deck 2 =
    Ok {| dealtCards := [card_of spades rA; card_of hearts rK];
          remainingDeck :=
            {| availableCards := [card_of clubs r2];
               usedCards := [card_of diamonds r7; card_of spades rA; card_of hearts rK];
               totalCards := 52 |} |}.
Proof.
  intros deck.
  exact (proj1 (proj2 (dealCards_spec deck 2)) ltac:(simpl; lia)).
Defined.

(** ** Validation *)

Lemma validateCards_step_codes (st : gset string * list ValidationError) (card : Card) :
  Forall (fun e => code e ∈ card_level_codes) (snd st) ->
  Forall (fun e => code e ∈ card_level_codes) (snd (validateCards_step st card)).
Proof.
  destruct st as [seenIds errs]. unfold validateCards_step. simpl. intros H.
  repeat match goal with
         | |- context [if ?b then _ else _] => destruct b
         end;
    repeat (apply Forall_app; split); try assumption;
    apply Forall_singleton; by_decide.
Qed.

Lemma validateCards_fold_codes (cards : list Card) (st : gset string * list ValidationError) :
  Forall (fun e => code e ∈ card_level_codes) (snd st) ->
  Forall (fun e => code e ∈ card_level_codes)
         (snd (fold_left validateCards_step cards st)).
Proof.
  revert st. induction cards as [|card cards IH]; intros st H; simpl.
  - exact H.
  - apply IH. apply validateCards_step_codes. exact H.
Qed.

Lemma validateCards_codes (cards : list Card) :
  Forall (fun e => code e ∈ card_level_codes) (errors (validateCards cards)).
Proof.
  unfold validateCards. simpl. apply validateCards_fold_codes. constructor.
Qed.

Lemma validateCards_invalid_errors (cards : list Card) :
  (if negb (isValid (validateCards cards)) then [] ++ errors (validateCards cards) else [])
  = errors (validateCards cards).
Proof.
  unfold validateCards. simpl.
  destruct (snd (fold_left validateCards_step cards (∅, []))); reflexivity.
Qed.

(** The errors of [validatePokerHand], in the order they are pushed. *)
Lemma validatePokerHand_errors (playerHand communityCards : list Card) (stage : string) :
  errors (validatePokerHand playerHand communityCards stage) =
    errors (validateCards (playerHand ++ communityCards))
    ++ (if negb (String.eqb stage "pre-flop") && negb (Nat.eqb (length playerHand) 2)
        then [mkValidationError "INVALID_PLAYER_HAND_SIZE"
                ("Player hand must have exactly 2 cards, got "
                 +:+ string_of_nat (length playerHand)) None]
        else [])
    ++ match stageRequirements stage with
       | Some expected =>
           if negb (Nat.eqb (length communityCards) expected) then
             [mkValidationError "INVALID_COMMUNITY_CARDS"
                (stage +:+ " stage requires " +:+ string_of_nat expected
                 +:+ " community cards, got "
                 +:+ string_of_nat (length communityCards)) None]
           else []
       | None =>
           match inherited stage with
           | Some expected =>
               [mkValidationError "INVALID_COMMUNITY_CARDS"
                  (stage +:+ " stage requires " +:+ expected
                   +:+ " community cards, got "
                   +:+ string_of_nat (length communityCards)) None]
           | None => []
           end
       end.
Proof.
  unfold validatePokerHand. cbv zeta. cbn [errors].
  set (v := validateCards (playerHand ++ communityCards)).
  assert (Hv : (if negb (isValid v) then [] ++ errors v else []) = errors v).
  { subst v. apply validateCards_invalid_errors. }
  rewrite Hv.
  destruct (negb (String.eqb stage "pre-flop") && negb (Nat.eqb (length playerHand) 2));
    destruct (stageRequirements stage) as [expected|];
    try destruct (negb (Nat.eqb (length communityCards) expected));
    try destruct (inherited stage) as [text|];
    simpl; rewrite ?app_nil_r, <- ?app_assoc; reflexivity.
Qed.

Lemma card_level_code_not_in (c : string) (cards : list Card) :
  c ∉ card_level_codes -> c ∉ codes (validateCards cards).
Proof.
  intros Hc Hin. unfold codes in Hin.
  apply list_elem_of_fmap in Hin as (e & -> & He).
  pose proof (validateCards_codes cards) as HF.
  rewrite Forall_forall in HF. apply Hc, HF. exact He.
Qed.

(** INVALID_COMMUNITY_CARDS is pushed by the last check only. *)
Lemma community_code_last (playerHand communityCards : list Card) (stage : string)
    (last : list ValidationError) :
  errors (validatePokerHand playerHand communityCards stage)
  = errors (validateCards (playerHand ++ communityCards))
    ++ (if negb (String.eqb stage "pre-flop") && negb (Nat.eqb (length playerHand) 2)
        then [mkValidationError "INVALID_PLAYER_HAND_SIZE"
                ("Player hand must have exactly 2 cards, got "
                 +:+ string_of_nat (length playerHand)) None]
        else [])
    ++ last ->
  ("INVALID_COMMUNITY_CARDS" ∈ codes (validatePokerHand playerHand communityCards stage)
   <-> "INVALID_COMMUNITY_CARDS" ∈ map code last).
Proof.
  intros Herrs. unfold codes. rewrite Herrs, !fmap_app, !elem_of_app.
  assert (Hc : "INVALID_COMMUNITY_CARDS"
               ∉ codes (validateCards (playerHand ++ communityCards))).
  { apply card_level_code_not_in. by_decide. }
  unfold codes in Hc.
  assert (Hmid : "INVALID_COMMUNITY_CARDS" ∉
            code <$> (if negb (String.eqb stage "pre-flop")
                         && negb (Nat.eqb (length playerHand) 2)
                      then [mkValidationError "INVALID_PLAYER_HAND_SIZE"
                              ("Player hand must have exactly 2 cards, got "
                               +:+ string_of_nat (length playerHand)) None]
                      else [])).
  { destruct (negb (String.eqb stage "pre-flop") && negb (Nat.eqb (length playerHand) 2));
      simpl; intros H; mem_cases H. }
  split; [intros [H | [H | H]]; [contradiction | contradiction | exact H] | tauto].
Qed.



(** A stage string that is none of the four stages gets INVALID_COMMUNITY_CARDS
    exactly when it names a property that an object literal inherits, as
    [constructor] does; the count of community cards plays no part. *)
Lemma validatePokerHand_other_stage (playerHand communityCards : list Card)
    (stage : string) :
  stageRequirements stage = None ->
  ("INVALID_COMMUNITY_CARDS" ∈ codes (validatePokerHand playerHand communityCards stage)
   <-> stage ∈ map fst Object_prototype).
Proof.
  intros Hnone.
  pose proof (validatePokerHand_errors playerHand communityCards stage) as Herrs.
  rewrite Hnone in Herrs. rewrite (community_code_last _ _ _ _ Herrs).
  assert (Hi : is_Some (inherited stage) <-> stage ∈ map fst Object_prototype).
  { unfold inherited. destruct (find _ Object_prototype) as [[key text]|] eqn:Hf.
    - apply find_some in Hf as [Hin Heq]. cbn [fst] in Heq.
      apply String.eqb_eq in Heq. subst key.
      split; [intros _ | intros _; eexists; reflexivity].
      apply list_elem_of_fmap. exists (stage, text). split; [reflexivity|].
      apply list_elem_of_In. exact Hin.
    - split; [intros [text H]; discriminate H|].
      intros Hin. apply list_elem_of_fmap in Hin as ([key text] & Hk & Hin).
      cbn [fst] in Hk. subst key.
      apply list_elem_of_In in Hin. apply (find_none _ _ Hf) in Hin. cbn [fst] in Hin.
      rewrite String.eqb_refl in Hin. discriminate Hin. }
  rewrite <- Hi. destruct (inherited stage) as [text|]; cbn [map code].
  - split; [intros _; eexists; reflexivity | intros _; apply list_elem_of_here].
  - split; [intros H; mem_cases H | intros [text H]; discriminate H].
Qed.

(** ** Card codes accepted by [parseCard] *)

Lemma suit_of_letter_cases (l : string) (su : Suit) :
  suit_of_letter l = Some su -> (l, su) ∈ suit_letters.
Proof.
  unfold suit_of_letter. intros H.
  destruct (find _ suit_letters) as [[l' su']|] eqn:Hf; [|discriminate H].
  simpl in H. injection H as ->.
  apply find_some in Hf as [Hin Heq]. simpl in Heq.
  apply String.eqb_eq in Heq. subst l'.
  apply list_elem_of_In. exact Hin.
Qed.

Lemma suitMap_upper (c : ascii) (su : Suit) :
  suitMap (toUpperCase (String c EmptyString)) = Some su ->
  suit_of_letter (String c EmptyString) = Some su.
Proof.
  destruct c as [[] [] [] [] [] [] [] []]; vm_compute; intros H;
    first [exact H | discriminate H].
Qed.

Lemma RANKS_find_Some (x : string) (r : Rank) :
  RANKS_find x = Some r -> Rank_str r = x.
Proof.
  unfold RANKS_find. intros H. apply find_some in H as [_ H].
  apply String.eqb_eq in H. exact H.
Qed.

Lemma startsWith_10 (s : string) :
  startsWith s "10" = true -> exists t, s = "10" +:+ t.
Proof.
  unfold startsWith. destruct s as [|a [|b t]]; cbn -[ascii_dec]; try discriminate.
  - destruct (ascii_dec "1" a); discriminate.
  - destruct (ascii_dec "1" a) as [<-|]; [|discriminate].
    destruct (ascii_dec "0" b) as [<-|]; [|discriminate].
    intros _. exists t. reflexivity.
Qed.

Lemma parseCard_shape (r : Rank) (l : string) (su : Suit) (rest : string) :
  suit_of_letter l = Some su ->
  parseCard (Rank_str r +:+ l +:+ rest) = Ok (card_of su r).
Proof.
  intros H. apply suit_of_letter_cases in H. unfold suit_letters in H.
  repeat (rewrite elem_of_cons in H; destruct H as [H | H];
          [injection H as -> ->; destruct r; vm_compute; reflexivity|]).
  apply elem_of_nil in H. destruct H.
Qed.

Lemma parseCard_Ok_shape (s : string) (c : Card) :
  parseCard s = Ok c ->
  exists r l su rest,
    suit_of_letter l = Some su /\ s = Rank_str r +:+ l +:+ rest /\ c = card_of su r.
Proof.
  unfold parseCard.
  destruct (String.length s <? 2)%nat eqn:Hlen; [discriminate|].
  destruct (startsWith s "10") eqn:Hpre.
  - apply startsWith_10 in Hpre as [t ->].
    destruct t as [|ch t]; [vm_compute; discriminate|].
    change (charAt ("10" +:+ String ch t) 2) with (String ch EmptyString).
    destruct (suitMap (toUpperCase (String ch EmptyString))) as [su|] eqn:Hsu;
      [|discriminate].
    change (RANKS_find "10") with (Some r10). cbv beta iota.
    rewrite createCard_ok. intros H. injection H as <-.
    exists r10, (String ch EmptyString), su, t.
    split; [apply suitMap_upper; exact Hsu|]. split; reflexivity.
  - destruct s as [|a [|b t]]; try (simpl in Hlen; discriminate Hlen).
    change (charAt (String a (String b t)) 0) with (String a EmptyString).
    change (charAt (String a (String b t)) 1) with (String b EmptyString).
    destruct (suitMap (toUpperCase (String b EmptyString))) as [su|] eqn:Hsu;
      [|discriminate].
    destruct (RANKS_find (String a EmptyString)) as [r|] eqn:Hr; [|discriminate].
    rewrite createCard_ok. intros H. injection H as <-.
    exists r, (String b EmptyString), su, t.
    split; [apply suitMap_upper; exact Hsu|].
    apply RANKS_find_Some in Hr. rewrite Hr. split; reflexivity.
Qed.

(** ** [parseCard] on every string *)

Lemma upperCase_table_suits :
  forallb (fun p => bool_decide (Utf16.suitMap (snd p) = suit_of_unit (fst p)))
          upperCase_table = true.
Proof. vm_compute. reflexivity. Qed.

Lemma upperCase_table_short :
  forallb (fun p => (length (snd p) <=? 3)%nat) upperCase_table = true.
Proof. vm_compute. reflexivity. Qed.

Lemma toUpperCase_unit_cases (u : N) :
  (exists p, p ∈ upperCase_table /\ fst p = u /\ toUpperCase_unit u = snd p) \/
  ((u ∉ map fst upperCase_table) /\ toUpperCase_unit u = [u]).
Proof.
  unfold toUpperCase_unit.
  destruct (find (fun p => N.eqb (fst p) u) upperCase_table) as [p|] eqn:Hf.
  - left. apply find_some in Hf as [Hin Heq]. apply N.eqb_eq in Heq.
    exists p. split; [apply list_elem_of_In; exact Hin | split; [exact Heq | reflexivity]].
  - right. split; [|reflexivity].
    intros Hin. apply list_elem_of_fmap in Hin as (p & -> & Hin).
    apply list_elem_of_In in Hin. apply (find_none _ _ Hf) in Hin.
    rewrite N.eqb_refl in Hin. discriminate Hin.
Qed.

(** The units whose upper case is a key of [suitMap]. *)
Lemma suitMap_toUpperCase_unit (u : N) :
  Utf16.suitMap (toUpperCase_unit u) = suit_of_unit u.
Proof.
  destruct (toUpperCase_unit_cases u) as [(p & Hin & <- & ->) | [Hnin ->]].
  - pose proof upperCase_table_suits as H. rewrite forallb_forall in H.
    apply list_elem_of_In in Hin. apply H in Hin. apply bool_decide_eq_true_1 in Hin.
    exact Hin.
  - assert (Hlow : forall k, k ∈ [104; 100; 99; 115; 383]%N -> u <> k).
    { intros k Hk ->. apply Hnin. clear Hnin.
      mem_cases Hk; subst k; by_decide. }
    unfold suit_of_unit.
    rewrite (proj2 (N.eqb_neq u 104)), (proj2 (N.eqb_neq u 100)),
      (proj2 (N.eqb_neq u 99)), (proj2 (N.eqb_neq u 115)), (proj2 (N.eqb_neq u 383))
      by (apply Hlow; by_decide).
    rewrite !orb_false_r. unfold Utf16.suitMap.
    change (units "H") with [72%N]. change (units "D") with [68%N].
    change (units "C") with [67%N]. change (units "S") with [83%N].
    repeat match goal with
           | |- context [(u =? ?k)%N] => destruct (N.eqb_spec u k) as [->|]
           end; try reflexivity.
    rewrite !bool_decide_eq_false_2; [reflexivity | | | |]; congruence.
Qed.

Lemma toUpperCase_single (u : N) : Utf16.toUpperCase [u] = toUpperCase_unit u.
Proof.
  unfold Utf16.toUpperCase.
  change ([u] ≫= toUpperCase_unit) with (toUpperCase_unit u ++ []). apply app_nil_r.
Qed.

Lemma toUpperCase_unit_length (u : N) : (length (toUpperCase_unit u) <= 3)%nat.
Proof.
  destruct (toUpperCase_unit_cases u) as [(p & Hin & _ & ->) | [_ ->]]; [|simpl; lia].
  pose proof upperCase_table_short as H. rewrite forallb_forall in H.
  apply list_elem_of_In in Hin. apply H in Hin. apply Nat.leb_le in Hin. exact Hin.
Qed.

(** No string of at most three units names an inherited property. *)
Lemma inherits_short (key : list N) : (length key <= 3)%nat -> Utf16.inherits key = false.
Proof.
  intros Hlen. apply bool_decide_eq_false_2. intros Hin.
  apply list_elem_of_fmap in Hin as ([name text] & -> & Hin).
  unfold Object_prototype in Hin. mem_cases Hin; injection Hin as -> ->;
    vm_compute in Hlen; lia.
Qed.

(** What [parseCard] reads at the place of the suit letter. *)
Lemma suit_at (s : list N) (i : nat) :
  let key := Utf16.toUpperCase (Utf16.charAt s i) in
  Utf16.inherits key = false /\
  Utf16.suitMap key = s !! i ≫= suit_of_unit.
Proof.
  unfold Utf16.charAt. destruct (s !! i) as [u|]; cbv zeta.
  - rewrite toUpperCase_single. split; [|apply suitMap_toUpperCase_unit].
    apply inherits_short, toUpperCase_unit_length.
  - split; reflexivity.
Qed.

Lemma suit_at_Some (s : list N) (i : nat) (u : N) :
  s !! i = Some u ->
  Utf16.inherits (Utf16.toUpperCase (Utf16.charAt s i)) = false /\
  Utf16.suitMap (Utf16.toUpperCase (Utf16.charAt s i)) = suit_of_unit u.
Proof. intros H. pose proof (suit_at s i) as Hs. cbv zeta in Hs. rewrite H in Hs. exact Hs. Qed.

Lemma RANKS_find_units (x : list N) (r : Rank) :
  Utf16.RANKS_find x = Some r -> units (Rank_str r) = x.
Proof.
  unfold Utf16.RANKS_find. intros H. apply find_some in H as [_ H].
  apply bool_decide_eq_true_1 in H. exact H.
Qed.

Lemma parseCard_units_shape (r : Rank) (l : N) (su : Suit) (rest : list N) :
  suit_of_unit l = Some su ->
  Utf16.parseCard (units (Rank_str r) ++ l :: rest) = Ok (card_of su r).
Proof.
  intros Hl. unfold Utf16.parseCard.
  destruct r;
    match goal with
    | |- context [Rank_str ?r] =>
        let v := eval vm_compute in (units (Rank_str r)) in
        change (units (Rank_str r)) with v
    end; cbn [app length Nat.ltb Nat.leb];
    change (units "10") with [49%N; 48%N];
    unfold Utf16.startsWith; cbn [take length]; rewrite ?take_0;
    first [rewrite bool_decide_eq_false_2 by (intros H; discriminate H)
          |rewrite bool_decide_eq_true_2 by reflexivity];
    cbv zeta;
    match goal with
    | |- context [Utf16.charAt ?s ?i] =>
        rewrite (proj2 (suit_at_Some s i l eq_refl)), Hl
    end;
    match goal with
    | |- context [Utf16.RANKS_find ?x] =>
        let v := eval vm_compute in (Utf16.RANKS_find x) in
        change (Utf16.RANKS_find x) with v
    end; cbv beta iota; apply createCard_ok.
Qed.

Lemma parseCard_units_Ok_shape (s : list N) (c : Card) :
  Utf16.parseCard s = Ok c ->
  exists r l su rest,
    suit_of_unit l = Some su /\ s = units (Rank_str r) ++ l :: rest /\ c = card_of su r.
Proof.
  unfold Utf16.parseCard.
  destruct (length s <? 2)%nat eqn:Hlen; [discriminate|].
  destruct (Utf16.startsWith s (units "10")) eqn:Hpre.
  - unfold Utf16.startsWith in Hpre. apply bool_decide_eq_true_1 in Hpre.
    change (units "10") with [49%N; 48%N] in *. cbn [length] in Hpre.
    destruct s as [|a [|b t]]; try discriminate Hpre.
    cbn [take] in Hpre. rewrite take_0 in Hpre. injection Hpre as -> ->.
    cbv zeta. destruct (suit_at (49 :: 48 :: t)%N 2) as [Hinh Hkey].
    cbv zeta in Hinh, Hkey. rewrite Hinh, Hkey.
    change ((49 :: 48 :: t)%N !! 2%nat) with (t !! 0%nat).
    destruct t as [|u t]; [discriminate|].
    change ((u :: t) !! 0%nat ≫= suit_of_unit) with (suit_of_unit u).
    destruct (suit_of_unit u) as [su|] eqn:Hsu; [|discriminate].
    change (Utf16.RANKS_find [49%N; 48%N]) with (Some r10). cbv beta iota.
    rewrite createCard_ok. intros H. injection H as <-.
    exists r10, u, su, t. repeat split. exact Hsu.
  - destruct s as [|a [|b t]]; try (simpl in Hlen; discriminate Hlen).
    cbv zeta. destruct (suit_at (a :: b :: t) 1) as [Hinh Hkey].
    cbv zeta in Hinh, Hkey. rewrite Hinh, Hkey.
    change ((a :: b :: t) !! 1%nat ≫= suit_of_unit) with (suit_of_unit b).
    change (Utf16.charAt (a :: b :: t) 0) with [a].
    destruct (suit_of_unit b) as [su|] eqn:Hsu.
    + destruct (Utf16.RANKS_find [a]) as [r|] eqn:Hr; [|discriminate].
      rewrite createCard_ok. intros H. injection H as <-.
      exists r, b, su, t. apply RANKS_find_units in Hr. rewrite Hr.
      repeat split. exact Hsu.
    + discriminate.
Qed.

Lemma parseCard_units_Ok_or_invalid (s : list N) :
  (exists c, Utf16.parseCard s = Ok c) \/
  Utf16.parseCard s = Throw (Error "INVALID_CARD_STRING").
Proof.
  unfold Utf16.parseCard.
  destruct (length s <? 2)%nat; [right; reflexivity|].
  destruct (if Utf16.startsWith s (units "10") then _ else _) as [rk suitChar] eqn:Hsel.
  assert (Hkey : exists i, suitChar = Utf16.charAt s i).
  { destruct (Utf16.startsWith s (units "10")); injection Hsel as <- <-; eauto. }
  destruct Hkey as [i ->]. cbv zeta. destruct (suit_at s i) as [Hinh _].
  cbv zeta in Hinh. rewrite Hinh.
  destruct (Utf16.suitMap _) as [su|]; [|right; reflexivity].
  destruct (Utf16.RANKS_find rk) as [r|]; [|right; reflexivity].
  left. rewrite createCard_ok. eauto.
Qed.

(** C4, as the code has it: [parseCard] succeeds exactly on the strings that
    start with a rank token (A, 2 to 9, J, Q, K, or the two characters "10")
    followed by a unit that is taken for a suit, whatever comes after it:
    one of the letters H, D, C, S in either case, or U+017F, the long s,
    whose upper case is S and which is read as spades. It then returns the
    card of that rank and suit. On every other string it throws
    INVALID_CARD_STRING. The strings are all sequences of 16-bit code
    units. *)
Theorem parseCard_accepts_prefix (s : list N) :
  (forall c : Card,
     Utf16.parseCard s = Ok c <->
     exists (r : Rank) (l : N) (su : Suit) (rest : list N),
       suit_of_unit l = Some su /\ s = units (Rank_str r) ++ l :: rest /\ c = card_of su r) /\
  ((forall (r : Rank) (l : N) (rest : list N),
      is_Some (suit_of_unit l) -> s <> units (Rank_str r) ++ l :: rest) ->
   Utf16.parseCard s = Throw (Error "INVALID_CARD_STRING")) /\
  (forall l : N, is_Some (suit_of_unit l) <-> l ∈ [72; 68; 67; 83; 104; 100; 99; 115; 383]%N).
Proof.
  split; [|split].
  - intros c. split.
    + apply parseCard_units_Ok_shape.
    + intros (r & l & su & rest & Hl & -> & ->). apply parseCard_units_shape. exact Hl.
  - intros Hno. destruct (parseCard_units_Ok_or_invalid s) as [[c Hc] | H]; [|exact H].
    apply parseCard_units_Ok_shape in Hc as (r & l & su & rest & Hl & Hs & _).
    exfalso. apply (Hno r l rest); [eexists; exact Hl | exact Hs].
  - intros l. split.
    + intros [su Hsu]. unfold suit_of_unit in Hsu.
      repeat match type of Hsu with
             | context [(l =? ?k)%N] => destruct (N.eqb_spec l k) as [->|]
             end; try by_decide. discriminate Hsu.
    + intros Hin. mem_cases Hin; subst l; eexists; reflexivity.
Qed.

Lemma parseCard_accepts_prefix_witness :
  Utf16.parseCard (units "10hxyz") = Ok (card_of hearts r10) /\
  Utf16.parseCard [65; 383]%N = Ok (card_of spades rA) /\
  Utf16.parseCard (units "1S") = Throw (Error "INVALID_CARD_STRING").
Proof.
  split; [|split].
  - apply (proj2 (proj1 (parseCard_accepts_prefix (units "10hxyz")) (card_of hearts r10))).
    exists r10, 104%N, hearts, (units "xyz"). repeat split; reflexivity.
  - apply (proj2 (proj1 (parseCard_accepts_prefix [65; 383]%N) (card_of spades rA))).
    exists rA, 383%N, spades, []. repeat split; reflexivity.
  - apply (proj1 (proj2 (parseCard_accepts_prefix (units "1S")))).
    intros r l rest _ Heq. destruct r; discriminate Heq.
Defined.

(** C4 as stated fails: "ASX" is not a rank token followed by a single suit
    letter and nothing else, and [parseCard] returns the ace of spades for
    it. *)
Lemma parseCard_trailing_characters :
  card_code_shape "ASX" = false /\
  Utf16.parseCard (units "ASX") = Ok (card_of spades rA).
Proof. split; [reflexivity | vm_compute; reflexivity]. Qed.

(** ** The two readings of a string of 8-bit units agree *)

Lemma units_length (s : string) : length (units s) = String.length s.
Proof.
  unfold units. rewrite length_map. induction s as [|a s IH]; [reflexivity|].
  simpl. rewrite IH. reflexivity.
Qed.

Lemma suit_key_8bit (c : ascii) :
  suitMap (toUpperCase (String c EmptyString)) = suit_of_unit (N_of_ascii c).
Proof. destruct c as [[] [] [] [] [] [] [] []]; vm_compute; reflexivity. Qed.

Lemma RANKS_find_8bit (c : ascii) :
  RANKS_find (String c EmptyString) = Utf16.RANKS_find [N_of_ascii c].
Proof. destruct c as [[] [] [] [] [] [] [] []]; vm_compute; reflexivity. Qed.

Lemma N_of_ascii_inj (a b : ascii) : N_of_ascii a = N_of_ascii b -> a = b.
Proof. intros H. rewrite <- (ascii_N_embedding a), <- (ascii_N_embedding b), H. reflexivity. Qed.

(** [parseCard] on a string of 8-bit units is [parseCard] on the string of
    16-bit units that has the same units. *)
Lemma parseCard_units (s : string) : parseCard s = Utf16.parseCard (units s).
Proof.
  unfold parseCard, Utf16.parseCard. rewrite units_length.
  destruct (String.length s <? 2)%nat eqn:Hlen; [reflexivity|].
  destruct s as [|a [|b t]]; try (simpl in Hlen; discriminate Hlen).
  change (units (String a (String b t))) with (N_of_ascii a :: N_of_ascii b :: units t).
  change (units "10") with [49%N; 48%N].
  assert (Hpre : startsWith (String a (String b t)) "10"
                 = Utf16.startsWith (N_of_ascii a :: N_of_ascii b :: units t) [49%N; 48%N]).
  { unfold startsWith, Utf16.startsWith. cbn [length take]. rewrite take_0.
    cbn -[ascii_dec].
    assert (Hnil : String.prefix "" t = true) by (destruct t; reflexivity).
    destruct (ascii_dec "1" a) as [<-|Ha].
    - destruct (ascii_dec "0" b) as [<-|Hb].
      + rewrite Hnil. symmetry. apply bool_decide_eq_true_2. reflexivity.
      + symmetry. apply bool_decide_eq_false_2. intros H. injection H as H.
        apply Hb. apply N_of_ascii_inj. symmetry. exact H.
    - symmetry. apply bool_decide_eq_false_2. intros H. injection H as H _.
      apply Ha. apply N_of_ascii_inj. symmetry. exact H. }
  rewrite Hpre. clear Hpre.
  destruct (Utf16.startsWith _ _); cbv zeta.
  - destruct (suit_at (N_of_ascii a :: N_of_ascii b :: units t) 2) as [Hinh Hkey].
    cbv zeta in Hinh, Hkey. rewrite Hinh, Hkey.
    change ((N_of_ascii a :: N_of_ascii b :: units t) !! 2%nat) with (units t !! 0%nat).
    destruct t as [|c t].
    + reflexivity.
    + change (charAt (String a (String b (String c t))) 2) with (String c EmptyString).
      change (units (String c t) !! 0%nat ≫= suit_of_unit) with (suit_of_unit (N_of_ascii c)).
      rewrite suit_key_8bit.
      destruct (suit_of_unit (N_of_ascii c)); reflexivity.
  - destruct (suit_at (N_of_ascii a :: N_of_ascii b :: units t) 1) as [Hinh Hkey].
    cbv zeta in Hinh, Hkey. rewrite Hinh, Hkey.
    change ((N_of_ascii a :: N_of_ascii b :: units t) !! 1%nat ≫= suit_of_unit)
      with (suit_of_unit (N_of_ascii b)).
    change (charAt (String a (String b t)) 1) with (String b EmptyString).
    change (charAt (String a (String b t)) 0) with (String a EmptyString).
    change (Utf16.charAt (N_of_ascii a :: N_of_ascii b :: units t) 0) with [N_of_ascii a].
    rewrite suit_key_8bit, RANKS_find_8bit. reflexivity.
Qed.

(** ** The probability estimator *)

Lemma createDeck_ok : createDeck = Ok fullDeck.
Proof. reflexivity. Qed.

Lemma getRemainingCards_ok (knownCards : list Card) :
  getRemainingCards knownCards =
    Ok (filter (fun card => negb (has (list_to_set (map id knownCards)) (id card)))
               (availableCards fullDeck)).
Proof. unfold getRemainingCards. rewrite createDeck_ok. reflexivity. Qed.

Section EngineProperties.

Variable rnd : nat -> nat.
Variables startTime endTime now : Q.

(** C2 at the failing input: for a pair of aces before the flop, the lookup
    method returns ten results whose probabilities add up to 0.617101,
    which is not within 0.02 of 1. *)
Theorem lookup_pocket_aces_sum (k : nat) :
  exists res : CalculationResults.t,
    calculateProbabilities rnd startTime endTime now (pocket_aces lookup) k = Ok res /\
    CalculationResults.method res = lookup /\
    length (CalculationResults.probabilities res) = 10%nat /\
    (exists total : Q,
       probability_sum (CalculationResults.probabilities res) = Num total /\
       (total == 0.617101)%Q) /\
    close_to_1 (probability_sum (CalculationResults.probabilities res)) = false.
Proof.
  eexists. split; [reflexivity|]. split; [reflexivity|]. split; [reflexivity|].
  split; [|reflexivity].
  eexists. split; [vm_compute; reflexivity|]. reflexivity.
Qed.

(** C5 at the failing input: the string [formatOdds] returns for probability
    0 is the literal of the source, six bytes and then ":1", not the
    infinity sign followed by ":1"; the lookup result for a pair of aces
    carries it for the high card category. *)
Theorem formatOdds_zero_literal (k : nat) :
  formatOdds (Num 0) = "âˆž:1" /\
  formatOdds (Num 0) <> "∞:1" /\
  String.length (formatOdds (Num 0)) = 8%nat /\
  exists res : CalculationResults.t,
    calculateProbabilities rnd startTime endTime now (pocket_aces lookup) k = Ok res /\
    exists r : ProbabilityResult,
      CalculationResults.probabilities res !! 0%nat = Some r /\
      handType r = HIGH_CARD /\ probability r = Num 0 /\ odds r <> "∞:1".
Proof.
  split; [reflexivity|]. split; [discriminate|]. split; [reflexivity|].
  eexists. split; [reflexivity|].
  eexists. split; [reflexivity|]. repeat split; discriminate.
Qed.

(** C1 at the failing input: with the exact method, every result for a pair
    of aces before the flop has the stage string as [totalOutcomes], no
    occurrences and NaN as probability; no simulated hand is tallied. *)
Theorem exact_pocket_aces_totalOutcomes (k : nat) :
  exists res : CalculationResults.t,
    calculateProbabilities rnd startTime endTime now (pocket_aces exact) k = Ok res /\
    CalculationResults.method res = exact /\
    Forall (fun r => totalOutcomes r = VStr "pre-flop" /\
                     totalOutcomes r <> VNum (Num 100000) /\
                     occurrences r = 0 /\ probability r = NaN)
           (CalculationResults.probabilities res).
Proof.
  eexists. split; [reflexivity|]. split; [reflexivity|].
  repeat constructor; discriminate.
Qed.

End EngineProperties.

(** The exact method with a stage that is no numeric literal, as the four
    stage names are: the loop bound is NaN, nothing is simulated, no random
    number is drawn, and every result carries the stage as [totalOutcomes]. *)
Lemma calculateUsingExact_stage (rnd : nat -> nat) (playerHand communityCards : list Card)
    (stage : string) (k : nat) :
  StringToNumber stage = NaN ->
  calculateUsingExact rnd playerHand communityCards stage k =
    Ok (nothing_simulated (VStr stage), k).
Proof.
  intros Hnan. unfold calculateUsingExact, calculateUsingSimulation, simulateDeal.
  rewrite getRemainingCards_ok. cbn [bind ToNumber]. rewrite Hnan. reflexivity.
Qed.

(** A request with the exact method that passes validation, for a stage that
    is no numeric literal: the results are those of a simulation in which
    nothing was simulated. *)
Lemma calculateProbabilities_exact (rnd : nat -> nat) (startTime endTime now : Q)
    (request : CalculationRequest.t) (k : nat) :
  CalculationRequest.preferredMethod request = Some exact ->
  isValid (validatePokerHand (CalculationRequest.playerHand request)
             (CalculationRequest.communityCards request)
             (CalculationRequest.stage request)) = true ->
  StringToNumber (CalculationRequest.stage request) = NaN ->
  exists res : CalculationResults.t,
    calculateProbabilities rnd startTime endTime now request k = Ok res /\
    CalculationResults.probabilities res
    = nothing_simulated (VStr (CalculationRequest.stage request)).
Proof.
  intros Hm Hv Hnan. unfold calculateProbabilities, determineOptimalMethod.
  rewrite Hv, Hm. cbn [negb bool_decide decide_rel].
  rewrite bool_decide_eq_true_2 by discriminate.
  unfold calculateHandProbabilities. rewrite calculateUsingExact_stage by exact Hnan.
  eexists. split; reflexivity.
Qed.

Lemma stage_names_NaN :
  Forall (fun stage => StringToNumber stage = NaN) ["pre-flop"; "flop"; "turn"; "river"].
Proof. repeat constructor. Qed.

(** The lookup method returns one result per category, in order. *)
Lemma calculateUsingLookup_handTypes (playerHand communityCards : list Card) :
  map handType (calculateUsingLookup playerHand communityCards) = HandStrength_all.
Proof. reflexivity. Qed.

(** In every result of the lookup method the odds are [formatOdds] of the
    probability, and the percentage is the probability times 100. *)
Lemma calculateUsingLookup_odds (playerHand communityCards : list Card) :
  Forall (fun r => odds r = formatOdds (probability r) /\
                   percentage r = js_mul (probability r) (Num 100))
         (calculateUsingLookup playerHand communityCards).
Proof.
  unfold calculateUsingLookup, createProbabilityResults.
  apply Forall_fmap, Forall_forall. intros h _. simpl. split; reflexivity.
Qed.

(** The branches of [formatOdds] other than the one for 0. *)
Lemma formatOdds_nonzero (p : Q) :
  ~ (p == 0)%Q ->
  formatOdds (Num p) =
    if Qeq_bool p 1 then "1:1" else toFixed1 (Num ((1 - p) / p)) +:+ ":1".
Proof.
  intros Hp. unfold formatOdds. simpl.
  destruct (Qeq_bool p 0) eqn:H0; [apply Qeq_bool_eq in H0; contradiction|].
  destruct (Qeq_bool p 1); reflexivity.
Qed.

(** Whenever the known cards hold exactly one pair and no three or four of
    a kind, the lookup probabilities add up to 0.617101. *)
Lemma calculateUsingLookup_one_pair_sum (playerHand communityCards : list Card) :
  (2 <= length (playerHand ++ communityCards))%nat ->
  knownRankCount (playerHand ++ communityCards) 4 = 0%nat ->
  knownRankCount (playerHand ++ communityCards) 3 = 0%nat ->
  knownRankCount (playerHand ++ communityCards) 2 = 1%nat ->
  exists total : Q,
    probability_sum (calculateUsingLookup playerHand communityCards) = Num total /\
    (total == 0.617101)%Q.
Proof.
  intros Hlen H4 H3 H2. unfold calculateUsingLookup, adjustProbabilitiesForHand.
  fold (knownRankCount (playerHand ++ communityCards) 4).
  fold (knownRankCount (playerHand ++ communityCards) 3).
  fold (knownRankCount (playerHand ++ communityCards) 2).
  rewrite H4, H3, H2.
  destruct (Nat.leb_spec 2 (length (playerHand ++ communityCards))) as [_|Hlt]; [|lia].
  eexists. split; [vm_compute; reflexivity | reflexivity].
Qed.

(** ** Counting with records *)

Section Counting.

Context {K : Type} `{EqDecision K}.

Lemma get_or_0_default (o : list (K * Z)) (k : K) :
  get_or_0 o k = default 0 (Record_get o k).
Proof.
  unfold get_or_0. destruct (Record_get o k) as [v|]; simpl; [|reflexivity].
  destruct (Z.eqb_spec v 0); congruence.
Qed.

Lemma Record_get_set (o : list (K * Z)) (k k' : K) (v : Z) :
  Record_get (Record_set o k v) k' =
    if decide (k = k') then Some v else Record_get o k'.
Proof.
  unfold Record_get. induction o as [|[k0 v0] o IH]; simpl.
  - destruct (decide (k = k')) as [->|Hne].
    + rewrite bool_decide_eq_true_2 by reflexivity. reflexivity.
    + rewrite bool_decide_eq_false_2 by exact Hne. reflexivity.
  - destruct (decide (k0 = k)) as [->|Hne0].
    + rewrite bool_decide_eq_true_2 by reflexivity. simpl.
      destruct (decide (k = k')) as [->|Hne].
      * rewrite bool_decide_eq_true_2 by reflexivity. reflexivity.
      * rewrite !bool_decide_eq_false_2 by exact Hne. reflexivity.
    + rewrite bool_decide_eq_false_2 by exact Hne0. simpl.
      destruct (decide (k0 = k')) as [->|Hne1].
      * rewrite bool_decide_eq_true_2 by reflexivity.
        destruct (decide (k = k')); [congruence | reflexivity].
      * rewrite bool_decide_eq_false_2 by exact Hne1. exact IH.
Qed.



Lemma Record_keys_set (o : list (K * Z)) (k : K) (v : Z) :
  map fst (Record_set o k v) =
    if decide (k ∈ map fst o) then map fst o else map fst o ++ [k].
Proof.
  induction o as [|[k0 v0] o IH]; simpl.
  - destruct (decide (k ∈ [])) as [Hin|_]; [apply elem_of_nil in Hin; destruct Hin|].
    reflexivity.
  - destruct (decide (k0 = k)) as [->|Hne].
    + rewrite bool_decide_eq_true_2 by reflexivity. simpl.
      rewrite decide_True by apply list_elem_of_here. reflexivity.
    + rewrite bool_decide_eq_false_2 by exact Hne. simpl. rewrite IH.
      destruct (decide (k ∈ map fst o)) as [Hin|Hnin].
      * rewrite decide_True by (apply list_elem_of_further; exact Hin). reflexivity.
      * rewrite decide_False; [reflexivity|].
        intros Hin. apply elem_of_cons in Hin as [Heq|Hin]; congruence.
Qed.

Lemma occ_cons (k x : K) (keys : list K) :
  occ k (x :: keys) = (if decide (x = k) then 1 else 0) + occ k keys.
Proof.
  unfold occ. rewrite filter_cons.
  destruct (decide (x = k)); simpl length; lia.
Qed.

Lemma occ_nonneg (k : K) (keys : list K) : 0 <= occ k keys.
Proof. unfold occ. lia. Qed.

Lemma occ_pos (k : K) (keys : list K) : k ∈ keys <-> 0 < occ k keys.
Proof.
  induction keys as [|x keys IH].
  - split; [intros Hin; apply elem_of_nil in Hin; destruct Hin | unfold occ; simpl; lia].
  - rewrite occ_cons, elem_of_cons. pose proof (occ_nonneg k keys).
    destruct (decide (x = k)) as [->|Hne].
    + split; [lia | intros _; left; reflexivity].
    + split.
      * intros [Heq|Hin]; [congruence | apply IH in Hin; lia].
      * intros Hpos. right. apply IH. lia.
Qed.

Lemma occ_Permutation (k : K) (l l' : list K) : l ≡ₚ l' -> occ k l = occ k l'.
Proof. intros Hp. unfold occ. rewrite Hp. reflexivity. Qed.

Lemma occ_0 (k : K) (keys : list K) : k ∉ keys -> occ k keys = 0.
Proof.
  intros Hnin. pose proof (occ_nonneg k keys). pose proof (occ_pos k keys) as Hp.
  destruct (Z.eq_dec (occ k keys) 0) as [Hz|Hz]; [exact Hz|].
  exfalso. apply Hnin, Hp. lia.
Qed.

Lemma fold_count_get (keys : list K) (o : list (K * Z)) (k : K) :
  Record_get (fold_left count_step keys o) k =
    if decide (k ∈ keys) then Some (get_or_0 o k + occ k keys) else Record_get o k.
Proof.
  revert o. induction keys as [|x keys IH]; intros o; cbn [fold_left].
  - rewrite decide_False by apply not_elem_of_nil. reflexivity.
  - rewrite IH, occ_cons. unfold count_step.
    rewrite !get_or_0_default, Record_get_set.
    destruct (decide (k ∈ x :: keys)) as [Hin1|Hnin1];
      destruct (decide (k ∈ keys)) as [Hin|Hnin];
      destruct (decide (x = k)) as [->|Hne]; simpl; try (f_equal; lia).
    all: first
      [ rewrite (occ_0 _ _ Hnin); f_equal; lia
      | apply elem_of_cons in Hin1 as [Heq|Hin1]; congruence
      | exfalso; apply Hnin1; apply list_elem_of_here
      | exfalso; apply Hnin1; apply list_elem_of_further; exact Hin ].
Qed.

Lemma fold_count_keys (keys : list K) (o : list (K * Z)) (k : K) :
  k ∈ map fst (fold_left count_step keys o) <-> k ∈ map fst o \/ k ∈ keys.
Proof.
  revert o. induction keys as [|x keys IH]; intros o; cbn [fold_left].
  - rewrite elem_of_nil. tauto.
  - rewrite IH. unfold count_step. rewrite Record_keys_set, elem_of_cons.
    destruct (decide (x ∈ map fst o)) as [Hin|Hnin].
    + split; [tauto|]. intros [Ho | [-> | Hk]]; tauto.
    + rewrite elem_of_app, list_elem_of_singleton. split; [tauto|].
      intros [Ho | [-> | Hk]]; tauto.
Qed.

Lemma fold_count_NoDup (keys : list K) (o : list (K * Z)) :
  NoDup (map fst o) -> NoDup (map fst (fold_left count_step keys o)).
Proof.
  revert o. induction keys as [|x keys IH]; intros o Ho; cbn [fold_left].
  - exact Ho.
  - apply IH. unfold count_step. rewrite Record_keys_set.
    destruct (decide (x ∈ map fst o)) as [Hin|Hnin]; [exact Ho|].
    apply NoDup_app. split; [exact Ho|]. split.
    + intros y Hy Hy'. apply list_elem_of_singleton in Hy'. subst y. contradiction.
    + apply NoDup_singleton.
Qed.

End Counting.

Lemma countRanks_fold (cards : list Card) :
  countRanks cards = fold_left count_step (map rank cards) [].
Proof.
  unfold countRanks. generalize (@nil (Rank * Z)).
  induction cards as [|c cards IH]; intros o; simpl; [reflexivity|]. apply IH.
Qed.

Lemma countSuits_fold (cards : list Card) :
  countSuits cards = fold_left count_step (map suit cards) [].
Proof.
  unfold countSuits. generalize (@nil (Suit * Z)).
  induction cards as [|c cards IH]; intros o; simpl; [reflexivity|]. apply IH.
Qed.

Lemma countRanks_get (cards : list Card) (r : Rank) :
  Record_get (countRanks cards) r =
    if decide (r ∈ map rank cards) then Some (occ r (map rank cards)) else None.
Proof.
  rewrite countRanks_fold, fold_count_get. destruct (decide _); reflexivity.
Qed.

Lemma countSuits_get (cards : list Card) (s : Suit) :
  Record_get (countSuits cards) s =
    if decide (s ∈ map suit cards) then Some (occ s (map suit cards)) else None.
Proof.
  rewrite countSuits_fold, fold_count_get. destruct (decide _); reflexivity.
Qed.

Lemma countRanks_keys (cards : list Card) (r : Rank) :
  r ∈ map fst (countRanks cards) <-> r ∈ map rank cards.
Proof.
  rewrite countRanks_fold, fold_count_keys. simpl. rewrite elem_of_nil. tauto.
Qed.

Lemma countSuits_keys (cards : list Card) (s : Suit) :
  s ∈ map fst (countSuits cards) <-> s ∈ map suit cards.
Proof.
  rewrite countSuits_fold, fold_count_keys. simpl. rewrite elem_of_nil. tauto.
Qed.

Lemma countRanks_NoDup (cards : list Card) : NoDup (map fst (countRanks cards)).
Proof. rewrite countRanks_fold. apply fold_count_NoDup. constructor. Qed.

Lemma includes_elem_of {A : Type} `{EqDecision A} (l : list A) (x : A) :
  includes l x = true <-> x ∈ l.
Proof.
  unfold includes. rewrite existsb_exists. split.
  - intros (y & Hin & Hy). apply bool_decide_eq_true_1 in Hy. subst y.
    apply list_elem_of_In. exact Hin.
  - intros Hin. exists x. split; [apply list_elem_of_In; exact Hin|].
    apply bool_decide_eq_true_2. reflexivity.
Qed.

Lemma Object_keys_Rank_elem (o : list (Rank * Z)) (r : Rank) :
  r ∈ Object_keys_Rank o <-> r ∈ map fst o.
Proof.
  unfold Object_keys_Rank. rewrite elem_of_app, !list_elem_of_filter.
  split.
  - intros [[Hin _] | [_ Hin]]; [|exact Hin].
    apply Is_true_true, includes_elem_of in Hin. exact Hin.
  - intros Hin. destruct (is_index_key r) eqn:Hk.
    + left. split; [apply Is_true_true, includes_elem_of; exact Hin|].
      destruct r; try discriminate Hk; by_decide.
    + right. split; [exact I | exact Hin].
Qed.

Lemma Object_keys_Rank_NoDup (o : list (Rank * Z)) :
  NoDup (map fst o) -> NoDup (Object_keys_Rank o).
Proof.
  intros Ho. unfold Object_keys_Rank. apply NoDup_app. split; [|split].
  - apply NoDup_filter. by_decide.
  - intros r Hr Hr'. apply list_elem_of_filter in Hr as [_ Hr].
    apply list_elem_of_filter in Hr' as [Hk _].
    assert (is_index_key r = true) as Hidx.
    { clear -Hr. repeat (rewrite elem_of_cons in Hr; destruct Hr as [-> | Hr]; [reflexivity|]).
      apply elem_of_nil in Hr. destruct Hr. }
    rewrite Hidx in Hk. exact Hk.
  - apply NoDup_filter. exact Ho.
Qed.

(** ** Sorting *)

Lemma sort_insert_Permutation {A : Type} (cmp : A -> A -> Z) (x : A) (l : list A) :
  sort_insert cmp x l ≡ₚ x :: l.
Proof.
  induction l as [|y l IH]; simpl; [reflexivity|].
  destruct (cmp x y <=? 0); [reflexivity|].
  rewrite IH. apply Permutation_swap.
Qed.

Lemma Array_sort_Permutation {A : Type} (cmp : A -> A -> Z) (l : list A) :
  Array_sort cmp l ≡ₚ l.
Proof.
  induction l as [|x l IH]; simpl; [reflexivity|].
  rewrite sort_insert_Permutation, IH. reflexivity.
Qed.

#[local] Instance desc_trans : Transitive desc.
Proof. unfold desc. intros a b c. lia. Qed.

#[local] Instance desc_antisymm : AntiSymm (=) desc.
Proof. unfold desc. intros a b. lia. Qed.

Lemma sort_insert_desc_Sorted (x : Z) (l : list Z) :
  Sorted desc l -> Sorted desc (sort_insert (fun a b => b - a) x l).
Proof.
  induction l as [|y l IH]; intros Hs; simpl.
  - repeat constructor.
  - destruct (Z.leb_spec (y - x) 0) as [Hle|Hgt].
    + constructor; [exact Hs|]. constructor. unfold desc. lia.
    + apply Sorted_inv in Hs as [Hs Hhd]. constructor; [apply IH; exact Hs|].
      destruct l as [|z l]; simpl.
      * constructor. unfold desc. lia.
      * destruct (z - x <=? 0); constructor; [unfold desc; lia|].
        apply HdRel_inv in Hhd. exact Hhd.
Qed.

Lemma Array_sort_desc_Sorted (l : list Z) :
  StronglySorted desc (Array_sort (fun a b => b - a) l).
Proof.
  apply Sorted_StronglySorted; [apply desc_trans|].
  induction l as [|x l IH]; simpl; [constructor|].
  apply sort_insert_desc_Sorted. exact IH.
Qed.

Lemma Set_of_elem {A : Type} `{EqDecision A} (x : A) (l : list A) :
  x ∈ Set_of l <-> x ∈ l.
Proof.
  induction l as [|y l IH]; simpl; [reflexivity|].
  rewrite !elem_of_cons, list_elem_of_filter, IH.
  destruct (decide (x = y)) as [->|Hne]; [tauto|]. tauto.
Qed.

Lemma Set_of_NoDup {A : Type} `{EqDecision A} (l : list A) : NoDup (Set_of l).
Proof.
  induction l as [|y l IH]; simpl; [constructor|].
  constructor.
  - intros Hin. apply list_elem_of_filter in Hin as [Hne _]. congruence.
  - apply NoDup_filter. exact IH.
Qed.

Lemma uniqueValues_Permutation (l l' : list Card) :
  l ≡ₚ l' -> uniqueValues l = uniqueValues l'.
Proof.
  intros Hp. unfold uniqueValues.
  apply (StronglySorted_unique desc); try apply Array_sort_desc_Sorted.
  rewrite !Array_sort_Permutation.
  apply NoDup_Permutation; try apply Set_of_NoDup.
  intros x. rewrite !Set_of_elem, Hp. reflexivity.
Qed.

Lemma uniqueValues_elem (cards : list Card) (v : Z) :
  v ∈ uniqueValues cards <-> v ∈ map value cards.
Proof. unfold uniqueValues. rewrite Array_sort_Permutation, Set_of_elem. reflexivity. Qed.

Lemma sort_insertM_ok {A : Type} (cmp : A -> A -> Outcome Z) (x : A) (l : list A) :
  (forall y, y ∈ l -> exists z, cmp x y = Ok z) ->
  exists l', sort_insertM cmp x l = Ok l' /\ l' ≡ₚ x :: l.
Proof.
  induction l as [|y l IH]; intros Hc; simpl.
  - eexists. split; reflexivity.
  - destruct (Hc y) as [z Hz]; [apply list_elem_of_here|]. rewrite Hz. simpl.
    destruct (z <=? 0).
    + eexists. split; reflexivity.
    + destruct IH as (l' & Hl' & Hp).
      { intros y' Hy'. apply Hc. apply list_elem_of_further. exact Hy'. }
      rewrite Hl'. simpl. eexists. split; [reflexivity|].
      rewrite Hp. apply Permutation_swap.
Qed.

Lemma Array_sortM_ok {A : Type} (cmp : A -> A -> Outcome Z) (l : list A) :
  (forall x y, x ∈ l -> y ∈ l -> exists z, cmp x y = Ok z) ->
  exists l', Array_sortM cmp l = Ok l' /\ l' ≡ₚ l.
Proof.
  induction l as [|x l IH]; intros Hc; simpl.
  - eexists. split; reflexivity.
  - destruct IH as (r & Hr & Hp).
    { intros a b Ha Hb. apply Hc; apply list_elem_of_further; assumption. }
    rewrite Hr. simpl.
    destruct (sort_insertM_ok cmp x r) as (l' & Hl' & Hp').
    { intros y Hy. apply Hc; [apply list_elem_of_here|].
      apply list_elem_of_further. rewrite <- Hp. exact Hy. }
    exists l'. split; [exact Hl'|]. rewrite Hp', Hp. reflexivity.
Qed.

(** ** The category of five cards *)

Lemma existsb_Permutation_ext {A : Type} (P Q : A -> Prop)
    `{forall x, Decision (P x)} `{forall x, Decision (Q x)} (l : list A) :
  (forall x, P x <-> Q x) ->
  existsb (fun x => bool_decide (P x)) l = existsb (fun x => bool_decide (Q x)) l.
Proof.
  intros Hext. induction l as [|x l IH]; simpl; [reflexivity|].
  rewrite IH. f_equal. apply bool_decide_ext, Hext.
Qed.

Lemma forallb_Permutation_ext {A : Type} (P Q : A -> Prop)
    `{forall x, Decision (P x)} `{forall x, Decision (Q x)} (l : list A) :
  (forall x, P x <-> Q x) ->
  forallb (fun x => bool_decide (P x)) l = forallb (fun x => bool_decide (Q x)) l.
Proof.
  intros Hext. induction l as [|x l IH]; simpl; [reflexivity|].
  rewrite IH. f_equal. apply bool_decide_ext, Hext.
Qed.

Section Permuted.

Variables l l' : list Card.
Hypothesis Hp : l ≡ₚ l'.

Lemma hasRankCount_Permutation (n : Z) : hasRankCount l n = hasRankCount l' n.
Proof.
  unfold hasRankCount. apply existsb_Permutation_ext. intros r.
  rewrite (occ_Permutation r (map rank l) (map rank l')) by (rewrite Hp; reflexivity).
  rewrite Hp. reflexivity.
Qed.

Lemma pairCount_Permutation : pairCount l = pairCount l'.
Proof.
  unfold pairCount. f_equal. apply list_filter_iff. intros r.
  rewrite (occ_Permutation r (map rank l) (map rank l')) by (rewrite Hp; reflexivity).
  rewrite Hp. reflexivity.
Qed.

Lemma isFlush_Permutation : isFlush l = isFlush l'.
Proof.
  unfold isFlush. apply existsb_Permutation_ext. intros s.
  rewrite (occ_Permutation s (map suit l) (map suit l')) by (rewrite Hp; reflexivity).
  rewrite Hp. reflexivity.
Qed.

Lemma isRoyal_Permutation : isRoyal l = isRoyal l'.
Proof.
  unfold isRoyal. apply forallb_Permutation_ext. intros r. rewrite Hp. reflexivity.
Qed.

Lemma isWheel_Permutation : isWheel l = isWheel l'.
Proof.
  unfold isWheel. apply forallb_Permutation_ext. intros r. rewrite Hp. reflexivity.
Qed.

Lemma isStraight_Permutation : isStraight l = isStraight l'.
Proof.
  unfold isStraight. rewrite (uniqueValues_Permutation l l' Hp), isWheel_Permutation.
  reflexivity.
Qed.

Lemma strength5_Permutation : strength5 l = strength5 l'.
Proof.
  unfold strength5.
  rewrite isFlush_Permutation, isRoyal_Permutation, isStraight_Permutation,
    !hasRankCount_Permutation, pairCount_Permutation.
  reflexivity.
Qed.

End Permuted.

Lemma occ_map {A K : Type} `{EqDecision K} (f : A -> K) (k : K) (l : list A) :
  occ k (map f l) = Z.of_nat (length (filter (fun x => f x = k) l)).
Proof.
  unfold occ. f_equal. induction l as [|x l IH]; simpl; [reflexivity|].
  rewrite !filter_cons. destruct (decide (f x = k)); simpl; rewrite IH; reflexivity.
Qed.

Lemma all_Suits (s : Suit) : In s SUITS.
Proof. destruct s; simpl; tauto. Qed.

Lemma all_Ranks (r : Rank) : In r RANKS.
Proof. destruct r; simpl; tauto. Qed.

Lemma hasRankCount_true (cards : list Card) (n : Z) :
  hasRankCount cards n = true <->
  exists r, r ∈ map rank cards /\ occ r (map rank cards) = n.
Proof.
  unfold hasRankCount. rewrite existsb_exists. split.
  - intros (r & _ & Hr). apply bool_decide_eq_true_1 in Hr. eauto.
  - intros (r & Hr). exists r. split; [apply all_Ranks|].
    apply bool_decide_eq_true_2. exact Hr.
Qed.

Lemma count_is_true (cards : list Card) (n : Z) (r : Rank) :
  count_is (countRanks cards) n r = true <->
  r ∈ map rank cards /\ occ r (map rank cards) = n.
Proof.
  unfold count_is. rewrite bool_decide_eq_true, countRanks_get.
  destruct (decide (r ∈ map rank cards)) as [Hin|Hnin].
  - split; [intros H; injection H as H; tauto | intros [_ ->]; reflexivity].
  - split; [discriminate | tauto].
Qed.

(** What [Object.keys(rankCounts).find(rank => rankCounts[rank] === n)]
    gives. *)
Lemma find_count_is (cards : list Card) (n : Z) :
  match find (count_is (countRanks cards) n) (Object_keys_Rank (countRanks cards)) with
  | Some r => (r ∈ map rank cards /\ occ r (map rank cards) = n) /\ hasRankCount cards n = true
  | None => hasRankCount cards n = false
  end.
Proof.
  destruct (find _ _) as [r|] eqn:Hf.
  - apply find_some in Hf as [_ Hr]. apply count_is_true in Hr.
    split; [exact Hr|]. apply hasRankCount_true. eauto.
  - apply not_true_is_false. intros Hh. apply hasRankCount_true in Hh as (r & Hr).
    assert (Hin : In r (Object_keys_Rank (countRanks cards))).
    { apply list_elem_of_In, Object_keys_Rank_elem, countRanks_keys. apply Hr. }
    apply (find_none _ _ Hf) in Hin. apply count_is_true in Hr. congruence.
Qed.

Lemma checkFourOfAKind_strength (cards : list Card) :
  handStrength <$> checkFourOfAKind cards =
    if hasRankCount cards 4 then Some FOUR_OF_A_KIND else None.
Proof.
  unfold checkFourOfAKind. pose proof (find_count_is cards 4) as Hf.
  destruct (find _ _) as [r|]; [destruct Hf as [_ ->] | rewrite Hf]; reflexivity.
Qed.

Lemma checkFullHouse_strength (cards : list Card) :
  handStrength <$> checkFullHouse cards =
    if hasRankCount cards 3 && hasRankCount cards 2 then Some FULL_HOUSE else None.
Proof.
  unfold checkFullHouse.
  pose proof (find_count_is cards 3) as Hf3. pose proof (find_count_is cards 2) as Hf2.
  destruct (find (count_is (countRanks cards) 3) _) as [r3'|];
    [destruct Hf3 as [_ ->] | rewrite Hf3];
    (destruct (find (count_is (countRanks cards) 2) _) as [r2'|];
     [destruct Hf2 as [_ ->] | rewrite Hf2]); reflexivity.
Qed.

Lemma checkThreeOfAKind_strength (cards : list Card) :
  handStrength <$> checkThreeOfAKind cards =
    if hasRankCount cards 3 then Some THREE_OF_A_KIND else None.
Proof.
  unfold checkThreeOfAKind. pose proof (find_count_is cards 3) as Hf.
  destruct (find _ _) as [r|]; [destruct Hf as [_ ->] | rewrite Hf]; reflexivity.
Qed.

Lemma checkOnePair_strength (cards : list Card) :
  handStrength <$> checkOnePair cards =
    if hasRankCount cards 2 then Some PAIR else None.
Proof.
  unfold checkOnePair. pose proof (find_count_is cards 2) as Hf.
  destruct (find _ _) as [r|]; [destruct Hf as [_ ->] | rewrite Hf]; reflexivity.
Qed.

Lemma checkFlush_strength (cards : list Card) :
  strength_of (checkFlush cards) = Ok (if isFlush cards then Some FLUSH else None).
Proof.
  unfold checkFlush, Object_keys_Suit.
  destruct (find _ _) as [s|] eqn:Hf.
  - apply find_some in Hf as [_ Hs]. rewrite countSuits_get in Hs.
    destruct (decide (s ∈ map suit cards)) as [Hin|]; [|discriminate Hs].
    apply Z.leb_le in Hs.
    assert (Hfl : isFlush cards = true).
    { unfold isFlush. apply existsb_exists. exists s. split; [apply all_Suits|].
      apply bool_decide_eq_true_2. split; assumption. }
    rewrite Hfl. rewrite occ_map in Hs.
    destruct (filter (fun c => suit c = s) cards) as [|c0 fl]; [simpl in Hs; lia|].
    reflexivity.
  - replace (isFlush cards) with false; [reflexivity|].
    symmetry. apply not_true_is_false. intros Hfl.
    unfold isFlush in Hfl. apply existsb_exists in Hfl as (s & _ & Hs).
    apply bool_decide_eq_true_1 in Hs as [Hin Hs].
    assert (Hk : In s (map fst (countSuits cards))).
    { apply list_elem_of_In, countSuits_keys. exact Hin. }
    apply (find_none _ _ Hf) in Hk. rewrite countSuits_get in Hk.
    rewrite decide_True in Hk by exact Hin. apply Z.leb_gt in Hk. lia.
Qed.

Lemma checkStraight_loop_strength (cards : list Card) (u : list Z) :
  (forall v, v ∈ u -> v ∈ map value cards) ->
  strength_of (checkStraight_loop cards u) =
    Ok (if straightRun u then Some STRAIGHT else None).
Proof.
  induction u as [|hi rest IH]; intros Hu; simpl; [reflexivity|].
  destruct (rest !! 3%nat) as [lo|] eqn:Hlo; [|reflexivity].
  destruct (Z.eqb_spec (hi - lo) 4) as [Heq|Hne]; simpl.
  - assert (Hhi : hi ∈ map value cards) by (apply Hu, list_elem_of_here).
    apply list_elem_of_fmap in Hhi as (c & Hc & Hin).
    assert (Hf : c ∈ filter (fun c => (lo <=? value c) && (value c <=? hi)) cards).
    { apply list_elem_of_filter. split; [|exact Hin].
      apply Is_true_true, andb_true_iff. split; apply Z.leb_le; lia. }
    destruct (filter _ cards) as [|c0 fl]; [apply elem_of_nil in Hf; destruct Hf|].
    reflexivity.
  - apply IH. intros v Hv. apply Hu, list_elem_of_further, Hv.
Qed.

Lemma has_rank_elem (cards : list Card) (r : Rank) :
  has_rank cards r = bool_decide (r ∈ map rank cards).
Proof.
  unfold has_rank. apply eq_true_iff_eq.
  rewrite existsb_exists, bool_decide_eq_true, list_elem_of_fmap. split.
  - intros (c & Hin & Hr). apply bool_decide_eq_true_1 in Hr.
    exists c. split; [congruence | apply list_elem_of_In; exact Hin].
  - intros (c & -> & Hin). exists c. split; [apply list_elem_of_In; exact Hin|].
    apply bool_decide_eq_true_2. reflexivity.
Qed.

Lemma checkStraight_strength (cards : list Card) :
  strength_of (checkStraight cards) = Ok (if isStraight cards then Some STRAIGHT else None).
Proof.
  unfold checkStraight, isStraight. fold (uniqueValues cards).
  pose proof (checkStraight_loop_strength cards (uniqueValues cards)) as Hl.
  destruct (checkStraight_loop cards (uniqueValues cards)) as [o|e|];
    try (specialize (Hl ltac:(intros v Hv; apply uniqueValues_elem; exact Hv));
         discriminate Hl).
  specialize (Hl ltac:(intros v Hv; apply uniqueValues_elem; exact Hv)).
  simpl in Hl. injection Hl as Hl. simpl.
  destruct o as [ev|]; simpl in Hl.
  - destruct (straightRun (uniqueValues cards)); [|discriminate Hl].
    simpl. rewrite Hl. reflexivity.
  - destruct (straightRun (uniqueValues cards)); [discriminate Hl|]. simpl.
    unfold isWheel. simpl. rewrite !has_rank_elem, andb_true_r.
    rewrite <- !andb_assoc.
    destruct (bool_decide (rA ∈ map rank cards) && _); reflexivity.
Qed.


Lemma checkRoyalFlush_strength (cards : list Card) :
  strength_of (checkRoyalFlush cards) =
    Ok (if isFlush cards && isRoyal cards then Some ROYAL_FLUSH else None).
Proof.
  unfold checkRoyalFlush. pose proof (checkFlush_strength cards) as Hf.
  destruct (checkFlush cards) as [o|e|]; try discriminate Hf.
  simpl in Hf. injection Hf as Hf. simpl.
  destruct o as [ev|]; simpl in Hf.
  - destruct (isFlush cards) eqn:Hfl; [|discriminate Hf]. simpl.
    assert (Hr : forallb (fun rk => includes (map rank cards) rk) [rA; rK; rQ; rJ; r10]
                 = isRoyal cards).
    { unfold isRoyal. simpl. repeat f_equal; apply eq_true_iff_eq;
        rewrite includes_elem_of, bool_decide_eq_true; reflexivity. }
    simpl in Hr. rewrite Hr. destruct (isRoyal cards); [|reflexivity].
    destruct cards as [|c0 cards]; [discriminate Hfl | reflexivity].
  - destruct (isFlush cards); [discriminate Hf | reflexivity].
Qed.

Lemma checkStraightFlush_strength (cards : list Card) :
  strength_of (checkStraightFlush cards) =
    Ok (if isFlush cards && isStraight cards then Some STRAIGHT_FLUSH else None).
Proof.
  unfold checkStraightFlush.
  pose proof (checkFlush_strength cards) as Hf.
  pose proof (checkStraight_strength cards) as Hs.
  destruct (checkFlush cards) as [o|e|]; try discriminate Hf.
  destruct (checkStraight cards) as [o'|e|]; try discriminate Hs.
  simpl in Hf, Hs. injection Hf as Hf. injection Hs as Hs. simpl.
  destruct o as [ev|], o' as [ev'|]; simpl in Hf, Hs;
    destruct (isFlush cards) eqn:Hfl; try discriminate Hf;
    destruct (isStraight cards); try discriminate Hs; try reflexivity.
  destruct cards as [|c0 cards]; [discriminate Hfl | reflexivity].
Qed.

Lemma pairs_length (cards : list Card) :
  length (filter (fun r => count_is (countRanks cards) 2 r)
                 (Object_keys_Rank (countRanks cards))) = pairCount cards.
Proof.
  unfold pairCount. apply Permutation_length, NoDup_Permutation.
  - apply NoDup_filter, Object_keys_Rank_NoDup, countRanks_NoDup.
  - apply NoDup_filter. by_decide.
  - intros r. rewrite !list_elem_of_filter, Is_true_true, count_is_true.
    rewrite Object_keys_Rank_elem, countRanks_keys.
    split; [intros [H _]; split; [exact H | apply list_elem_of_In, all_Ranks] | tauto].
Qed.

Lemma find_rank_Some (cards : list Card) (r : Rank) :
  r ∈ map rank cards -> exists c, find_rank cards r = Some c.
Proof.
  intros Hin. unfold find_rank.
  destruct (find _ cards) as [c|] eqn:Hf; [eauto|].
  apply list_elem_of_fmap in Hin as (c & -> & Hin).
  apply list_elem_of_In in Hin. apply (find_none _ _ Hf) in Hin.
  rewrite bool_decide_eq_true_2 in Hin by reflexivity. discriminate Hin.
Qed.

Lemma checkTwoPair_strength (cards : list Card) :
  strength_of (checkTwoPair cards) =
    Ok (if (2 <=? pairCount cards)%nat then Some TWO_PAIR else None).
Proof.
  unfold checkTwoPair. rewrite pairs_length.
  destruct (2 <=? pairCount cards)%nat; [|reflexivity].
  destruct (Array_sortM_ok (byPairValueDesc cards)
              (filter (fun r => count_is (countRanks cards) 2 r)
                      (Object_keys_Rank (countRanks cards)))) as (sorted & Hs & _).
  { intros a b Ha Hb. apply list_elem_of_filter in Ha as [Ha _], Hb as [Hb _].
    apply Is_true_true, count_is_true in Ha as [Ha _], Hb as [Hb _].
    destruct (find_rank_Some cards a Ha) as [ca Hca].
    destruct (find_rank_Some cards b Hb) as [cb Hcb].
    unfold byPairValueDesc. rewrite Hca, Hcb. eauto. }
  rewrite Hs. reflexivity.
Qed.

Lemma orElse_strength (r : Outcome (option HandEvaluation)) (k : Outcome HandEvaluation)
    (b : bool) (h : HandStrength) :
  strength_of r = Ok (if b then Some h else None) ->
  strengthO (orElse r k) = if b then Ok h else strengthO k.
Proof.
  destruct r as [[ev|]|e|]; simpl; intros H; try discriminate H;
    destruct b; try discriminate H; [|reflexivity].
  injection H as ->. reflexivity.
Qed.

Lemma orElse_strength_pure (o : option HandEvaluation) (k : Outcome HandEvaluation)
    (b : bool) (h : HandStrength) :
  handStrength <$> o = (if b then Some h else None) ->
  strengthO (orElse (Ok o) k) = if b then Ok h else strengthO k.
Proof. intros H. apply orElse_strength. simpl. rewrite H. reflexivity. Qed.

(** The five-card evaluation of a non-empty list returns, and its category
    is the one the counts of the cards determine. *)
Lemma evaluateFiveCardHand_strength (cards : list Card) :
  cards <> [] ->
  strengthO (evaluateFiveCardHand cards) = Ok (strength5 cards).
Proof.
  intros Hne. unfold evaluateFiveCardHand.
  set (sortedCards := Array_sort byValueDesc cards).
  assert (Hp : sortedCards ≡ₚ cards) by apply Array_sort_Permutation.
  rewrite <- (strength5_Permutation _ _ Hp). unfold strength5.
  rewrite (orElse_strength _ _ _ _ (checkRoyalFlush_strength sortedCards)).
  destruct (isFlush sortedCards && isRoyal sortedCards); [reflexivity|].
  rewrite (orElse_strength _ _ _ _ (checkStraightFlush_strength sortedCards)).
  destruct (isFlush sortedCards && isStraight sortedCards); [reflexivity|].
  rewrite (orElse_strength_pure _ _ _ _ (checkFourOfAKind_strength sortedCards)).
  destruct (hasRankCount sortedCards 4); [reflexivity|].
  rewrite (orElse_strength_pure _ _ _ _ (checkFullHouse_strength sortedCards)).
  destruct (hasRankCount sortedCards 3 && hasRankCount sortedCards 2); [reflexivity|].
  rewrite (orElse_strength _ _ _ _ (checkFlush_strength sortedCards)).
  destruct (isFlush sortedCards); [reflexivity|].
  rewrite (orElse_strength _ _ _ _ (checkStraight_strength sortedCards)).
  destruct (isStraight sortedCards); [reflexivity|].
  rewrite (orElse_strength_pure _ _ _ _ (checkThreeOfAKind_strength sortedCards)).
  destruct (hasRankCount sortedCards 3); [reflexivity|].
  rewrite (orElse_strength _ _ _ _ (checkTwoPair_strength sortedCards)).
  destruct (2 <=? pairCount sortedCards)%nat; [reflexivity|].
  rewrite (orElse_strength_pure _ _ _ _ (checkOnePair_strength sortedCards)).
  destruct (hasRankCount sortedCards 2); [reflexivity|].
  destruct sortedCards as [|c0 rest]; [|reflexivity].
  apply Permutation_nil_l in Hp. congruence.
Qed.

Lemma evaluateFiveCardHand_ok (cards : list Card) :
  cards <> [] ->
  exists ev, evaluateFiveCardHand cards = Ok ev /\ handStrength ev = strength5 cards.
Proof.
  intros Hne. pose proof (evaluateFiveCardHand_strength cards Hne) as H.
  destruct (evaluateFiveCardHand cards) as [ev|e|]; try discriminate H.
  injection H as H. eauto.
Qed.

(** ** Combinations *)

Lemma getCombinations_elem (cards : list Card) (k : nat) (combo : list Card) :
  combo ∈ getCombinations cards k <-> combo `sublist_of` cards /\ length combo = k.
Proof.
  revert k combo. induction cards as [|first rest IH]; intros k combo.
  - destruct k as [|k]; simpl.
    + rewrite list_elem_of_singleton, sublist_nil_r. split.
      * intros ->. split; reflexivity.
      * intros [-> _]. reflexivity.
    + rewrite elem_of_nil, sublist_nil_r. split; [tauto|]. intros [-> H]. discriminate H.
  - destruct k as [|k]; cbn [getCombinations].
    + rewrite list_elem_of_singleton. split.
      * intros ->. split; [apply sublist_nil_l | reflexivity].
      * intros [_ H]. destruct combo; [reflexivity | discriminate H].
    + rewrite elem_of_app, list_elem_of_fmap, IH. split.
      * intros [[Hs Hl] | (c & -> & Hc)].
        -- split; [apply sublist_cons; exact Hs | exact Hl].
        -- apply IH in Hc as [Hs Hl]. split; [apply sublist_skip; exact Hs|].
           simpl. congruence.
      * intros [Hs Hl]. apply sublist_cons_r in Hs as [Hs | (c & -> & Hs)].
        -- left. split; assumption.
        -- right. exists c. split; [reflexivity|]. apply IH.
           split; [exact Hs|]. simpl in Hl. congruence.
Qed.

Lemma getCombinations_nonempty (cards : list Card) (k : nat) :
  (k <= length cards)%nat -> getCombinations cards k <> [].
Proof.
  intros Hk Hnil.
  assert (Hin : take k cards ∈ getCombinations cards k).
  { apply getCombinations_elem. split; [apply sublist_take|].
    rewrite length_take. lia. }
  rewrite Hnil in Hin. apply elem_of_nil in Hin. exact Hin.
Qed.

(** Every combination of a permuted list is a permutation of a combination
    of the list. *)
Lemma getCombinations_Permutation (l l' : list Card) (k : nat) (combo : list Card) :
  l ≡ₚ l' -> combo ∈ getCombinations l k ->
  exists combo', combo' ∈ getCombinations l' k /\ combo ≡ₚ combo'.
Proof.
  intros Hp Hc. apply getCombinations_elem in Hc as [Hs Hl].
  destruct (sublist_Permutation _ _ _ Hs Hp) as (combo' & Hp' & Hs').
  exists combo'. split; [|exact Hp'].
  apply getCombinations_elem. split; [exact Hs'|]. rewrite <- Hp'. exact Hl.
Qed.

(** ** The best hand of six or more cards *)

Lemma findBest_step_ok (best : option HandEvaluation) (combo : list Card) :
  combo <> [] ->
  exists best', findBest_step best combo = Ok (Some best') /\
                Some (sv best') = best_step (sv <$> best) combo.
Proof.
  intros Hne. unfold findBest_step.
  destruct (evaluateFiveCardHand_ok combo Hne) as (ev & -> & Hev). simpl.
  unfold best_step, s5. rewrite <- Hev. fold (sv ev).
  destruct best as [b|]; simpl.
  - fold (sv b).
    destruct (Z.ltb_spec (sv b) (sv ev)) as [Hlt|Hge].
    + exists ev. split; [reflexivity|]. f_equal. lia.
    + destruct (Z.eqb_spec (sv ev) (sv b)) as [Heq|Hneq].
      * destruct (0 <? compareHands ev b); eexists; (split; [reflexivity|]); f_equal; lia.
      * exists b. split; [reflexivity|]. f_equal. lia.
  - exists ev. split; reflexivity.
Qed.

Lemma findBest_loop_ok (combinations : list (list Card)) (best : option HandEvaluation) :
  (forall combo, combo ∈ combinations -> combo <> []) ->
  exists r, findBest_loop combinations best = Ok r /\
            sv <$> r = fold_left best_step combinations (sv <$> best).
Proof.
  revert best. induction combinations as [|combo combinations IH]; intros best Hne; simpl.
  - exists best. split; reflexivity.
  - destruct (findBest_step_ok best combo) as (best' & -> & Hb).
    { apply Hne, list_elem_of_here. }
    simpl. destruct (IH (Some best')) as (r & Hr & Hv).
    { intros c Hc. apply Hne, list_elem_of_further, Hc. }
    exists r. split; [exact Hr|]. rewrite Hv. simpl. rewrite Hb. reflexivity.
Qed.

(** The fold of [best_step] gives the maximum. *)
Lemma fold_best_step (combinations : list (list Card)) (acc : option Z) :
  (acc = None -> combinations <> []) ->
  exists m, fold_left best_step combinations acc = Some m /\
            (acc = Some m \/ exists combo, combo ∈ combinations /\ s5 combo = m) /\
            (forall a, acc = Some a -> a <= m) /\
            (forall combo, combo ∈ combinations -> s5 combo <= m).
Proof.
  revert acc. induction combinations as [|combo combinations IH]; intros acc Hacc; simpl.
  - destruct acc as [a|]; [|exfalso; apply Hacc; reflexivity].
    exists a. split; [reflexivity|]. split; [left; reflexivity|]. split.
    + intros a' H. injection H as ->. lia.
    + intros c Hc. apply elem_of_nil in Hc. destruct Hc.
  - destruct (IH (best_step acc combo)) as (m & Hm & Hsrc & Hlb & Hub); [discriminate|].
    exists m. split; [exact Hm|].
    specialize (Hlb _ eq_refl).
    split; [|split].
    + destruct Hsrc as [Hsrc | (c & Hc & Hs)].
      * unfold best_step in Hsrc. injection Hsrc as Hsrc.
        destruct acc as [a|].
        -- destruct (Z.max_spec a (s5 combo)) as [[_ Hmax] | [_ Hmax]].
           ++ right. exists combo. split; [apply list_elem_of_here | lia].
           ++ left. f_equal. lia.
        -- right. exists combo. split; [apply list_elem_of_here | exact Hsrc].
      * right. exists c. split; [apply list_elem_of_further; exact Hc | exact Hs].
    + intros a ->. simpl in Hlb. lia.
    + intros c Hc. apply elem_of_cons in Hc as [-> | Hc]; [|apply Hub, Hc].
      destruct acc as [a|]; simpl in Hlb; lia.
Qed.

Lemma HandStrength_value_inj (h h' : HandStrength) :
  HandStrength_value h = HandStrength_value h' -> h = h'.
Proof. destruct h, h'; simpl; intros H; try reflexivity; discriminate H. Qed.

Lemma combinations_nonempty_elems (cards : list Card) (combo : list Card) :
  combo ∈ getCombinations cards 5 -> combo <> [].
Proof.
  intros Hc. apply getCombinations_elem in Hc as [_ Hl]. intros ->. discriminate Hl.
Qed.

(** [findBestFiveCardHand] returns when there are at least five cards, and
    the category of its result is the highest category among the
    combinations. *)
Lemma findBestFiveCardHand_ok (cards : list Card) :
  (5 <= length cards)%nat ->
  exists ev, findBestFiveCardHand cards = Ok ev /\
             (exists combo, combo ∈ getCombinations cards 5 /\ s5 combo = sv ev) /\
             (forall combo, combo ∈ getCombinations cards 5 -> s5 combo <= sv ev).
Proof.
  intros Hlen. unfold findBestFiveCardHand.
  destruct (findBest_loop_ok (getCombinations cards 5) None) as (r & -> & Hr).
  { apply combinations_nonempty_elems. }
  destruct (fold_best_step (getCombinations cards 5) None) as (m & Hm & Hsrc & _ & Hub).
  { intros _. apply getCombinations_nonempty. exact Hlen. }
  simpl in Hr. rewrite Hm in Hr. destruct r as [ev|]; [|discriminate Hr].
  simpl in Hr. injection Hr as Hr. simpl. exists ev. split; [reflexivity|].
  rewrite Hr. split; [|exact Hub].
  destruct Hsrc as [Hsrc | Hsrc]; [discriminate Hsrc | exact Hsrc].
Qed.

(** The evaluator returns on five cards or more. *)
Lemma evaluatePokerHand_total (cards : list Card) :
  (5 <= length cards)%nat -> exists ev, evaluatePokerHand cards = Ok ev.
Proof.
  intros Hlen. unfold evaluatePokerHand.
  destruct (Nat.ltb_spec (length cards) 5) as [Hlt|_]; [lia|].
  destruct (length cards =? 5)%nat.
  - destruct (evaluateFiveCardHand_ok cards) as (ev & Hev & _); [|eauto].
    intros ->. simpl in Hlen. lia.
  - destruct (findBestFiveCardHand_ok cards Hlen) as (ev & Hev & _). eauto.
Qed.

Lemma evaluatePokerHand_few (cards : list Card) :
  (length cards < 5)%nat -> evaluatePokerHand cards = Throw (Error "INSUFFICIENT_CARDS").
Proof.
  intros Hlen. unfold evaluatePokerHand.
  destruct (Nat.ltb_spec (length cards) 5) as [_|Hge]; [reflexivity | lia].
Qed.

Lemma findBest_Permutation_le (l l' : list Card) (ev ev' : HandEvaluation) :
  l ≡ₚ l' ->
  (exists combo, combo ∈ getCombinations l 5 /\ s5 combo = sv ev) ->
  (forall combo, combo ∈ getCombinations l' 5 -> s5 combo <= sv ev') ->
  sv ev <= sv ev'.
Proof.
  intros Hp (combo & Hc & <-) Hub.
  destruct (getCombinations_Permutation l l' 5 combo Hp Hc) as (combo' & Hc' & Hpc).
  unfold s5. rewrite (strength5_Permutation _ _ Hpc). apply Hub. exact Hc'.
Qed.

(** ** The entry point [evaluateHand] *)

(** C10: on more than seven cards [evaluateHand] throws TOO_MANY_CARDS,
    whatever the cards are, although [evaluatePokerHand] itself returns an
    evaluation for that list. *)
Theorem evaluateHand_too_many_cards (cards : list Card) :
  (7 < length cards)%nat ->
  evaluateHand cards = Throw (Error "TOO_MANY_CARDS") /\
  exists ev : HandEvaluation, evaluatePokerHand cards = Ok ev.
Proof.
  intros Hlen. split.
  - unfold evaluateHand, validateHandForEvaluation.
    destruct (Nat.ltb_spec (length cards) 5) as [Hlt|_]; [lia|].
    destruct (Nat.ltb_spec 7 (length cards)) as [_|Hle]; [|lia].
    destruct (negb (isValid (validateCards cards))); reflexivity.
  - apply evaluatePokerHand_total. lia.
Qed.

Lemma evaluateHand_too_many_cards_witness :
  evaluateHand (take 8 (availableCards fullDeck)) = Throw (Error "TOO_MANY_CARDS") /\
  exists ev : HandEvaluation, evaluatePokerHand (take 8 (availableCards fullDeck)) = Ok ev.
Proof.
  apply evaluateHand_too_many_cards. simpl. lia.
Defined.

(** ** Outs *)

Lemma evaluatePokerHand_no_Diverge (cards : list Card) : evaluatePokerHand cards <> Diverge.
Proof.
  destruct (le_lt_dec 5 (length cards)) as [Hge|Hlt].
  - destruct (evaluatePokerHand_total cards Hge) as [ev ->]. discriminate.
  - rewrite evaluatePokerHand_few by exact Hlt. discriminate.
Qed.

Lemma calculateOuts_loop_count (knownCards remainingCards : list Card)
    (targetHand : HandStrength) (outs : Z) :
  calculateOuts_loop knownCards remainingCards targetHand outs =
    Ok (outs + Z.of_nat (length (filter (fun card => reaches knownCards targetHand card)
                                        remainingCards))).
Proof.
  revert outs. induction remainingCards as [|card rest IH]; intros outs; simpl.
  - f_equal. lia.
  - assert (Hstep :
      match evaluatePokerHand (knownCards ++ [card]) with
      | Ok evaluation =>
          calculateOuts_loop knownCards rest targetHand
            (if HandStrength_value targetHand <=? HandStrength_value (handStrength evaluation)
             then outs + 1 else outs)
      | Throw _ => calculateOuts_loop knownCards rest targetHand outs
      | Diverge => Diverge
      end =
      calculateOuts_loop knownCards rest targetHand
        (if reaches knownCards targetHand card then outs + 1 else outs)).
    { unfold reaches.
      pose proof (evaluatePokerHand_no_Diverge (knownCards ++ [card])) as Hnd.
      destruct (evaluatePokerHand (knownCards ++ [card])); congruence. }
    rewrite Hstep, IH, filter_cons.
    destruct (decide (reaches knownCards targetHand card)) as [Hr|Hr].
    + apply Is_true_true in Hr. rewrite Hr. simpl length. f_equal. lia.
    + apply Is_true_false in Hr. rewrite Hr. reflexivity.
Qed.

Lemma has_elem_of (ids : list string) (x : string) :
  has (list_to_set ids) x = bool_decide (x ∈ ids).
Proof. unfold has. apply bool_decide_ext. apply elem_of_list_to_set. Qed.

Lemma length_filter_split {A : Type} (P : A -> Prop) `{forall x, Decision (P x)} (l : list A) :
  (length (filter P l) + length (filter (fun x => ~ P x) l) = length l)%nat.
Proof.
  induction l as [|x l IH]; simpl; [reflexivity|].
  rewrite !filter_cons. destruct (decide (P x)) as [Hx|Hx].
  - rewrite decide_False by tauto. simpl. lia.
  - rewrite decide_True by exact Hx. simpl. lia.
Qed.

Lemma fullDeck_ids_NoDup : NoDup (map id (availableCards fullDeck)).
Proof. by_decide. Qed.

(** The deck cards whose id is a known id are as many as the distinct known
    ids, when the known cards are cards of the deck. *)
Lemma known_in_deck_count (knownCards : list Card) :
  Forall well_formed knownCards ->
  length (filter (fun card => id card ∈ map id knownCards) (availableCards fullDeck))
  = length (remove_dups (map id knownCards)).
Proof.
  intros Hwf. rewrite <- (length_fmap id).
  apply Permutation_length, NoDup_Permutation.
  - apply (sublist_NoDup _ (map id (availableCards fullDeck)));
      [apply fullDeck_ids_NoDup|].
    apply fmap_sublist, sublist_filter.
  - apply NoDup_remove_dups.
  - intros x. rewrite elem_of_remove_dups, list_elem_of_fmap. split.
    + intros (c & -> & Hc). apply list_elem_of_filter in Hc as [Hc _]. exact Hc.
    + intros Hx. apply list_elem_of_fmap in Hx as (c & -> & Hc).
      exists c. split; [reflexivity|]. apply list_elem_of_filter. split.
      * apply list_elem_of_fmap. exists c. split; [reflexivity | exact Hc].
      * rewrite Forall_forall in Hwf. apply Hwf. exact Hc.
Qed.

(** C8: [calculateOuts] returns the number of cards of the 52-card deck that
    are outs: cards whose id is not the id of a known card and with which
    the known cards evaluate to the target category or a higher one, a
    candidate whose evaluation throws not being counted. That number is at
    most 52 minus the number of deck cards that are known, which, when the
    known cards are cards of the deck, is 52 minus the number of distinct
    known cards. *)
Theorem calculateOuts_counts (playerHand communityCards : list Card)
    (targetHand : HandStrength) :
  exists outs : nat,
    calculateOuts playerHand communityCards targetHand = Ok (Z.of_nat outs) /\
    outs = length (filter (fun card => is_out (playerHand ++ communityCards) targetHand card)
                          (availableCards fullDeck)) /\
    (outs <= 52 - length (filter (fun card => id card ∈ map id (playerHand ++ communityCards))
                                 (availableCards fullDeck)))%nat /\
    (Forall well_formed (playerHand ++ communityCards) ->
     (outs <= 52 - length (remove_dups (map id (playerHand ++ communityCards))))%nat).
Proof.
  set (knownCards := playerHand ++ communityCards) in *.
  assert (Hle : (length (filter (fun card => is_out knownCards targetHand card)
                                (availableCards fullDeck))
                 <= 52 - length (filter (fun card => id card ∈ map id knownCards)
                                        (availableCards fullDeck)))%nat).
  { pose proof (length_filter_split (fun card => id card ∈ map id knownCards)
                  (availableCards fullDeck)) as Hs.
    change (length (availableCards fullDeck)) with 52%nat in Hs.
    assert (Hout : (length (filter (fun card => is_out knownCards targetHand card)
                                   (availableCards fullDeck))
                    <= length (filter (fun card => ~ id card ∈ map id knownCards)
                                      (availableCards fullDeck)))%nat).
    { rewrite <- (list_filter_filter_l
                    (fun card => is_out knownCards targetHand card)
                    (fun card => ~ id card ∈ map id knownCards)).
      - apply length_filter.
      - intros card Hout Hin. unfold is_out in Hout.
        rewrite bool_decide_eq_true_2 in Hout by exact Hin. exact Hout. }
    lia. }
  eexists. split; [|split; [reflexivity|split; [exact Hle|]]].
  - unfold calculateOuts. fold knownCards. rewrite getRemainingCards_ok.
    cbn [bind]. rewrite calculateOuts_loop_count, list_filter_filter. f_equal.
    rewrite Z.add_0_l. do 2 f_equal. apply list_filter_iff. intros card.
    unfold is_out. rewrite has_elem_of.
    destruct (bool_decide (id card ∈ map id knownCards));
      destruct (reaches knownCards targetHand card); simpl; tauto.
  - intros Hwf. rewrite <- (known_in_deck_count knownCards Hwf). exact Hle.
Qed.

(** Four spades among the known cards: the nine other spades are the outs
    for a flush. *)
Lemma calculateOuts_counts_witness :
  calculateOuts [card_of spades rA; card_of spades rK]
                [card_of spades r2; card_of spades r7; card_of hearts r4] FLUSH = Ok 9 /\
  (9 <= 52 - 5)%nat.
Proof.
  destruct (calculateOuts_counts [card_of spades rA; card_of spades rK]
              [card_of spades r2; card_of spades r7; card_of hearts r4] FLUSH)
    as (outs & Hc & Ho & _ & Hb).
  assert (H9 : outs = 9%nat) by (rewrite Ho; vm_compute; reflexivity).
  rewrite H9 in Hc, Hb. split; [exact Hc|].
  apply Hb. repeat constructor; by_decide.
Defined.

(** ** Order of the input cards *)

(** C3, as the code has it: the evaluator returns for every list of at least
    five cards, and for two orderings of the same cards it returns
    evaluations of the same category [handStrength]. *)
Theorem evaluatePokerHand_handStrength_order (cards cards' : list Card) :
  cards ≡ₚ cards' -> (5 <= length cards)%nat ->
  exists ev ev' : HandEvaluation,
    evaluatePokerHand cards = Ok ev /\ evaluatePokerHand cards' = Ok ev' /\
    handStrength ev = handStrength ev'.
Proof.
  intros Hp Hlen.
  assert (Hlen' : length cards' = length cards) by (rewrite Hp; reflexivity).
  unfold evaluatePokerHand. rewrite Hlen'.
  destruct (Nat.ltb_spec (length cards) 5) as [Hlt|_]; [lia|].
  destruct (length cards =? 5)%nat.
  - destruct (evaluateFiveCardHand_ok cards) as (ev & Hev & Hs).
    { intros ->. simpl in Hlen. lia. }
    destruct (evaluateFiveCardHand_ok cards') as (ev' & Hev' & Hs').
    { intros ->. simpl in Hlen'. lia. }
    exists ev, ev'. split; [exact Hev|]. split; [exact Hev'|].
    rewrite Hs, Hs'. apply strength5_Permutation. exact Hp.
  - destruct (findBestFiveCardHand_ok cards Hlen) as (ev & Hev & Hin & Hub).
    destruct (findBestFiveCardHand_ok cards') as (ev' & Hev' & Hin' & Hub'); [lia|].
    exists ev, ev'. split; [exact Hev|]. split; [exact Hev'|].
    apply HandStrength_value_inj. fold (sv ev) (sv ev').
    pose proof (findBest_Permutation_le cards cards' ev ev' Hp Hin Hub').
    pose proof (findBest_Permutation_le cards' cards ev' ev (symmetry Hp) Hin' Hub).
    lia.
Qed.

Lemma evaluatePokerHand_handStrength_order_witness :
  exists ev ev' : HandEvaluation,
    evaluatePokerHand
      [card_of spades r2; card_of hearts r3; card_of clubs r4; card_of diamonds r5;
       card_of spades r6; card_of hearts r7] = Ok ev /\
    evaluatePokerHand
      [card_of hearts r7; card_of spades r2; card_of hearts r3; card_of clubs r4;
       card_of diamonds r5; card_of spades r6] = Ok ev' /\
    handStrength ev = handStrength ev'.
Proof.
  apply evaluatePokerHand_handStrength_order.
  - symmetry. apply Permutation_cons_append.
  - simpl. lia.
Defined.

(** C3 as stated fails. The six cards 2 to 7 hold two straights, which tie
    in [compareHands]; the evaluator keeps the first it meets, and with the 7
    moved to the front it returns the 6-high straight instead of the 7-high
    one: another best hand and another description. With four aces and two
    kings, swapping the kings swaps the kicker. All cards are cards of the
    deck and distinct. *)
Lemma evaluatePokerHand_order_dependent :
  (six_run ≡ₚ six_run_reordered /\ NoDup six_run /\ Forall well_formed six_run /\
   exists ev ev' : HandEvaluation,
     evaluatePokerHand six_run = Ok ev /\
     evaluatePokerHand six_run_reordered = Ok ev' /\
     description ev = "Straight, 7♥ high" /\
     description ev' = "Straight, 6♠ high" /\
     bestHand ev <> bestHand ev') /\
  (quads_kings ≡ₚ quads_kings_reordered /\ NoDup quads_kings /\
   Forall well_formed quads_kings /\
   exists ev ev' : HandEvaluation,
     evaluatePokerHand quads_kings = Ok ev /\
     evaluatePokerHand quads_kings_reordered = Ok ev' /\
     kickers ev = [Some (card_of hearts rK)] /\
     kickers ev' = [Some (card_of spades rK)]).
Proof.
  split.
  - split; [symmetry; apply Permutation_cons_append|].
    split; [by_decide|]. split; [repeat constructor; by_decide|].
    eexists. eexists. split; [vm_compute; reflexivity|].
    split; [vm_compute; reflexivity|].
    split; [reflexivity|]. split; [reflexivity|]. discriminate.
  - split; [do 4 apply perm_skip; apply perm_swap|].
    split; [by_decide|]. split; [repeat constructor; by_decide|].
    eexists. eexists. split; [vm_compute; reflexivity|].
    split; [vm_compute; reflexivity|].
    split; reflexivity.
Qed.

(** * Further properties *)

(** ** Card validation *)

Lemma validateCards_step_split (seenIds : gset string) (errs : list ValidationError)
    (card : Card) :
  validateCards_step (seenIds, errs) card
  = ({[ id card ]} ∪ seenIds, errs ++ card_errors seenIds card).
Proof.
  unfold card_errors, validateCards_step. cbv beta iota zeta.
  repeat match goal with
         | |- context [if ?b then _ else _] => destruct b
         end; cbn [snd app]; rewrite <- ?app_assoc, ?app_nil_r; reflexivity.
Qed.

Lemma validateCards_fold (cards : list Card) :
  forall seenIds errs,
    fst (fold_left validateCards_step cards (seenIds, errs))
    = list_to_set (map id cards) ∪ seenIds.
Proof.
  induction cards as [|card cards IH]; intros seenIds errs; cbn [fold_left map].
  - cbn [fst list_to_set]. rewrite (left_id_L ∅ (∪)). reflexivity.
  - rewrite validateCards_step_split, IH. cbn [list_to_set].
    rewrite (assoc_L (∪)), (comm_L (∪) _ {[ id card ]}). reflexivity.
Qed.

Lemma validateCards_snoc (cards : list Card) (card : Card) :
  errors (validateCards (cards ++ [card]))
  = errors (validateCards cards) ++ card_errors (list_to_set (map id cards)) card.
Proof.
  unfold validateCards. cbn [errors]. rewrite fold_left_app. cbn [fold_left].
  pose proof (validateCards_fold cards ∅ []) as Hfst.
  destruct (fold_left validateCards_step cards (∅, [])) as [seenIds errs].
  simpl in Hfst. subst seenIds. rewrite validateCards_step_split. cbn [snd].
  rewrite (right_id_L ∅ (∪)). reflexivity.
Qed.

Lemma card_errors_nil (seenIds : gset string) (card : Card) :
  card_errors seenIds card = [] <->
  (id card ∉ seenIds) /\ card = card_of (suit card) (rank card).
Proof.
  unfold card_errors, validateCards_step, has. cbv beta iota zeta.
  rewrite (proj2 (includes_elem_of SUITS (suit card))) by (apply list_elem_of_In, all_Suits).
  rewrite (proj2 (includes_elem_of RANKS (rank card))) by (apply list_elem_of_In, all_Ranks).
  cbn [negb app snd].
  destruct card as [s r v d i]. cbn [suit rank value display id]. unfold card_of.
  destruct (bool_decide_reflect (i ∈ seenIds)) as [Hin|Hin];
    destruct (Z.eqb_spec v (CARD_VALUES r)) as [Hv|Hv];
    destruct (String.eqb_spec d (Rank_str r +:+ SUIT_SYMBOLS s)) as [Hd|Hd];
    destruct (String.eqb_spec i (Rank_str r +:+ SUIT_ABBREVIATIONS s)) as [Hi|Hi];
    cbn [negb app]; split;
    try (intros H; discriminate H);
    try (intros [H1 H2]; first [contradiction | congruence]).
  intros _. split; [exact Hin | congruence].
Qed.

Lemma well_formed_iff (card : Card) :
  well_formed card <-> card = card_of (suit card) (rank card).
Proof.
  unfold well_formed, fullDeck. cbn [availableCards]. split.
  - intros H. apply list_elem_of_bind in H as (s & H & _).
    apply list_elem_of_bind in H as (r & H & _).
    apply list_elem_of_singleton in H. subst card. reflexivity.
  - intros ->. destruct (suit card), (rank card); by_decide.
Qed.

Lemma isValid_errors_nil (cards : list Card) :
  isValid (validateCards cards) = true <-> errors (validateCards cards) = [].
Proof.
  unfold validateCards. cbn [isValid errors].
  destruct (snd (fold_left validateCards_step cards (∅, []))); simpl; split;
    intros H; first [reflexivity | discriminate H].
Qed.

Lemma validateCards_errors_nil_iff (cards : list Card) :
  errors (validateCards cards) = [] <->
  NoDup (map id cards) /\ Forall well_formed cards.
Proof.
  induction cards as [|card cards IH] using rev_ind.
  - split; [intros _; split; constructor | reflexivity].
  - rewrite validateCards_snoc, map_app, Forall_app, NoDup_app, Forall_singleton.
    cbn [map]. rewrite well_formed_iff. split.
    + intros H. apply app_eq_nil in H as [H1 H2].
      apply IH in H1 as [Hnd Hwf]. apply card_errors_nil in H2 as [Hid Hc].
      rewrite elem_of_list_to_set in Hid.
      repeat split; try assumption.
      * intros x Hx Hx'. apply list_elem_of_singleton in Hx'. subst x. contradiction.
      * apply NoDup_singleton.
    + intros [(Hnd & Hdis & _) [Hwf Hc]].
      rewrite (proj2 IH) by (split; assumption). cbn [app].
      apply card_errors_nil. split; [|exact Hc].
      rewrite elem_of_list_to_set. intros Hx. apply (Hdis _ Hx). constructor.
Qed.

(** X1: [validateCards] accepts a list of cards exactly when no two of
    them have the same id and each one is a card of the 52-card deck, that
    is has the value, the display and the id that belong to its rank and
    suit. *)
Theorem validateCards_valid_iff (cards : list Card) :
  isValid (validateCards cards) = true <->
  NoDup (map id cards) /\ Forall well_formed cards.
Proof. rewrite isValid_errors_nil. apply validateCards_errors_nil_iff. Qed.


Lemma card_errors_duplicates (seenIds : gset string) (card : Card) :
  length (filter (fun e => code e = "DUPLICATE_CARD") (card_errors seenIds card))
  = if bool_decide (id card ∈ seenIds) then 1%nat else 0%nat.
Proof.
  unfold card_errors, validateCards_step, has. cbv beta iota zeta.
  destruct (bool_decide (id card ∈ seenIds));
    repeat match goal with
           | |- context [if ?b then _ else _] => destruct b
           end; reflexivity.
Qed.

Lemma remove_dups_snoc_length {A : Type} `{EqDecision A} (l : list A) (x : A) :
  length (remove_dups (l ++ [x]))
  = (length (remove_dups l) + if bool_decide (x ∈ l) then 0 else 1)%nat.
Proof.
  destruct (bool_decide_reflect (x ∈ l)) as [Hin|Hin].
  - rewrite Nat.add_0_r. apply Permutation_length, NoDup_Permutation;
      try apply NoDup_remove_dups.
    intros y. rewrite !elem_of_remove_dups, elem_of_app, list_elem_of_singleton.
    split; [intros [H| ->]; assumption | tauto].
  - rewrite Nat.add_1_r. change (S (length (remove_dups l))) with (length (x :: remove_dups l)).
    apply Permutation_length, NoDup_Permutation.
    + apply NoDup_remove_dups.
    + constructor; [rewrite elem_of_remove_dups; exact Hin | apply NoDup_remove_dups].
    + intros y. rewrite elem_of_cons, !elem_of_remove_dups, elem_of_app,
        list_elem_of_singleton. tauto.
Qed.

(** X2: the DUPLICATE_CARD errors [validateCards] reports are as many as
    the cards that repeat an id seen before them: their number and the
    number of distinct ids add up to the number of cards. *)
Theorem validateCards_duplicate_count (cards : list Card) :
  (length (duplicate_errors (validateCards cards)) + length (remove_dups (map id cards))
   = length cards)%nat.
Proof.
  unfold duplicate_errors.
  induction cards as [|card cards IH] using rev_ind; [reflexivity|].
  rewrite validateCards_snoc, filter_app, !length_app, map_app, card_errors_duplicates.
  cbn [map length]. rewrite remove_dups_snoc_length.
  rewrite (bool_decide_ext _ (id card ∈ map id cards)) by apply elem_of_list_to_set.
  destruct (bool_decide (id card ∈ map id cards)); lia.
Qed.

(** ** Shuffling and dealing *)

Lemma swap_Permutation (i j : nat) (cards : list Card) : swap i j cards ≡ₚ cards.
Proof.
  unfold swap. destruct (cards !! i) as [ci|] eqn:Hi; [|reflexivity].
  destruct (cards !! j) as [cj|] eqn:Hj; [|reflexivity].
  apply Permutation_insert_swap; assumption.
Qed.

Lemma shuffle_loop_ok (rnd : nat -> nat) (i : nat) (cards : list Card) (k : nat) :
  fst (shuffle_loop rnd i cards k) ≡ₚ cards /\
  snd (shuffle_loop rnd i cards k) = (k + i)%nat.
Proof.
  revert cards k. induction i as [|i IH]; intros cards k; cbn [shuffle_loop].
  - split; [reflexivity | simpl; lia].
  - destruct (IH (swap (S i) (rnd k mod (S i + 1)) cards) (S k)) as [Hp Hk].
    split; [|rewrite Hk; lia].
    rewrite Hp. apply swap_Permutation.
Qed.

(** X3: whatever the random source gives, [shuffleDeck] returns the
    available cards in some order, each as often as before, leaves the used
    cards and the total unchanged, and draws one random number for each
    available card but one. *)
Theorem shuffleDeck_Permutation (rnd : nat -> nat) (deck : Deck) (k : nat) :
  availableCards (fst (shuffleDeck rnd deck k)) ≡ₚ availableCards deck /\
  usedCards (fst (shuffleDeck rnd deck k)) = usedCards deck /\
  totalCards (fst (shuffleDeck rnd deck k)) = totalCards deck /\
  snd (shuffleDeck rnd deck k) = (k + (length (availableCards deck) - 1))%nat.
Proof.
  unfold shuffleDeck.
  destruct (shuffle_loop_ok rnd (length (availableCards deck) - 1) (availableCards deck) k)
    as [Hp Hk].
  destruct (shuffle_loop rnd (length (availableCards deck) - 1) (availableCards deck) k)
    as [shuffledCards k'].
  simpl in *. auto.
Qed.


(** X4: [createShuffledDeck] returns, for every random source, a
    deck of the 52 cards in some order with no used card, after 51 random
    draws, and its cards pass [validateCards]. *)
Theorem createShuffledDeck_ok (rnd : nat -> nat) (k : nat) :
  exists deck,
    createShuffledDeck rnd k = Ok (deck, (k + 51)%nat) /\
    availableCards deck ≡ₚ availableCards fullDeck /\
    usedCards deck = [] /\
    totalCards deck = 52 /\
    isValid (validateCards (availableCards deck)) = true.
Proof.
  unfold createShuffledDeck. rewrite createDeck_ok. cbn [bind].
  unfold shuffleDeck.
  destruct (shuffle_loop_ok rnd (length (availableCards fullDeck) - 1)
              (availableCards fullDeck) k) as (Hp & Hk).
  destruct (shuffle_loop rnd (length (availableCards fullDeck) - 1)
              (availableCards fullDeck) k) as [shuffledCards k'].
  cbn [fst snd] in Hp, Hk. subst k'.
  eexists. split; [reflexivity|]. cbn [availableCards usedCards totalCards].
  repeat split; try assumption.
  apply isValid_errors_nil, validateCards_errors_nil_iff. split.
  - rewrite Hp. apply fullDeck_ids_NoDup.
  - rewrite Hp. apply Forall_forall. intros c Hc. exact Hc.
Qed.

Lemma dealCards_Ok (deck : Deck) (n : nat) :
  (n <= length (availableCards deck))%nat ->
  dealCards deck n =
    Ok (mkDealResult (take n (availableCards deck))
          (mkDeck (drop n (availableCards deck))
                  (usedCards deck ++ take n (availableCards deck)) 52)).
Proof.
  intros Hle. unfold dealCards.
  destruct (Nat.ltb_spec (length (availableCards deck)) n); [lia | reflexivity].
Qed.

Lemma dealCards_Throw (deck : Deck) (n : nat) :
  (length (availableCards deck) < n)%nat ->
  dealCards deck n = Throw (Error "INSUFFICIENT_CARDS").
Proof.
  intros Hlt. unfold dealCards.
  destruct (Nat.ltb_spec (length (availableCards deck)) n); [reflexivity | lia].
Qed.

(** X5: dealing [n] cards and then [m] cards from the deck that remains is
    dealing [n + m] cards at once: the cards dealt are those of the first
    deal followed by those of the second, and the deck that remains is the
    same. *)
Theorem dealCards_twice (deck : Deck) (n m : nat) (r1 r2 : DealResult) :
  dealCards deck n = Ok r1 ->
  dealCards (remainingDeck r1) m = Ok r2 ->
  dealCards deck (n + m) =
    Ok (mkDealResult (dealtCards r1 ++ dealtCards r2) (remainingDeck r2)).
Proof.
  intros H1 H2.
  destruct (le_lt_dec n (length (availableCards deck))) as [Hn|Hn];
    [|rewrite dealCards_Throw in H1 by exact Hn; discriminate H1].
  rewrite dealCards_Ok in H1 by exact Hn. injection H1 as <-.
  cbn [remainingDeck dealtCards] in *.
  destruct (le_lt_dec m (length (drop n (availableCards deck)))) as [Hm|Hm];
    [|rewrite dealCards_Throw in H2 by exact Hm; discriminate H2].
  rewrite dealCards_Ok in H2 by exact Hm. injection H2 as <-.
  cbn [availableCards usedCards remainingDeck dealtCards].
  rewrite length_drop in Hm.
  rewrite dealCards_Ok by lia.
  rewrite drop_drop, <- app_assoc, take_take_drop. reflexivity.
Qed.

Lemma dealCards_twice_witness :
  let deck := mkDeck [card_of spades rA; card_of hearts rK; card_of clubs r2;
                      card_of diamonds r7] [] 52 in
  dealCards deck (1 + 2)
  = Ok (mkDealResult ([card_of spades rA] ++ [card_of hearts rK; card_of clubs r2])
          (mkDeck [card_of diamonds r7]
                  [card_of spades rA; card_of hearts rK; card_of clubs r2] 52)).
Proof.
  intros deck.
  exact (dealCards_twice deck 1 2
           (mkDealResult [card_of spades rA]
              (mkDeck [card_of hearts rK; card_of clubs r2; card_of diamonds r7]
                      [card_of spades rA] 52))
           (mkDealResult [card_of hearts rK; card_of clubs r2]
              (mkDeck [card_of diamonds r7]
                      [card_of spades rA; card_of hearts rK; card_of clubs r2] 52))
           eq_refl eq_refl).
Defined.

(** X6: [canDealCards] answers true exactly when [dealCards] returns;
    the result then holds the same cards as the deck, used cards first, in
    the same order; and it answers false exactly when [dealCards] throws
    INSUFFICIENT_CARDS. *)
Theorem canDealCards_dealCards (deck : Deck) (count : nat) :
  (canDealCards deck count = true <->
   exists r, dealCards deck count = Ok r /\
             usedCards (remainingDeck r) ++ availableCards (remainingDeck r)
             = usedCards deck ++ availableCards deck) /\
  (canDealCards deck count = false <->
   dealCards deck count = Throw (Error "INSUFFICIENT_CARDS")).
Proof.
  unfold canDealCards.
  destruct (Nat.leb_spec count (length (availableCards deck))) as [Hle|Hlt].
  - rewrite dealCards_Ok by exact Hle.
    split; split; try (intros H; discriminate H); [|reflexivity].
    intros _. eexists. split; [reflexivity|].
    cbn [remainingDeck usedCards availableCards].
    rewrite <- app_assoc, take_drop. reflexivity.
  - rewrite dealCards_Throw by exact Hlt.
    split; split; try (intros H; discriminate H); try reflexivity.
    intros (r & Hr & _). discriminate Hr.
Qed.

Lemma dealHands_loop_Ok (numHands cardsPerHand : nat) :
  forall (deck : Deck) (hands : list (list Card)),
    (numHands * cardsPerHand <= length (availableCards deck))%nat ->
    exists dealt remaining,
      dealHands_loop numHands cardsPerHand deck hands
      = Ok (DealHands.mk (hands ++ dealt) remaining) /\
      concat dealt = take (numHands * cardsPerHand) (availableCards deck) /\
      length dealt = numHands /\
      Forall (fun hand => length hand = cardsPerHand) dealt /\
      availableCards remaining = drop (numHands * cardsPerHand) (availableCards deck) /\
      usedCards remaining
      = usedCards deck ++ take (numHands * cardsPerHand) (availableCards deck).
Proof.
  induction numHands as [|n IH]; intros deck hands Hle; cbn [dealHands_loop].
  - exists [], deck. rewrite app_nil_r. cbn [Nat.mul]. rewrite take_0, drop_0, app_nil_r.
    repeat split. constructor.
  - cbn [Nat.mul] in Hle. rewrite dealCards_Ok by lia. cbn [bind remainingDeck dealtCards].
    destruct (IH (mkDeck (drop cardsPerHand (availableCards deck))
                         (usedCards deck ++ take cardsPerHand (availableCards deck)) 52)
                 (hands ++ [take cardsPerHand (availableCards deck)]))
      as (dealt & remaining & Heq & Hcat & Hlen & Hall & Hav & Hus).
    { cbn [availableCards]. rewrite length_drop. lia. }
    cbn [availableCards usedCards] in *.
    exists (take cardsPerHand (availableCards deck) :: dealt), remaining.
    rewrite Heq, <- app_assoc. cbn [app concat length Nat.mul].
    rewrite Hcat, Hlen, Hav, Hus, drop_drop, <- app_assoc, take_take_drop.
    repeat split. constructor; [|exact Hall]. rewrite length_take. lia.
Qed.

Lemma dealHands_loop_Throw (numHands cardsPerHand : nat) :
  forall (deck : Deck) (hands : list (list Card)),
    (length (availableCards deck) < numHands * cardsPerHand)%nat ->
    dealHands_loop numHands cardsPerHand deck hands = Throw (Error "INSUFFICIENT_CARDS").
Proof.
  induction numHands as [|n IH]; intros deck hands Hlt; cbn [dealHands_loop].
  - cbn [Nat.mul] in Hlt. lia.
  - cbn [Nat.mul] in Hlt.
    destruct (le_lt_dec cardsPerHand (length (availableCards deck))) as [Hc|Hc].
    + rewrite dealCards_Ok by exact Hc. cbn [bind remainingDeck dealtCards].
      apply IH. cbn [availableCards]. rewrite length_drop. lia.
    + rewrite dealCards_Throw by exact Hc. reflexivity.
Qed.

(** X7: [dealHands] returns when the deck has [numHands * cardsPerHand]
    available cards: [numHands] hands of [cardsPerHand] cards each, which
    one after the other are the first cards of the deck in their order, and
    a deck from which exactly these cards have moved to the used cards.
    With fewer available cards it throws INSUFFICIENT_CARDS, also when the
    first hands could have been dealt. *)
Theorem dealHands_spec (deck : Deck) (numHands cardsPerHand : nat) :
  let total := (numHands * cardsPerHand)%nat in
  if (total <=? length (availableCards deck))%nat then
    exists r,
      dealHands deck numHands cardsPerHand = Ok r /\
      length (DealHands.hands r) = numHands /\
      Forall (fun hand => length hand = cardsPerHand) (DealHands.hands r) /\
      concat (DealHands.hands r) = take total (availableCards deck) /\
      availableCards (DealHands.remainingDeck r) = drop total (availableCards deck) /\
      usedCards (DealHands.remainingDeck r)
      = usedCards deck ++ take total (availableCards deck)
  else dealHands deck numHands cardsPerHand = Throw (Error "INSUFFICIENT_CARDS").
Proof.
  intros total. unfold dealHands.
  destruct (Nat.leb_spec total (length (availableCards deck))) as [Hle|Hlt].
  - destruct (dealHands_loop_Ok numHands cardsPerHand deck [] Hle)
      as (dealt & remaining & Heq & Hcat & Hlen & Hall & Hav & Hus).
    eexists. split; [exact Heq|]. cbn [DealHands.hands DealHands.remainingDeck app].
    auto.
  - apply dealHands_loop_Throw. exact Hlt.
Qed.

(** ** Removing cards, and the statistics of a deck *)

Lemma has_app (a b : list string) (x : string) :
  has (list_to_set (a ++ b)) x = has (list_to_set a) x || has (list_to_set b) x.
Proof.
  rewrite !has_elem_of.
  destruct (bool_decide_reflect (x ∈ a)) as [Ha|Ha];
    destruct (bool_decide_reflect (x ∈ b)) as [Hb|Hb]; cbn [orb];
    first [apply bool_decide_eq_true_2 | apply bool_decide_eq_false_2];
    rewrite elem_of_app; tauto.
Qed.

(** X8: removing one list of cards from a deck and then another is
    removing the two lists at once; and [getRemainingCards] of the two
    lists is what is left available of the full deck after the two
    removals. *)
Theorem removeCardsFromDeck_twice (deck : Deck) (first second : list Card) :
  removeCardsFromDeck (removeCardsFromDeck deck first) second
  = removeCardsFromDeck deck (first ++ second) /\
  getRemainingCards (first ++ second)
  = Ok (availableCards (removeCardsFromDeck (removeCardsFromDeck fullDeck first) second)).
Proof.
  assert (H : removeCardsFromDeck (removeCardsFromDeck deck first) second
              = removeCardsFromDeck deck (first ++ second) /\
              forall d, availableCards (removeCardsFromDeck (removeCardsFromDeck d first) second)
                        = availableCards (removeCardsFromDeck d (first ++ second))).
  { assert (Hav : forall d,
      filter (fun card => negb (has (list_to_set (map id second)) (id card)))
        (filter (fun card => negb (has (list_to_set (map id first)) (id card)))
           (availableCards d))
      = filter (fun card => negb (has (list_to_set (map id (first ++ second))) (id card)))
          (availableCards d)).
    { intros d. rewrite list_filter_filter. apply list_filter_iff. intros card.
      rewrite map_app, has_app.
      destruct (has (list_to_set (map id first)) (id card)),
               (has (list_to_set (map id second)) (id card)); simpl; tauto. }
    unfold removeCardsFromDeck. cbn [availableCards usedCards]. split.
    - rewrite Hav, <- app_assoc. reflexivity.
    - exact Hav. }
  destruct H as [H1 H2]. split; [exact H1|].
  rewrite H2, getRemainingCards_ok. reflexivity.
Qed.

Lemma deck_same_id (c c' : Card) :
  well_formed c -> well_formed c' -> id c = id c' -> c = c'.
Proof.
  intros Hc Hc' Hid. apply well_formed_iff in Hc, Hc'. rewrite Hc, Hc'.
  rewrite Hc, Hc' in Hid. revert Hid.
  destruct (suit c), (rank c), (suit c'), (rank c'); intros Hid;
    first [reflexivity | discriminate Hid].
Qed.

Lemma NoDup_of_ids (cards : list Card) : NoDup (map id cards) -> NoDup cards.
Proof. apply NoDup_fmap_1. Qed.

(** X9: for known cards of the deck with distinct ids, the known
    cards together with what [getRemainingCards] returns are the 52 cards
    of the deck, each once, so that 52 minus the number of known cards
    remain. *)
Theorem getRemainingCards_complement (knownCards : list Card) :
  Forall well_formed knownCards -> NoDup (map id knownCards) ->
  exists remaining,
    getRemainingCards knownCards = Ok remaining /\
    knownCards ++ remaining ≡ₚ availableCards fullDeck /\
    (length remaining = 52 - length knownCards)%nat.
Proof.
  intros Hwf Hnd. rewrite getRemainingCards_ok. eexists. split; [reflexivity|].
  assert (Hp : knownCards ++ filter (fun card => negb (has (list_to_set (map id knownCards))
                                                        (id card)))
                                    (availableCards fullDeck)
               ≡ₚ availableCards fullDeck).
  { rewrite <- (filter_app_complement (fun card => id card ∈ map id knownCards)
                  (availableCards fullDeck)) at 2.
    apply Permutation_app.
    - apply NoDup_Permutation.
      + apply NoDup_of_ids. exact Hnd.
      + apply NoDup_filter, NoDup_of_ids, fullDeck_ids_NoDup.
      + intros c. rewrite list_elem_of_filter. rewrite Forall_forall in Hwf. split.
        * intros Hc. split; [|apply Hwf; exact Hc].
          apply list_elem_of_fmap. exists c. split; [reflexivity | exact Hc].
        * intros [Hid Hc]. apply list_elem_of_fmap in Hid as (c' & Hid & Hc').
          rewrite (deck_same_id c c' Hc (Hwf _ Hc') Hid). exact Hc'.
    - match goal with
      | |- ?a ≡ₚ ?b => assert (E : a = b); [|rewrite E; reflexivity]
      end.
      apply list_filter_iff. intros card.
      rewrite has_elem_of. destruct (bool_decide_reflect (id card ∈ map id knownCards));
        simpl; tauto. }
  split; [exact Hp|].
  apply Permutation_length in Hp. rewrite length_app in Hp.
  change (length (availableCards fullDeck)) with 52%nat in Hp. lia.
Qed.

Lemma getRemainingCards_complement_witness :
  exists remaining,
    getRemainingCards [card_of spades rA; card_of hearts rA] = Ok remaining /\
    [card_of spades rA; card_of hearts rA] ++ remaining ≡ₚ availableCards fullDeck /\
    (length remaining = 52 - 2)%nat.
Proof.
  apply (getRemainingCards_complement [card_of spades rA; card_of hearts rA]).
  - repeat constructor; by_decide.
  - by_decide.
Defined.

Lemma getDeckStats_fold (cards : list Card) (suitCounts : Suit -> Z) (rankCounts : Rank -> Z) :
  let counts :=
    fold_left (fun '(suitCounts, rankCounts) card =>
                 (incr suitCounts (suit card), incr rankCounts (rank card)))
              cards (suitCounts, rankCounts) in
  (forall s, fst counts s = suitCounts s + occ s (map suit cards)) /\
  (forall r, snd counts r = rankCounts r + occ r (map rank cards)).
Proof.
  revert suitCounts rankCounts.
  induction cards as [|card cards IH]; intros suitCounts rankCounts; cbn [fold_left map].
  - unfold occ. simpl. split; intros; lia.
  - destruct (IH (incr suitCounts (suit card)) (incr rankCounts (rank card))) as [Hs Hr].
    cbv zeta in Hs, Hr. split.
    + intros s. rewrite Hs, occ_cons. unfold incr.
      destruct (decide (suit card = s)) as [<-|Hne].
      * rewrite bool_decide_eq_true_2 by reflexivity. lia.
      * rewrite bool_decide_eq_false_2 by congruence. lia.
    + intros r. rewrite Hr, occ_cons. unfold incr.
      destruct (decide (rank card = r)) as [<-|Hne].
      * rewrite bool_decide_eq_true_2 by reflexivity. lia.
      * rewrite bool_decide_eq_false_2 by congruence. lia.
Qed.

Lemma occ_total {K : Type} `{EqDecision K} (all : list K) (keys : list K) :
  NoDup all -> (forall k, k ∈ all) ->
  foldr Z.add 0 (map (fun k => occ k keys) all) = Z.of_nat (length keys).
Proof.
  intros Hnd Hall.
  induction keys as [|x keys IH].
  - clear. induction all as [|k all IH]; simpl; [reflexivity|]. rewrite IH. reflexivity.
  - cbn [length]. rewrite Nat2Z.inj_succ, <- IH.
    assert (Hx : x ∈ all) by apply Hall. clear IH Hall.
    induction Hnd as [|k all Hk Hnd IH]; [apply elem_of_nil in Hx; destruct Hx|].
    cbn [map foldr]. rewrite occ_cons.
    destruct (decide (x = k)) as [->|Hne].
    + assert (Hrest : foldr Z.add 0 (map (fun k0 => occ k0 (k :: keys)) all)
                      = foldr Z.add 0 (map (fun k0 => occ k0 keys) all)).
      { clear IH Hx Hnd. induction all as [|k' all IH]; [reflexivity|].
        cbn [map foldr]. rewrite occ_cons, IH.
        - rewrite decide_False; [reflexivity|]. intros ->. apply Hk. left.
        - intros Hin. apply Hk. right. exact Hin. }
      rewrite Hrest. lia.
    + apply elem_of_cons in Hx as [Hx|Hx]; [congruence|]. rewrite (IH Hx). lia.
Qed.

(** X10: [getDeckStats] counts for every suit and every rank the
    available cards that have it, and both the four suit counts and the
    thirteen rank counts add up to the number of available cards. *)
Theorem getDeckStats_counts (deck : Deck) :
  let stats := getDeckStats deck in
  (forall s, suitCounts stats s = occ s (map suit (availableCards deck))) /\
  (forall r, rankCounts stats r = occ r (map rank (availableCards deck))) /\
  foldr Z.add 0 (map (suitCounts stats) SUITS) = Z.of_nat (availableCount stats) /\
  foldr Z.add 0 (map (rankCounts stats) RANKS) = Z.of_nat (availableCount stats).
Proof.
  intros stats. subst stats. unfold getDeckStats.
  destruct (getDeckStats_fold (availableCards deck) (fun _ => 0) (fun _ => 0)) as [Hs Hr].
  cbv zeta in Hs, Hr.
  destruct (fold_left _ (availableCards deck) _) as [sc rc].
  cbn [fst snd suitCounts rankCounts availableCount] in *.
  assert (Hs' : forall s, sc s = occ s (map suit (availableCards deck)))
    by (intros s; rewrite Hs; lia).
  assert (Hr' : forall r, rc r = occ r (map rank (availableCards deck)))
    by (intros r; rewrite Hr; lia).
  split; [exact Hs'|]. split; [exact Hr'|]. split.
  - rewrite (map_ext _ _ Hs'), occ_total, length_map; [reflexivity | by_decide |].
    intros s. apply list_elem_of_In, all_Suits.
  - rewrite (map_ext _ _ Hr'), occ_total, length_map; [reflexivity | by_decide |].
    intros r. apply list_elem_of_In, all_Ranks.
Qed.

(** ** Simulated deals *)

Lemma simulateDeal_loop_ok (rnd : nat -> nat) (knownCards available : list Card)
    (iterations : nat) :
  forall (simulations : list (list Card)) (k : nat),
    exists hands,
      simulateDeal_loop rnd iterations knownCards available simulations k
      = Ok (simulations ++ hands, (k + iterations * (length available - 1))%nat) /\
      length hands = iterations /\
      Forall (simulated_from knownCards available) hands.
Proof.
  induction iterations as [|n IH]; intros simulations k; cbn [simulateDeal_loop].
  - exists []. rewrite app_nil_r, Nat.add_0_r. repeat split. constructor.
  - unfold shuffleDeck. cbn [availableCards usedCards totalCards].
    destruct (shuffle_loop_ok rnd (length available - 1) available k) as (Hp & Hk).
    destruct (shuffle_loop rnd (length available - 1) available k) as [shuffledCards k'].
    cbn [fst snd] in Hp, Hk. subst k'.
    set (shuffled := mkDeck shuffledCards knownCards 52).
    change shuffledCards with (availableCards shuffled) in Hp.
    set (count := Nat.min (Z.to_nat (7 - Z.of_nat (length knownCards)))
                          (length (availableCards shuffled))).
    assert (Hcount : count = Nat.min (7 - length knownCards) (length available)).
    { unfold count. rewrite Hp. f_equal. lia. }
    assert (Hhand : exists hand,
      (if 0 <? 7 - Z.of_nat (length knownCards)
       then let* dealt := dealCards shuffled count in
            Ok (simulations ++ [knownCards ++ dealtCards dealt])
       else Ok (simulations ++ [knownCards])) = Ok (simulations ++ [hand]) /\
      simulated_from knownCards available hand).
    { destruct (Z.ltb_spec 0 (7 - Z.of_nat (length knownCards))) as [Hpos|Hneg].
      - rewrite dealCards_Ok by (unfold count; lia). cbn [bind dealtCards].
        eexists. split; [reflexivity|].
        exists (take count (availableCards shuffled)). split; [reflexivity|]. split.
        + rewrite <- Hp. apply submseteq_take.
        + rewrite length_take, <- Hcount. unfold count. lia.
      - exists knownCards. split; [reflexivity|].
        exists []. rewrite app_nil_r. split; [reflexivity|]. split.
        + apply submseteq_nil_l.
        + simpl. lia. }
    destruct Hhand as (hand & -> & Hsim). cbn [bind].
    destruct (IH (simulations ++ [hand]) (k + (length available - 1))%nat)
      as (hands & -> & Hlen & Hall).
    exists (hand :: hands). rewrite <- app_assoc. cbn [app length]. split; [f_equal; f_equal; lia|].
    split; [lia|]. constructor; assumption.
Qed.

Lemma natural_for_count (n : nat) :
  for_count (ToNumber (VNum (Num (inject_Z (Z.of_nat n))))) = Some n.
Proof. cbn [ToNumber for_count]. rewrite Qceiling_Z, Nat2Z.id. reflexivity. Qed.

Lemma remaining_ids (knownCards : list Card) (c : Card) :
  c ∈ filter (fun card => negb (has (list_to_set (map id knownCards)) (id card)))
             (availableCards fullDeck) <->
  well_formed c /\ id c ∉ map id knownCards.
Proof.
  rewrite list_elem_of_filter, has_elem_of. unfold well_formed.
  destruct (bool_decide_reflect (id c ∈ map id knownCards)); simpl; tauto.
Qed.

Lemma remaining_length (knownCards : list Card) :
  (52 - length knownCards
   <= length (filter (fun card => negb (has (list_to_set (map id knownCards)) (id card)))
                     (availableCards fullDeck)))%nat.
Proof.
  pose proof (length_filter_split (fun card => id card ∈ map id knownCards)
                (availableCards fullDeck)) as Hs.
  change (length (availableCards fullDeck)) with 52%nat in Hs.
  assert (Hin : (length (filter (fun card => id card ∈ map id knownCards)
                                (availableCards fullDeck)) <= length knownCards)%nat).
  { rewrite <- (length_fmap id), <- (length_map id knownCards).
    apply submseteq_length, NoDup_submseteq.
    - apply (sublist_NoDup _ (map id (availableCards fullDeck)));
        [apply fullDeck_ids_NoDup|].
      apply fmap_sublist, sublist_filter.
    - intros x Hx. apply list_elem_of_fmap in Hx as (c & -> & Hc).
      apply list_elem_of_filter in Hc as [Hc _]. exact Hc. }
  assert (Heq : filter (fun card => negb (has (list_to_set (map id knownCards)) (id card)))
                       (availableCards fullDeck)
                = filter (fun card => ~ id card ∈ map id knownCards) (availableCards fullDeck)).
  { apply list_filter_iff. intros card. rewrite has_elem_of.
    destruct (bool_decide_reflect (id card ∈ map id knownCards)); simpl; tauto. }
  cbv beta in Hs. rewrite Heq. lia.
Qed.

Lemma NoDup_submseteq_l {A : Type} (l k : list A) : l ⊆+ k -> NoDup k -> NoDup l.
Proof.
  intros Hsub Hnd. apply submseteq_Permutation in Hsub as (k' & Hk).
  rewrite Hk in Hnd. apply NoDup_app in Hnd as [Hl _]. exact Hl.
Qed.

(** X11: for a whole number [n] of simulations [simulateDeal] returns
    [n] hands, each made of the known cards followed by cards dealt from the
    remaining cards, none of them more often than it remains. Every hand
    has seven cards, or as many as there are known cards when these are
    more than seven; one random number is drawn per remaining card but one
    in each simulation; and when the known cards pass [validateCards], so
    does every hand. *)
Theorem simulateDeal_hands (rnd : nat -> nat) (knownCards : list Card) (n k : nat) :
  exists remaining hands,
    getRemainingCards knownCards = Ok remaining /\
    simulateDeal rnd knownCards (VNum (Num (inject_Z (Z.of_nat n)))) k
    = Ok (hands, (k + n * (length remaining - 1))%nat) /\
    length hands = n /\
    Forall (simulated_from knownCards remaining) hands /\
    Forall (fun hand => length hand = Nat.max 7 (length knownCards)) hands /\
    (isValid (validateCards knownCards) = true ->
     Forall (fun hand => isValid (validateCards hand) = true) hands).
Proof.
  unfold simulateDeal. rewrite getRemainingCards_ok. cbn [bind].
  rewrite natural_for_count.
  set (remaining := filter _ (availableCards fullDeck)).
  destruct (simulateDeal_loop_ok rnd knownCards remaining n [] k) as (hands & -> & Hlen & Hall).
  exists remaining, hands. cbn [app]. repeat split; try assumption.
  - eapply Forall_impl; [exact Hall|]. intros hand (dealt & -> & _ & Hd).
    rewrite length_app, Hd. pose proof (remaining_length knownCards). fold remaining in H. lia.
  - intros Hvalid. apply isValid_errors_nil, validateCards_errors_nil_iff in Hvalid as [Hnd Hwf].
    eapply Forall_impl; [exact Hall|]. intros hand (dealt & -> & Hsub & _).
    apply isValid_errors_nil, validateCards_errors_nil_iff.
    assert (Hdealt : forall c, c ∈ dealt -> well_formed c /\ id c ∉ map id knownCards).
    { intros c Hc. apply remaining_ids. eapply elem_of_submseteq; eassumption. }
    split.
    + rewrite map_app. apply NoDup_app. split; [exact Hnd|]. split.
      * intros x Hx Hx'. apply list_elem_of_fmap in Hx' as (c & -> & Hc).
        apply (proj2 (Hdealt c Hc)). exact Hx.
      * apply (NoDup_submseteq_l _ (map id remaining)).
        -- apply fmap_submseteq. exact Hsub.
        -- apply (sublist_NoDup _ (map id (availableCards fullDeck)));
             [apply fullDeck_ids_NoDup|].
           apply fmap_sublist, sublist_filter.
    + apply Forall_app. split; [exact Hwf|].
      apply Forall_forall. intros c Hc. apply (Hdealt c Hc).
Qed.

(** ** The simulation method *)

Lemma total_count_upd (handCounts : HandStrength -> Z) (h : HandStrength) :
  total_count (Record_upd handCounts h (handCounts h + 1)) = total_count handCounts + 1.
Proof.
  unfold total_count, Record_upd, HandStrength_all. cbn [map foldr].
  destruct h; repeat (case_bool_decide; try congruence); lia.
Qed.

Lemma tally_loop_ok (simulations : list (list Card)) :
  Forall (fun hand => (5 <= length hand)%nat) simulations ->
  forall handCounts,
    (forall h, 0 <= handCounts h) ->
    exists handCounts',
      tally_loop simulations handCounts = Ok handCounts' /\
      total_count handCounts' = total_count handCounts + Z.of_nat (length simulations) /\
      (forall h, 0 <= handCounts' h).
Proof.
  induction 1 as [|hand simulations Hhand _ IH]; intros handCounts Hpos; cbn [tally_loop].
  - exists handCounts. split; [reflexivity|]. split; [simpl; lia | exact Hpos].
  - destruct (evaluatePokerHand_total hand Hhand) as [ev ->].
    destruct (IH (Record_upd handCounts (handStrength ev)
                    (handCounts (handStrength ev) + 1))) as (hc & -> & Hsum & Hpos').
    { intros h. unfold Record_upd. pose proof (Hpos h).
      pose proof (Hpos (handStrength ev)).
      destruct (bool_decide (h = handStrength ev)); lia. }
    exists hc. split; [reflexivity|]. split; [|exact Hpos'].
    rewrite Hsum, total_count_upd. cbn [length]. lia.
Qed.

Lemma natural_for_count_Z (z : Z) :
  0 <= z -> for_count (ToNumber (VNum (Num (inject_Z z)))) = Some (Z.to_nat z).
Proof. intros _. cbn [ToNumber for_count]. rewrite Qceiling_Z. reflexivity. Qed.

(** The simulation with a whole number of simulations: every simulated hand
    is evaluated and counted. *)
Lemma calculateUsingSimulation_tally (rnd : nat -> nat)
    (playerHand communityCards : list Card) (z : Z) (k : nat) :
  0 <= z ->
  let numSimulations := VNum (Num (inject_Z z)) in
  exists (handCounts : HandStrength -> Z) (k' : nat),
    calculateUsingSimulation rnd playerHand communityCards numSimulations k
    = Ok (map (fun handType =>
                 let probability :=
                   js_div (Num (inject_Z (handCounts handType))) (ToNumber numSimulations) in
                 mkProbabilityResult handType probability (js_mul probability (Num 100))
                   (formatOdds probability) (handCounts handType) numSimulations)
              HandStrength_all, k') /\
    total_count handCounts = z /\
    (forall h, 0 <= handCounts h).
Proof.
  intros Hz numSimulations. unfold calculateUsingSimulation.
  subst numSimulations. unfold simulateDeal. rewrite getRemainingCards_ok. cbn [bind].
  rewrite natural_for_count_Z by exact Hz.
  set (knownCards := playerHand ++ communityCards).
  set (remaining := filter _ (availableCards fullDeck)).
  destruct (simulateDeal_loop_ok rnd knownCards remaining (Z.to_nat z) [] k)
    as (hands & -> & Hlen & Hall).
  cbn [bind app].
  destruct (tally_loop_ok hands) with (handCounts := fun _ : HandStrength => 0)
    as (hc & -> & Hsum & Hpos).
  { eapply Forall_impl; [exact Hall|]. intros hand (dealt & -> & _ & Hd).
    rewrite length_app, Hd. pose proof (remaining_length knownCards) as Hr.
    fold remaining in Hr. lia. }
  { intros _. lia. }
  cbn [bind]. exists hc. eexists. split; [reflexivity|]. split; [|exact Hpos].
  change (total_count (fun _ => 0)) with 0 in Hsum. rewrite Hsum, Hlen. lia.
Qed.

(** X12: for a whole number [n] of simulations,
    [calculateUsingSimulation] returns one result per category, in order,
    and no simulated hand is skipped: the occurrences of the ten categories
    add up to [n], each of them lying between 0 and [n]. *)
Theorem calculateUsingSimulation_occurrences (rnd : nat -> nat)
    (playerHand communityCards : list Card) (n k : nat) :
  let numSimulations := VNum (Num (inject_Z (Z.of_nat n))) in
  exists results k',
    calculateUsingSimulation rnd playerHand communityCards numSimulations k
    = Ok (results, k') /\
    map handType results = HandStrength_all /\
    foldr Z.add 0 (map occurrences results) = Z.of_nat n /\
    Forall (fun r => 0 <= occurrences r <= Z.of_nat n) results.
Proof.
  intros numSimulations.
  destruct (calculateUsingSimulation_tally rnd playerHand communityCards (Z.of_nat n) k)
    as (hc & k' & Heq & Hsum & Hpos); [lia|].
  cbv zeta in Heq. fold numSimulations in Heq. rewrite Heq.
  eexists _, _. split; [reflexivity|].
  rewrite !map_map. cbn [handType occurrences]. split; [apply map_id|].
  split; [exact Hsum|].
  apply Forall_map, Forall_forall. intros h _. cbn [occurrences].
  split; [apply Hpos|].
  rewrite <- Hsum. clear -Hpos. unfold total_count.
  pose proof (Hpos HIGH_CARD). pose proof (Hpos PAIR). pose proof (Hpos TWO_PAIR).
  pose proof (Hpos THREE_OF_A_KIND). pose proof (Hpos STRAIGHT). pose proof (Hpos FLUSH).
  pose proof (Hpos FULL_HOUSE). pose proof (Hpos FOUR_OF_A_KIND).
  pose proof (Hpos STRAIGHT_FLUSH). pose proof (Hpos ROYAL_FLUSH).
  unfold HandStrength_all. cbn [map foldr]. destruct h; lia.
Qed.

(** ** The choice of the method and the entry point *)

Lemma validatePokerHand_codes (playerHand communityCards : list Card) (stage : string) :
  Forall (fun e => code e ∈ poker_hand_codes)
         (errors (validatePokerHand playerHand communityCards stage)).
Proof.
  rewrite validatePokerHand_errors. unfold poker_hand_codes.
  apply Forall_app. split; [|apply Forall_app; split].
  - eapply Forall_impl; [apply validateCards_codes|].
    intros e He. apply elem_of_app. left. exact He.
  - destruct (_ && _); constructor; [by_decide | constructor].
  - destruct (stageRequirements stage) as [expected|].
    + destruct (negb _); constructor; [by_decide | constructor].
    + destruct (inherited stage) as [text|]; constructor; [by_decide | constructor].
Qed.

Lemma validatePokerHand_invalid (playerHand communityCards : list Card) (stage : string) :
  isValid (validatePokerHand playerHand communityCards stage) = false ->
  exists e rest, errors (validatePokerHand playerHand communityCards stage) = e :: rest.
Proof.
  unfold validatePokerHand. cbv zeta. cbn [isValid errors].
  match goal with
  | |- (length ?l =? 0)%nat = false -> _ => destruct l as [|e rest]
  end; [intros H; discriminate H | eauto].
Qed.

Lemma GameStage_values_NaN (stage : string) :
  stage ∈ GameStage_values -> StringToNumber stage = NaN.
Proof. intros H. unfold GameStage_values in H. mem_cases H; subst stage; reflexivity. Qed.

Lemma determineOptimalMethod_cases (request : CalculationRequest.t) :
  determineOptimalMethod request =
    match CalculationRequest.preferredMethod request with
    | Some lookup => lookup
    | Some simulation => simulation
    | Some exact => exact
    | _ =>
        if (length (CalculationRequest.playerHand request)
            + length (CalculationRequest.communityCards request) <=? 5)%nat
        then lookup else simulation
    end.
Proof.
  unfold determineOptimalMethod.
  set (total := (length _ + length _)%nat).
  assert (H : (if (total <=? 5)%nat then lookup
               else if (6 <=? total)%nat then simulation else lookup)
              = if (total <=? 5)%nat then lookup else simulation).
  { destruct (Nat.leb_spec total 5); [reflexivity|].
    destruct (Nat.leb_spec 6 total); [reflexivity | lia]. }
  rewrite H. destruct (CalculationRequest.preferredMethod request) as [[]|]; reflexivity.
Qed.

(** X13: [determineOptimalMethod] never returns [auto]: it returns
    the preferred method when there is one other than [auto], and otherwise
    [lookup] for at most five cards and [simulation] for more; the final
    [return 'lookup'] of the source is never reached. *)
Theorem determineOptimalMethod_spec (request : CalculationRequest.t) :
  let total := (length (CalculationRequest.playerHand request)
                + length (CalculationRequest.communityCards request))%nat in
  determineOptimalMethod request <> auto /\
  (forall preferred,
     CalculationRequest.preferredMethod request = Some preferred -> preferred <> auto ->
     determineOptimalMethod request = preferred) /\
  (CalculationRequest.preferredMethod request = None \/
   CalculationRequest.preferredMethod request = Some auto ->
   determineOptimalMethod request = if (total <=? 5)%nat then lookup else simulation).
Proof.
  intros total. rewrite determineOptimalMethod_cases. fold total.
  destruct (CalculationRequest.preferredMethod request) as [[]|];
    repeat split; try discriminate;
    try (destruct (total <=? 5)%nat; discriminate);
    try (intros preferred H; injection H as <-; intros Hne; congruence);
    try (intros preferred H; discriminate H);
    try (intros [H|H]; discriminate H);
    try reflexivity.
Qed.

Section EngineOutcomes.

Variable rnd : nat -> nat.
Variables startTime endTime now : Q.

Lemma calculateHandProbabilities_returns (playerHand communityCards : list Card)
    (stage : string) (method : CalculationMethod) (k : nat) :
  stage ∈ GameStage_values ->
  exists probabilities k',
    calculateHandProbabilities rnd playerHand communityCards stage method k
    = Ok (probabilities, k') /\
    map handType probabilities = HandStrength_all.
Proof.
  intros Hstage. destruct method; cbn [calculateHandProbabilities].
  - eexists _, _. split; [reflexivity | apply calculateUsingLookup_handTypes].
  - eexists _, _. split; [reflexivity | apply calculateUsingLookup_handTypes].
  - destruct (calculateUsingSimulation_tally rnd playerHand communityCards 10000 k)
      as (hc & k' & Heq & _); [lia|].
    cbv zeta in Heq. change (VNum (Num (inject_Z 10000))) with numSimulations_default in Heq.
    rewrite Heq. eexists _, _. split; [reflexivity|].
    rewrite map_map. apply map_id.
  - rewrite calculateUsingExact_stage by (apply GameStage_values_NaN; exact Hstage).
    eexists _, _. split; reflexivity.
Qed.

(** X14: for a request whose stage is one of the four stages,
    [calculateProbabilities] ends in one of two ways. When
    [validatePokerHand] accepts the cards it resolves: the method is the one
    [determineOptimalMethod] chose, never [auto], there is one result per
    category, and stage and cards are those of the request. Otherwise it
    rejects with the code of the first validation error. It never rejects
    with CALCULATION_FAILED. *)
Theorem calculateProbabilities_outcomes (request : CalculationRequest.t) (k : nat) :
  CalculationRequest.stage request ∈ GameStage_values ->
  let validation :=
    validatePokerHand (CalculationRequest.playerHand request)
      (CalculationRequest.communityCards request) (CalculationRequest.stage request) in
  if isValid validation then
    exists res,
      calculateProbabilities rnd startTime endTime now request k = Ok res /\
      CalculationResults.method res = determineOptimalMethod request /\
      CalculationResults.method res <> auto /\
      map handType (CalculationResults.probabilities res) = HandStrength_all /\
      CalculationResults.stage res = CalculationRequest.stage request /\
      CalculationResults.playerHand res = CalculationRequest.playerHand request /\
      CalculationResults.communityCards res = CalculationRequest.communityCards request
  else
    exists e rest,
      errors validation = e :: rest /\
      calculateProbabilities rnd startTime endTime now request k = Throw (Error (code e)) /\
      code e ∈ poker_hand_codes.
Proof.
  intros Hstage validation. unfold calculateProbabilities. fold validation.
  destruct (isValid validation) eqn:Hv; cbn [negb].
  - destruct (calculateHandProbabilities_returns (CalculationRequest.playerHand request)
                (CalculationRequest.communityCards request) (CalculationRequest.stage request)
                (determineOptimalMethod request) k Hstage) as (ps & k' & -> & Hps).
    eexists. split; [reflexivity|].
    cbn [CalculationResults.method CalculationResults.probabilities CalculationResults.stage
         CalculationResults.playerHand CalculationResults.communityCards].
    repeat split; try assumption.
    rewrite determineOptimalMethod_cases.
    destruct (CalculationRequest.preferredMethod request) as [[]|]; try discriminate;
      destruct (_ <=? 5)%nat; discriminate.
  - destruct (validatePokerHand_invalid _ _ _ Hv) as (e & rest & He).
    fold validation in He. exists e, rest. rewrite He. repeat split.
    pose proof (validatePokerHand_codes (CalculationRequest.playerHand request)
                  (CalculationRequest.communityCards request)
                  (CalculationRequest.stage request)) as Hc.
    fold validation in Hc. rewrite He in Hc. apply Forall_cons in Hc as [Hc _]. exact Hc.
Qed.

End EngineOutcomes.

Lemma calculateProbabilities_outcomes_witness :
  exists res,
    calculateProbabilities (fun _ => 0%nat) 0 1 0 (pocket_aces simulation) 0 = Ok res /\
    CalculationResults.method res = determineOptimalMethod (pocket_aces simulation) /\
    CalculationResults.method res <> auto /\
    map handType (CalculationResults.probabilities res) = HandStrength_all /\
    CalculationResults.stage res = "pre-flop" /\
    CalculationResults.playerHand res = [card_of spades rA; card_of hearts rA] /\
    CalculationResults.communityCards res = [].
Proof.
  exact (calculateProbabilities_outcomes (fun _ => 0%nat) 0 1 0 (pocket_aces simulation) 0
           ltac:(by_decide)).
Defined.

(** ** Repeated cards, and [evaluateHand] *)

Lemma card_errors_well_formed (seenIds : gset string) (card : Card) :
  well_formed card ->
  card_errors seenIds card =
    if has seenIds (id card) then
      [mkValidationError "DUPLICATE_CARD" ("Card already exists: " +:+ display card)
         (Some (id card))]
    else [].
Proof.
  intros Hwf. apply well_formed_iff in Hwf. rewrite Hwf.
  unfold card_errors, validateCards_step. cbv beta iota zeta.
  destruct (has seenIds (id (card_of (suit card) (rank card))));
    destruct (suit card), (rank card); reflexivity.
Qed.

Lemma validateCards_well_formed_codes (cards : list Card) :
  Forall well_formed cards ->
  Forall (fun e => code e = "DUPLICATE_CARD") (errors (validateCards cards)).
Proof.
  induction cards as [|card cards IH] using rev_ind; intros Hwf.
  - constructor.
  - apply Forall_app in Hwf as [Hwf Hc]. rewrite Forall_singleton in Hc.
    rewrite validateCards_snoc, card_errors_well_formed by exact Hc.
    apply Forall_app. split; [apply IH; exact Hwf|].
    destruct (has _ _); repeat constructor.
Qed.

Lemma validateCards_duplicate_first (cards : list Card) :
  Forall well_formed cards -> ~ NoDup (map id cards) ->
  exists e rest, errors (validateCards cards) = e :: rest /\ code e = "DUPLICATE_CARD".
Proof.
  intros Hwf Hdup.
  pose proof (validateCards_well_formed_codes cards Hwf) as Hcodes.
  destruct (errors (validateCards cards)) as [|e rest] eqn:He.
  - exfalso. apply Hdup. apply validateCards_errors_nil_iff in He as [Hnd _]. exact Hnd.
  - apply Forall_cons in Hcodes as [Hc _]. eauto.
Qed.

Section DuplicateCards.

Variable rnd : nat -> nat.
Variables startTime endTime now : Q.

(** X15: a request in which a card of the deck occurs twice is
    rejected with DUPLICATE_CARD, whatever its stage, its method and the
    number of its cards are. *)
Theorem calculateProbabilities_duplicate (request : CalculationRequest.t) (k : nat) :
  let knownCards :=
    CalculationRequest.playerHand request ++ CalculationRequest.communityCards request in
  Forall well_formed knownCards ->
  ~ NoDup (map id knownCards) ->
  calculateProbabilities rnd startTime endTime now request k
  = Throw (Error "DUPLICATE_CARD").
Proof.
  intros knownCards Hwf Hdup. unfold calculateProbabilities.
  destruct (validateCards_duplicate_first knownCards Hwf Hdup) as (e & rest & He & Hc).
  pose proof (validatePokerHand_errors (CalculationRequest.playerHand request)
                (CalculationRequest.communityCards request)
                (CalculationRequest.stage request)) as Herrs.
  fold knownCards in Herrs. rewrite He in Herrs. cbn [app] in Herrs.
  assert (Hv : isValid (validatePokerHand (CalculationRequest.playerHand request)
                          (CalculationRequest.communityCards request)
                          (CalculationRequest.stage request)) = false).
  { revert Herrs. unfold validatePokerHand. cbv zeta. cbn [isValid errors].
    intros ->. reflexivity. }
  rewrite Hv, Herrs, Hc. reflexivity.
Qed.

End DuplicateCards.

Lemma calculateProbabilities_duplicate_witness :
  calculateProbabilities (fun _ => 0%nat) 0 1 0
    (CalculationRequest.mk [card_of spades rA; card_of spades rA] [] "pre-flop" None) 0
  = Throw (Error "DUPLICATE_CARD").
Proof.
  apply (calculateProbabilities_duplicate (fun _ => 0%nat) 0 1 0
           (CalculationRequest.mk [card_of spades rA; card_of spades rA] [] "pre-flop" None) 0).
  - repeat constructor; by_decide.
  - intros H. apply NoDup_cons in H as [H _]. apply H. left.
Defined.

Lemma validateHandForEvaluation_errors (cards : list Card) :
  errors (validateHandForEvaluation cards) =
    (if (length cards <? 5)%nat
     then [mkValidationError "INSUFFICIENT_CARDS"
             ("Hand evaluation requires at least 5 cards, got "
              +:+ string_of_nat (length cards)) None]
     else [])
    ++ (if (7 <? length cards)%nat
        then [mkValidationError "TOO_MANY_CARDS"
                ("Hand evaluation supports maximum 7 cards, got "
                 +:+ string_of_nat (length cards)) None]
        else [])
    ++ errors (validateCards cards).
Proof.
  unfold validateHandForEvaluation. cbv zeta. cbn [errors].
  pose proof (validateCards_invalid_errors cards) as Hv. cbn [app] in Hv.
  destruct (length cards <? 5)%nat, (7 <? length cards)%nat;
    destruct (negb (isValid (validateCards cards)));
    try rewrite <- Hv; cbn [app]; rewrite ?app_nil_r; reflexivity.
Qed.

Lemma validateHandForEvaluation_isValid (cards : list Card) :
  isValid (validateHandForEvaluation cards)
  = match errors (validateHandForEvaluation cards) with [] => true | _ => false end.
Proof.
  unfold validateHandForEvaluation. cbv zeta. cbn [isValid errors].
  match goal with |- (length ?l =? 0)%nat = _ => destruct l end; reflexivity.
Qed.

(** X16: [evaluateHand] throws INSUFFICIENT_CARDS on fewer than five cards;
    it returns exactly when there are five to seven cards, all of the deck
    and with distinct ids, and what it returns is what [evaluatePokerHand]
    returns; on five to seven cards of the deck with a repeated id it
    throws DUPLICATE_CARD. *)
Theorem evaluateHand_spec (cards : list Card) :
  ((length cards < 5)%nat -> evaluateHand cards = Throw (Error "INSUFFICIENT_CARDS")) /\
  ((exists ev, evaluateHand cards = Ok ev) <->
   (5 <= length cards <= 7)%nat /\ NoDup (map id cards) /\ Forall well_formed cards) /\
  (forall ev, evaluateHand cards = Ok ev -> evaluatePokerHand cards = Ok ev) /\
  ((5 <= length cards <= 7)%nat -> Forall well_formed cards -> ~ NoDup (map id cards) ->
   evaluateHand cards = Throw (Error "DUPLICATE_CARD")).
Proof.
  unfold evaluateHand. rewrite validateHandForEvaluation_isValid,
    validateHandForEvaluation_errors.
  destruct (Nat.ltb_spec (length cards) 5) as [Hlt|Hge].
  { cbn [app negb code]. split; [reflexivity|]. split; [split|split].
    - intros [ev H]. discriminate H.
    - intros [H _]. lia.
    - intros ev H. discriminate H.
    - intros H. lia. }
  destruct (Nat.ltb_spec 7 (length cards)) as [Hgt|Hle].
  { cbn [app negb code]. split; [lia|]. split; [split|split].
    - intros [ev H]. discriminate H.
    - intros [H _]. lia.
    - intros ev H. discriminate H.
    - intros H. lia. }
  cbn [app]. split; [lia|].
  destruct (errors (validateCards cards)) as [|e rest] eqn:He; cbn [negb].
  - apply validateCards_errors_nil_iff in He as [Hnd Hwf]. split; [split|split].
    + intros _. repeat split; assumption.
    + intros _. apply evaluatePokerHand_total. exact Hge.
    + intros ev H. exact H.
    + intros _ _ Hdup. contradiction.
  - assert (Hnot : ~ (NoDup (map id cards) /\ Forall well_formed cards)).
    { intros H. apply validateCards_errors_nil_iff in H. rewrite He in H. discriminate H. }
    split; [split|split].
    + intros [ev H]. discriminate H.
    + intros (_ & Hnd & Hwf). exfalso. apply Hnot. split; assumption.
    + intros ev H. discriminate H.
    + intros _ Hwf Hdup.
      pose proof (validateCards_well_formed_codes cards Hwf) as Hc.
      rewrite He in Hc. apply Forall_cons in Hc as [Hc _]. rewrite Hc. reflexivity.
Qed.

(** ** Categories and comparisons *)

Lemma sublist_same_length {A : Type} (l k : list A) :
  l `sublist_of` k -> length l = length k -> l = k.
Proof.
  induction 1 as [|x l k Hs IH|x l k Hs IH]; intros Hlen.
  - reflexivity.
  - f_equal. apply IH. simpl in Hlen. lia.
  - apply sublist_length in Hs. simpl in Hlen. lia.
Qed.

(** The category [evaluatePokerHand] gives to five cards or more is the
    highest category among the combinations of five of them. *)
Lemma evaluatePokerHand_combinations (cards : list Card) :
  (5 <= length cards)%nat ->
  exists ev, evaluatePokerHand cards = Ok ev /\
             (exists combo, combo ∈ getCombinations cards 5 /\ s5 combo = sv ev) /\
             (forall combo, combo ∈ getCombinations cards 5 -> s5 combo <= sv ev).
Proof.
  intros Hlen. unfold evaluatePokerHand.
  destruct (Nat.ltb_spec (length cards) 5) as [Hlt|_]; [lia|].
  destruct (Nat.eqb_spec (length cards) 5) as [Heq|Hne].
  - destruct (evaluateFiveCardHand_ok cards) as (ev & -> & Hev).
    { intros ->. discriminate Heq. }
    exists ev. split; [reflexivity|]. unfold sv, s5. rewrite Hev. split.
    + exists cards. split; [|reflexivity]. apply getCombinations_elem. split; [reflexivity|].
      exact Heq.
    + intros combo Hc. apply getCombinations_elem in Hc as [Hs Hl].
      rewrite (sublist_same_length combo cards Hs) by congruence. lia.
  - apply findBestFiveCardHand_ok. exact Hlen.
Qed.

(** X17: on five cards or more [evaluatePokerHand] returns, and the
    category of its result is the highest category that five of the cards,
    taken in their order, have: some five of them have it, and no five of
    them have a higher one. *)
Theorem evaluatePokerHand_best_category (cards : list Card) :
  (5 <= length cards)%nat ->
  exists ev,
    evaluatePokerHand cards = Ok ev /\
    (exists five, five `sublist_of` cards /\ length five = 5%nat /\
                  strength5 five = handStrength ev) /\
    (forall five, five `sublist_of` cards -> length five = 5%nat ->
                  HandStrength_value (strength5 five)
                  <= HandStrength_value (handStrength ev)).
Proof.
  intros Hlen.
  destruct (evaluatePokerHand_combinations cards Hlen) as (ev & Hev & (combo & Hc & Hs) & Hub).
  exists ev. split; [exact Hev|]. split.
  - exists combo. apply getCombinations_elem in Hc as [Hsub Hl].
    split; [exact Hsub|]. split; [exact Hl|]. apply HandStrength_value_inj. exact Hs.
  - intros five Hsub Hl. apply (Hub five). apply getCombinations_elem. split; assumption.
Qed.

Lemma evaluatePokerHand_best_category_witness :
  exists ev,
    evaluatePokerHand quads_kings = Ok ev /\
    (exists five, five `sublist_of` quads_kings /\ length five = 5%nat /\
                  strength5 five = handStrength ev) /\
    (forall five, five `sublist_of` quads_kings -> length five = 5%nat ->
                  HandStrength_value (strength5 five)
                  <= HandStrength_value (handStrength ev)).
Proof. apply (evaluatePokerHand_best_category quads_kings). simpl. lia. Defined.

(** X18: more cards never lower the category: when
    [evaluatePokerHand] returns for some cards and for these cards followed
    by others, the category of the second result is at least that of the
    first. *)
Theorem evaluatePokerHand_more_cards (cards more : list Card) (ev ev' : HandEvaluation) :
  evaluatePokerHand cards = Ok ev ->
  evaluatePokerHand (cards ++ more) = Ok ev' ->
  HandStrength_value (handStrength ev) <= HandStrength_value (handStrength ev').
Proof.
  intros Hev Hev'.
  assert (Hlen : (5 <= length cards)%nat).
  { destruct (le_lt_dec 5 (length cards)) as [H|H]; [exact H|].
    rewrite evaluatePokerHand_few in Hev by exact H. discriminate Hev. }
  destruct (evaluatePokerHand_combinations cards Hlen) as (e & He & (combo & Hc & Hs) & _).
  rewrite Hev in He. injection He as <-.
  destruct (evaluatePokerHand_combinations (cards ++ more)) as (e' & He' & _ & Hub).
  { rewrite length_app. lia. }
  rewrite Hev' in He'. injection He' as <-.
  fold (sv ev) (sv ev'). rewrite <- Hs. apply Hub.
  apply getCombinations_elem in Hc as [Hsub Hl]. apply getCombinations_elem.
  split; [|exact Hl]. apply sublist_inserts_r. exact Hsub.
Qed.

Lemma evaluatePokerHand_more_cards_witness :
  let cards := [card_of spades rA; card_of hearts rA; card_of spades rK;
                card_of hearts rQ; card_of clubs r2] in
  exists ev ev',
    evaluatePokerHand cards = Ok ev /\
    evaluatePokerHand (cards ++ [card_of clubs rA]) = Ok ev' /\
    handStrength ev = PAIR /\ handStrength ev' = THREE_OF_A_KIND /\
    HandStrength_value (handStrength ev) <= HandStrength_value (handStrength ev').
Proof.
  intros cards.
  eexists _, _. split; [vm_compute; reflexivity|]. split; [vm_compute; reflexivity|].
  split; [reflexivity|]. split; [reflexivity|].
  apply (evaluatePokerHand_more_cards cards [card_of clubs rA]);
    vm_compute; reflexivity.
Defined.

Lemma compareHands_loop_antisym (n i : nat) (kickers1 kickers2 : list (option Card)) :
  compareHands_loop n i kickers1 kickers2 = - compareHands_loop n i kickers2 kickers1.
Proof.
  revert i. induction n as [|n IH]; intros i; cbn [compareHands_loop]; [reflexivity|].
  destruct (Z.eqb_spec (kickerValue kickers1 i) (kickerValue kickers2 i)) as [H|H];
    destruct (Z.eqb_spec (kickerValue kickers2 i) (kickerValue kickers1 i)) as [H'|H'];
    cbn [negb]; try congruence; lia.
Qed.

(** X19: [compareHands] is antisymmetric: exchanging the two hands
    negates the result, a hand compared with itself gives 0, and for hands
    of different categories the result is positive exactly when the first
    hand has the higher category. *)
Theorem compareHands_antisymmetric (hand1 hand2 : HandEvaluation) :
  compareHands hand1 hand2 = - compareHands hand2 hand1 /\
  compareHands hand1 hand1 = 0 /\
  (handStrength hand1 <> handStrength hand2 ->
   (0 < compareHands hand1 hand2 <->
    HandStrength_value (handStrength hand2) < HandStrength_value (handStrength hand1))).
Proof.
  unfold compareHands. split; [|split].
  - destruct (Z.eqb_spec (HandStrength_value (handStrength hand1))
                         (HandStrength_value (handStrength hand2))) as [H|H];
      destruct (Z.eqb_spec (HandStrength_value (handStrength hand2))
                           (HandStrength_value (handStrength hand1))) as [H'|H'];
      cbn [negb]; try congruence; [|lia].
    rewrite Nat.max_comm. apply compareHands_loop_antisym.
  - rewrite Z.eqb_refl. cbn [negb].
    pose proof (compareHands_loop_antisym
                  (Nat.max (length (kickers hand1)) (length (kickers hand1))) 0
                  (kickers hand1) (kickers hand1)). lia.
  - intros Hne.
    destruct (Z.eqb_spec (HandStrength_value (handStrength hand1))
                         (HandStrength_value (handStrength hand2))) as [H|H];
      cbn [negb]; [|lia].
    exfalso. apply Hne, HandStrength_value_inj, H.
Qed.

(** X20: the result of [compareCards] is negated when the two cards are
    exchanged, is 0 exactly when they have the same rank, whatever their
    suits, and lower than is transitive; an ace compared with another rank
    is higher when aces are high and lower when they are low. *)
Theorem compareCards_order (card1 card2 card3 : Card) (aceHigh : bool) :
  result (compareCards card1 card2 aceHigh) = - result (compareCards card2 card1 aceHigh) /\
  (result (compareCards card1 card2 aceHigh) = 0 <-> rank card1 = rank card2) /\
  (result (compareCards card1 card2 aceHigh) = -1 ->
   result (compareCards card2 card3 aceHigh) = -1 ->
   result (compareCards card1 card3 aceHigh) = -1) /\
  (rank card1 = rA -> rank card2 <> rA ->
   result (compareCards card1 card2 aceHigh) = if aceHigh then 1 else -1).
Proof.
  unfold compareCards.
  destruct aceHigh, (rank card1), (rank card2), (rank card3);
    cbn; repeat split; intros; congruence.
Qed.

(** ** The number of combinations, and outs *)

Lemma getCombinations_length (cards : list Card) (k : nat) :
  length (getCombinations cards k) = choose (length cards) k.
Proof.
  revert k. induction cards as [|first rest IH]; intros k.
  - destruct k; reflexivity.
  - destruct k as [|k]; [reflexivity|].
    cbn [getCombinations length choose]. rewrite length_app, length_map, !IH. reflexivity.
Qed.

Lemma choose_gt (n k : nat) : (n < k)%nat -> choose n k = 0%nat.
Proof.
  revert k. induction n as [|n IH]; intros k Hlt.
  - destruct k; [lia | reflexivity].
  - destruct k as [|k]; [lia|]. cbn [choose]. rewrite !IH by lia. reflexivity.
Qed.

Lemma choose_diag (n : nat) : choose n n = 1%nat.
Proof.
  induction n as [|n IH]; [reflexivity|]. cbn [choose]. rewrite IH, choose_gt by lia.
  reflexivity.
Qed.

Lemma choose_fact (n k : nat) :
  (k <= n)%nat -> (choose n k * fact k * fact (n - k) = fact n)%nat.
Proof.
  revert k. induction n as [|n IH]; intros k Hle.
  - assert (k = 0%nat) as -> by lia. reflexivity.
  - destruct k as [|k].
    + cbn [choose]. rewrite Nat.sub_0_r. simpl fact at 1. lia.
    + destruct (Nat.eq_dec k n) as [->|Hne].
      * rewrite choose_diag, Nat.sub_diag. simpl fact at 2. lia.
      * cbn [choose]. assert (Hk : (S k <= n)%nat) by lia.
        pose proof (IH (S k) Hk) as H1. pose proof (IH k ltac:(lia)) as H2.
        replace (S n - S k)%nat with (S (n - S k)) by lia.
        replace (n - k)%nat with (S (n - S k)) in H2 by lia.
        set (m := (n - S k)%nat) in *.
        change (fact (S n)) with (S n * fact n)%nat.
        change (fact (S k)) with (S k * fact k)%nat in *.
        change (fact (S m)) with (S m * fact m)%nat in *.
        replace (S n) with (S k + S m)%nat by (unfold m; lia).
        clear IH.
        set (a := choose n (S k)) in *. set (b := choose n k) in *.
        set (fk := fact k) in *. set (fm := fact m) in *. set (N := fact n) in *.
        transitivity (S m * (a * (S k * fk) * fm) + S k * (b * fk * (S m * fm)))%nat;
          [nia | rewrite H1, H2; nia].
Qed.

(** X21: [getCombinations cards k] has as many elements as there are
    ways to choose [k] of the cards, the factorial of the number of cards
    divided by those of [k] and of the rest, and none when [k] is more than
    the number of cards; of seven cards there are 21 combinations of
    five. *)
Theorem getCombinations_count (cards : list Card) (k : nat) :
  (if (k <=? length cards)%nat
   then length (getCombinations cards k) * fact k * fact (length cards - k)
        = fact (length cards)
   else getCombinations cards k = [])%nat /\
  (length cards = 7%nat -> length (getCombinations cards 5) = 21%nat).
Proof.
  split.
  - destruct (Nat.leb_spec k (length cards)) as [Hle|Hlt].
    + rewrite getCombinations_length. apply choose_fact. exact Hle.
    + apply length_zero_iff_nil. rewrite getCombinations_length. apply choose_gt. exact Hlt.
  - intros H7. rewrite getCombinations_length, H7. reflexivity.
Qed.

Lemma calculateOuts_filter (playerHand communityCards : list Card) (targetHand : HandStrength) :
  calculateOuts playerHand communityCards targetHand
  = Ok (Z.of_nat (length (filter (fun card => reaches (playerHand ++ communityCards)
                                                targetHand card)
                                 (filter (fun card =>
                                            negb (has (list_to_set
                                                         (map id (playerHand ++ communityCards)))
                                                      (id card)))
                                         (availableCards fullDeck))))).
Proof.
  unfold calculateOuts. rewrite getRemainingCards_ok. cbn [bind].
  rewrite calculateOuts_loop_count. reflexivity.
Qed.

Lemma filter_length_le {A : Type} (P Q : A -> Prop)
    `{forall x, Decision (P x)} `{forall x, Decision (Q x)} (l : list A) :
  (forall x, P x -> Q x) -> (length (filter P l) <= length (filter Q l))%nat.
Proof.
  intros HPQ. induction l as [|x l IH]; [reflexivity|].
  rewrite !filter_cons. destruct (decide (P x)) as [Hp|Hp].
  - rewrite decide_True by (apply HPQ; exact Hp). simpl. lia.
  - destruct (decide (Q x)); simpl; lia.
Qed.

Lemma filter_all {A : Type} (P : A -> Prop) `{forall x, Decision (P x)} (l : list A) :
  (forall x, P x) -> filter P l = l.
Proof.
  intros HP. induction l as [|x l IH]; [reflexivity|].
  rewrite filter_cons, decide_True by apply HP. rewrite IH. reflexivity.
Qed.

Lemma filter_none {A : Type} (P : A -> Prop) `{forall x, Decision (P x)} (l : list A) :
  (forall x, ~ P x) -> filter P l = [].
Proof.
  intros HP. induction l as [|x l IH]; [reflexivity|].
  rewrite filter_cons, decide_False by apply HP. exact IH.
Qed.

(** X22: [calculateOuts] returns 0 when fewer than four cards are known,
    since no candidate hand can then be evaluated; for the lowest category
    and four known cards or more it returns the number of remaining cards;
    and a higher target category never has more outs than a lower one. *)
Theorem calculateOuts_edges (playerHand communityCards : list Card)
    (targetHand higherTarget : HandStrength) :
  let knownCards := playerHand ++ communityCards in
  exists (remaining : list Card) (outs higherOuts : nat),
    getRemainingCards knownCards = Ok remaining /\
    calculateOuts playerHand communityCards targetHand = Ok (Z.of_nat outs) /\
    calculateOuts playerHand communityCards higherTarget = Ok (Z.of_nat higherOuts) /\
    ((length knownCards < 4)%nat -> outs = 0%nat) /\
    ((4 <= length knownCards)%nat -> targetHand = HIGH_CARD -> outs = length remaining) /\
    (HandStrength_value targetHand <= HandStrength_value higherTarget ->
     (higherOuts <= outs)%nat).
Proof.
  intros knownCards. rewrite getRemainingCards_ok, !calculateOuts_filter. fold knownCards.
  set (remaining := filter _ (availableCards fullDeck)).
  eexists _, _, _. split; [reflexivity|]. split; [reflexivity|]. split; [reflexivity|].
  split; [|split].
  - intros Hlen. rewrite filter_none; [reflexivity|].
    intros card Hr. unfold reaches in Hr.
    rewrite evaluatePokerHand_few in Hr; [exact Hr|].
    rewrite length_app. simpl. lia.
  - intros Hlen ->. rewrite filter_all; [reflexivity|].
    intros card. unfold reaches.
    destruct (evaluatePokerHand_total (knownCards ++ [card])) as [ev ->].
    { rewrite length_app. simpl. lia. }
    apply Is_true_true, Z.leb_le. destruct (handStrength ev); simpl; lia.
  - intros Hle. apply filter_length_le. intros card. unfold reaches.
    destruct (evaluatePokerHand (knownCards ++ [card])) as [ev| |]; try tauto.
    intros Hr. apply Is_true_true, Z.leb_le in Hr. apply Is_true_true, Z.leb_le. lia.
Qed.

(** ** Game validation and the stage of the store *)

Lemma stageRequirements_values (stage : string) (n : nat) :
  stageRequirements stage = Some n ->
  (stage, n) ∈ [("pre-flop", 0%nat); ("flop", 3%nat); ("turn", 4%nat); ("river", 5%nat)].
Proof.
  unfold stageRequirements.
  repeat match goal with
         | |- context [String.eqb stage ?s] => destruct (String.eqb_spec stage s) as [->|]
         end; intros H; try discriminate H; injection H as <-; by_decide.
Qed.

(** X23: for a stage with its required number [n] of community
    cards, [validateTexasHoldemCards] returns the result of [validateCards]
    alone when that fails. Otherwise it reports, in this order, more than
    two hole cards, fewer than [n] community cards, more than [n] community
    cards and more than [2 + n] cards in all; it accepts exactly at most two
    hole cards with [n] community cards; it never reports too many cards in
    all without one of the two other excesses; and with two hole cards it
    accepts exactly when [validatePokerHand] does. *)
Theorem validateTexasHoldemCards_spec (playerHand communityCards : list Card)
    (stage : string) (n : nat) :
  stageRequirements stage = Some n ->
  let r := validateTexasHoldemCards playerHand communityCards stage in
  let cardValidation := validateCards (playerHand ++ communityCards) in
  if isValid cardValidation then
    codes r =
      (if (2 <? length playerHand)%nat then ["TOO_MANY_HOLE_CARDS"] else [])
      ++ (if (length communityCards <? n)%nat then ["INSUFFICIENT_COMMUNITY_CARDS"] else [])
      ++ (if (n <? length communityCards)%nat then ["TOO_MANY_COMMUNITY_CARDS"] else [])
      ++ (if (2 + n <? length playerHand + length communityCards)%nat
          then ["TOO_MANY_TOTAL_CARDS"] else []) /\
    (isValid r = true <-> (length playerHand <= 2)%nat /\ length communityCards = n) /\
    ("TOO_MANY_TOTAL_CARDS" ∈ codes r ->
     "TOO_MANY_HOLE_CARDS" ∈ codes r \/ "TOO_MANY_COMMUNITY_CARDS" ∈ codes r) /\
    (length playerHand = 2%nat ->
     isValid r = isValid (validatePokerHand playerHand communityCards stage))
  else r = cardValidation.
Proof.
  intros Hstage r cardValidation. subst r.
  assert (Hpoker : isValid cardValidation = true -> length playerHand = 2%nat ->
                   isValid (validatePokerHand playerHand communityCards stage)
                   = (length communityCards =? n)%nat).
  { intros Hv H2. unfold validatePokerHand. cbv zeta. fold cardValidation.
    rewrite Hv, Hstage, H2, Nat.eqb_refl, andb_false_r. cbn [negb app].
    destruct (length communityCards =? n)%nat; reflexivity. }
  unfold validateTexasHoldemCards. cbv zeta. fold cardValidation.
  destruct (isValid cardValidation) eqn:Hv; cbn [negb]; [|reflexivity].
  specialize (Hpoker eq_refl).
  apply stageRequirements_values in Hstage. mem_cases Hstage;
    injection Hstage as -> ->; cbn [stageRange maxCardsForStage String.eqb Ascii.eqb Bool.eqb];
    unfold codes; cbn [errors isValid];
    destruct (Nat.ltb_spec 2 (length playerHand));
    repeat match goal with
           | |- context [(?a <? ?b)%nat] => destruct (Nat.ltb_spec a b)
           end; try lia;
    cbn [app map code length Nat.eqb];
    (split; [reflexivity|]); (split; [split; [intros H'; first [discriminate H' | lia]
                                              | intros [? ?]; first [reflexivity | lia]]|]);
    (split; [intros H'; first [left; by_decide | right; by_decide
                               | (mem_cases H')]|]);
    intros Htwo; rewrite (Hpoker Htwo); symmetry;
    first [apply Nat.eqb_eq; lia | apply Nat.eqb_neq; lia].
Qed.

Lemma validateTexasHoldemCards_spec_witness :
  let playerHand := [card_of spades rA; card_of hearts rA] in
  let communityCards := [card_of spades rK; card_of hearts rK] in
  let r := validateTexasHoldemCards playerHand communityCards "flop" in
  codes r = ["INSUFFICIENT_COMMUNITY_CARDS"] /\
  (isValid r = true <-> (length playerHand <= 2)%nat /\ length communityCards = 3%nat) /\
  ("TOO_MANY_TOTAL_CARDS" ∈ codes r ->
   "TOO_MANY_HOLE_CARDS" ∈ codes r \/ "TOO_MANY_COMMUNITY_CARDS" ∈ codes r) /\
  (length playerHand = 2%nat ->
   isValid r = isValid (validatePokerHand playerHand communityCards "flop")).
Proof.
  exact (validateTexasHoldemCards_spec [card_of spades rA; card_of hearts rA]
           [card_of spades rK; card_of hearts rK] "flop" 3 eq_refl).
Defined.

(** X24: from one of the four stages [validateGameProgression]
    returns, and it accepts exactly three moves: from pre-flop to flop with
    two hole cards or more, from flop to turn with three community cards or
    more, and from turn to river with four or more; a target that is
    pre-flop or no stage gets the single error INVALID_STAGE_PROGRESSION.
    From a current stage that is none of the four it throws a TypeError. *)
Theorem validateGameProgression_spec (currentStage targetStage : string)
    (playerHand communityCards : list Card) :
  (currentStage ∈ GameStage_values ->
   exists r,
     validateGameProgression currentStage targetStage playerHand communityCards = Ok r /\
     (isValid r = true <->
      (currentStage = "pre-flop" /\ targetStage = "flop" /\ (2 <= length playerHand)%nat) \/
      (currentStage = "flop" /\ targetStage = "turn" /\ (3 <= length communityCards)%nat) \/
      (currentStage = "turn" /\ targetStage = "river" /\ (4 <= length communityCards)%nat)) /\
     (targetStage ∉ GameStage_values \/ targetStage = "pre-flop" ->
      codes r = ["INVALID_STAGE_PROGRESSION"])) /\
  (currentStage ∉ GameStage_values ->
   validateGameProgression currentStage targetStage playerHand communityCards
   = Throw TypeError).
Proof.
  split.
  - intros Hcur. unfold GameStage_values in Hcur. mem_cases Hcur; subst currentStage;
      unfold validateGameProgression; cbn [validProgressions String.eqb Ascii.eqb Bool.eqb bind];
      cbv zeta; eexists; (split; [reflexivity|]); cbn [isValid];
      unfold includes; cbn [existsb orb];
      repeat match goal with
             | |- context [bool_decide (?a = targetStage)] =>
                 destruct (bool_decide_reflect (a = targetStage)) as [<-|]
             end; cbn [negb String.eqb Ascii.eqb Bool.eqb andb app];
      repeat match goal with
             | |- context [String.eqb targetStage ?s] =>
                 destruct (String.eqb_spec targetStage s) as [->|]
             end; try congruence; cbn [andb app];
      repeat match goal with
             | |- context [(?a <? ?b)%nat] => destruct (Nat.ltb_spec a b)
             end;
      cbn [length Nat.eqb codes errors map code];
      (split; [split; [intros H'; first [discriminate H' | tauto]
                      | intros [(? & ? & ?) | [(? & ? & ?) | (? & ? & ?)]];
                        first [reflexivity | discriminate | congruence | lia]]|]);
      intros [H' | H']; first [reflexivity | discriminate H' | congruence
                               | exfalso; apply H'; by_decide].
  - intros Hcur. unfold validateGameProgression, validProgressions.
    repeat match goal with
           | |- context [String.eqb currentStage ?s] =>
               destruct (String.eqb_spec currentStage s) as [->|]
           end; try (exfalso; apply Hcur; by_decide). reflexivity.
Qed.

Lemma well_formed_id_no_slot (card : Card) :
  well_formed card ->
  startsWith (id card) "hole" = false /\ startsWith (id card) "flop" = false /\
  String.eqb (id card) "turn" = false /\ String.eqb (id card) "river" = false.
Proof.
  intros Hwf. apply well_formed_iff in Hwf. rewrite Hwf.
  destruct (suit card), (rank card); repeat split; reflexivity.
Qed.

Lemma existing_no_slot (existingCards : list Card) :
  Forall well_formed existingCards ->
  filter (fun c => startsWith (id c) "hole") existingCards = [] /\
  filter (fun c => startsWith (id c) "flop") existingCards = [] /\
  existsb (fun c => String.eqb (id c) "turn") existingCards = false /\
  existsb (fun c => String.eqb (id c) "river") existingCards = false.
Proof.
  induction 1 as [|c l Hc _ (IH1 & IH2 & IH3 & IH4)]; [repeat split|].
  destruct (well_formed_id_no_slot c Hc) as (H1 & H2 & H3 & H4).
  rewrite !filter_cons. cbn [existsb]. rewrite H1, H2, H3, H4, IH1, IH2, IH3, IH4.
  repeat split.
Qed.

Lemma existsb_same_id (card : Card) (existingCards : list Card) :
  existsb (fun existing => String.eqb (id existing) (id card)) existingCards
  = bool_decide (id card ∈ map id existingCards).
Proof.
  induction existingCards as [|c l IH]; [reflexivity|].
  cbn [existsb map]. rewrite IH.
  destruct (String.eqb_spec (id c) (id card)) as [Heq|Hne]; cbn [orb].
  - symmetry. apply bool_decide_eq_true_2. rewrite Heq. left.
  - apply bool_decide_ext. rewrite elem_of_cons. split; [tauto|].
    intros [H|H]; [congruence | exact H].
Qed.

(** X25: when the cards selected so far are cards of the deck,
    [validateCardSelection] reports DUPLICATE_CARD if the new card has the
    id of one of them and nothing otherwise, whatever the slot is: the four
    checks for full slots compare card ids with slot names and never
    apply. *)
Theorem validateCardSelection_well_formed (card : Card) (slot : string)
    (existingCards : list Card) :
  Forall well_formed existingCards ->
  codes (validateCardSelection card slot existingCards)
  = (if bool_decide (id card ∈ map id existingCards) then ["DUPLICATE_CARD"] else []) /\
  (isValid (validateCardSelection card slot existingCards) = true <->
   id card ∉ map id existingCards).
Proof.
  intros Hwf. unfold validateCardSelection. cbv zeta.
  destruct (existing_no_slot existingCards Hwf) as (H1 & H2 & H3 & H4).
  rewrite H1, H2, H3, H4, existsb_same_id, !andb_false_r. cbn [length Nat.leb].
  rewrite ?andb_false_r.
  destruct (bool_decide_reflect (id card ∈ map id existingCards)) as [Hin|Hin];
    unfold codes; cbn [app errors isValid map code length Nat.eqb].
  - split; [reflexivity|]. split; [intros H; discriminate H | intros H; contradiction].
  - split; [reflexivity|]. split; [intros _; exact Hin | reflexivity].
Qed.

Lemma validateCardSelection_well_formed_witness :
  let existingCards := [card_of spades rA; card_of hearts rA] in
  codes (validateCardSelection (card_of spades rA) "hole1" existingCards)
  = ["DUPLICATE_CARD"] /\
  (isValid (validateCardSelection (card_of spades rA) "hole1" existingCards) = true <->
   id (card_of spades rA) ∉ map id existingCards).
Proof.
  exact (validateCardSelection_well_formed (card_of spades rA) "hole1"
           [card_of spades rA; card_of hearts rA]
           ltac:(repeat constructor; by_decide)).
Defined.


Lemma definedCards_length (slots : list (option Card)) :
  length (filter (fun card => card <> None) slots) = length (definedCards slots).
Proof.
  induction slots as [|[c|] slots IH]; [reflexivity| |].
  - rewrite filter_cons, decide_True by discriminate. cbn. rewrite IH. reflexivity.
  - rewrite filter_cons, decide_False by (intros H; apply H; reflexivity). exact IH.
Qed.

Lemma validatePokerHand_isValid (playerHand communityCards : list Card) (stage : string) :
  isValid (validatePokerHand playerHand communityCards stage)
  = match errors (validatePokerHand playerHand communityCards stage) with
    | [] => true
    | _ => false
    end.
Proof.
  unfold validatePokerHand. cbv zeta. cbn [isValid errors].
  match goal with |- (length ?l =? 0)%nat = _ => destruct l end; reflexivity.
Qed.

(** X26: [calculateStage] returns one of the four stages. With
    two hole cards and valid cards, the stage it returns for the filled
    slots makes [validatePokerHand] accept the cards exactly when 0, 3, 4 or
    5 community cards are selected; with 1 or 2 community cards the stage
    is flop and the only error is INVALID_COMMUNITY_CARDS. *)
Theorem calculateStage_validatePokerHand (playerHand communityCards : list (option Card)) :
  let stage := calculateStage playerHand communityCards in
  let validPlayerCards := definedCards playerHand in
  let validCommunityCards := definedCards communityCards in
  stage ∈ GameStage_values /\
  (length validPlayerCards = 2%nat ->
   isValid (validateCards (validPlayerCards ++ validCommunityCards)) = true ->
   (isValid (validatePokerHand validPlayerCards validCommunityCards stage) = true <->
    length validCommunityCards ∈ [0; 3; 4; 5]%nat) /\
   (length validCommunityCards ∈ [1; 2]%nat ->
    stage = "flop" /\
    codes (validatePokerHand validPlayerCards validCommunityCards stage)
    = ["INVALID_COMMUNITY_CARDS"])).
Proof.
  intros stage validPlayerCards validCommunityCards. subst stage.
  unfold calculateStage. rewrite !definedCards_length.
  fold validPlayerCards validCommunityCards. split.
  - repeat match goal with
           | |- context [if ?b then _ else _] => destruct b
           end; by_decide.
  - intros H2 Hv. apply isValid_errors_nil in Hv.
    unfold codes. rewrite validatePokerHand_isValid, validatePokerHand_errors, Hv, H2.
    cbn [Nat.ltb Nat.leb Nat.eqb negb andb app].
    rewrite andb_false_r. cbn [app].
    set (n := length validCommunityCards). clearbody n.
    destruct n as [|[|[|[|[|[|n]]]]]]; cbn; (split; [split|]);
      try (intros H; first [discriminate H | by_decide | mem_cases H; lia]);
      try (intros _; by_decide);
      try (split; reflexivity).
Qed.

(** ** The sum of the lookup probabilities, parsing, and the exact method *)

Lemma knownRankCount_ranksWithCount (knownCards : list Card) (n : Z) :
  0 < n -> knownRankCount knownCards n = ranksWithCount knownCards n.
Proof.
  intros Hn. unfold knownRankCount, ranksWithCount, Object_values_Rank.
  transitivity (length (filter (fun r => Record_get (countRanks knownCards) r = Some n)
                               (Object_keys_Rank (countRanks knownCards)))).
  { generalize (Object_keys_Rank (countRanks knownCards)). intros keys.
    induction keys as [|r keys IH]; [reflexivity|].
    cbn [map]. rewrite !filter_cons.
    destruct (decide (Record_get (countRanks knownCards) r = Some n)); cbn [length];
      rewrite IH; reflexivity. }
  apply Permutation_length, NoDup_Permutation.
  - apply NoDup_filter, Object_keys_Rank_NoDup, countRanks_NoDup.
  - apply NoDup_filter. by_decide.
  - intros r. rewrite !list_elem_of_filter, Object_keys_Rank_elem, countRanks_keys,
      countRanks_get.
    destruct (decide (r ∈ map rank knownCards)) as [Hin|Hnin].
    + split; [intros [H _]; injection H as H; split;
              [exact H | apply list_elem_of_In, all_Ranks]
             | intros [-> _]; split; [reflexivity | exact Hin]].
    + split; [intros [H _]; discriminate H|].
      intros [H _]. rewrite occ_0 in H by exact Hnin. lia.
Qed.

(** X27: the probabilities of the lookup method add up to a number
    within 0.02 of 1 for all known cards but those of the branch for one
    pair, two cards or more with one rank twice and no rank three or four
    times, for which they add up to 0.617101. *)
Theorem calculateUsingLookup_sum (playerHand communityCards : list Card) :
  let knownCards := playerHand ++ communityCards in
  let sum := probability_sum (calculateUsingLookup playerHand communityCards) in
  (close_to_1 sum = true <-> ~ one_pair_known knownCards) /\
  (one_pair_known knownCards -> exists total, sum = Num total /\ (total == 0.617101)%Q).
Proof.
  intros knownCards sum. subst sum. unfold one_pair_known.
  rewrite <- !knownRankCount_ranksWithCount by lia.
  unfold calculateUsingLookup, adjustProbabilitiesForHand. fold knownCards.
  fold (knownRankCount knownCards 4) (knownRankCount knownCards 3)
       (knownRankCount knownCards 2).
  destruct (Nat.leb_spec 2 (length knownCards)) as [Hlen|Hlen].
  2: { split; [split; [intros _ [H _]; lia | intros _; vm_compute; reflexivity]
              | intros [H _]; lia]. }
  destruct (knownRankCount knownCards 4) as [|q].
  2: { split; [split; [intros _ (_ & H & _); discriminate H
                      | intros _; vm_compute; reflexivity]
              | intros (_ & H & _); discriminate H]. }
  destruct (knownRankCount knownCards 3) as [|t].
  2: { split; [split; [intros _ (_ & _ & H & _); discriminate H
                      | intros _; vm_compute; reflexivity]
              | intros (_ & _ & H & _); discriminate H]. }
  destruct (knownRankCount knownCards 2) as [|[|p]].
  - cbn [Nat.ltb Nat.leb Nat.eqb].
    set (straightDraw := straightDraw_loop _ 0). clearbody straightDraw.
    set (maxSuitCount := Math_max _). clearbody maxSuitCount.
    split; [split; [intros _ (_ & _ & _ & H); discriminate H|]
           | intros (_ & _ & _ & H); discriminate H].
    intros _. destruct (3 <=? straightDraw); destruct maxSuitCount as [m|];
      try destruct (4 <=? m); try destruct (3 <=? m); vm_compute; reflexivity.
  - cbn [Nat.ltb Nat.leb Nat.eqb].
    split; [split; [intros H; vm_compute in H; discriminate H
                   | intros H; exfalso; apply H; repeat split; assumption]|].
    intros _. eexists. split; [vm_compute; reflexivity | reflexivity].
  - cbn [Nat.ltb Nat.leb Nat.eqb].
    split; [split; [intros _ (_ & _ & _ & H); discriminate H
                   | intros _; vm_compute; reflexivity]
           | intros (_ & _ & _ & H); discriminate H].
Qed.

Lemma toUpperCase_app (a b : string) :
  toUpperCase (a +:+ b) = toUpperCase a +:+ toUpperCase b.
Proof.
  induction a as [|c a IH]; [reflexivity|].
  change (String (upper_ascii c) (toUpperCase (a +:+ b))
          = String (upper_ascii c) (toUpperCase a +:+ toUpperCase b)).
  rewrite IH. reflexivity.
Qed.

(** X28: a card that [parseCard] returns is a card of the deck, passes
    [validateCards], is what [parseCard] returns for its own id, and is
    also returned for the string in upper case. *)
Theorem parseCard_well_formed (cardString : string) (card : Card) :
  parseCard cardString = Ok card ->
  well_formed card /\
  isValid (validateCards [card]) = true /\
  parseCard (id card) = Ok card /\
  parseCard (toUpperCase cardString) = Ok card.
Proof.
  intros Hp. apply parseCard_Ok_shape in Hp as (r & l & su & rest & Hl & -> & ->).
  assert (Hwf : well_formed (card_of su r)) by (destruct su, r; by_decide).
  split; [exact Hwf|]. split; [|split].
  - apply isValid_errors_nil, validateCards_errors_nil_iff. split.
    + apply NoDup_singleton.
    + apply Forall_singleton. exact Hwf.
  - destruct su, r; reflexivity.
  - rewrite !toUpperCase_app.
    assert (Hr : toUpperCase (Rank_str r) = Rank_str r) by (destruct r; reflexivity).
    rewrite Hr. apply parseCard_shape.
    apply suit_of_letter_cases in Hl. unfold suit_letters in Hl.
    mem_cases Hl; injection Hl as -> ->; reflexivity.
Qed.

Lemma parseCard_well_formed_witness :
  well_formed (card_of hearts r10) /\
  isValid (validateCards [card_of hearts r10]) = true /\
  parseCard (id (card_of hearts r10)) = Ok (card_of hearts r10) /\
  parseCard (toUpperCase "10hxyz") = Ok (card_of hearts r10).
Proof. apply (parseCard_well_formed "10hxyz" (card_of hearts r10)). reflexivity. Defined.

Section ExactMethod.

Variable rnd : nat -> nat.
Variables startTime endTime now : Q.

(** X29: with the exact method, for every request in one of
    the four stages that passes validation, nothing is simulated: each of
    the ten results has the stage string as total number of outcomes, no
    occurrences, NaN as probability and as percentage, and the odds
    NaN:1. *)
Theorem calculateProbabilities_exact_nothing (request : CalculationRequest.t) (k : nat) :
  CalculationRequest.preferredMethod request = Some exact ->
  CalculationRequest.stage request ∈ GameStage_values ->
  isValid (validatePokerHand (CalculationRequest.playerHand request)
             (CalculationRequest.communityCards request)
             (CalculationRequest.stage request)) = true ->
  exists res : CalculationResults.t,
    calculateProbabilities rnd startTime endTime now request k = Ok res /\
    CalculationResults.method res = exact /\
    map handType (CalculationResults.probabilities res) = HandStrength_all /\
    Forall (fun r => totalOutcomes r = VStr (CalculationRequest.stage request) /\
                     occurrences r = 0 /\ probability r = NaN /\ percentage r = NaN /\
                     odds r = "NaN:1")
           (CalculationResults.probabilities res).
Proof.
  intros Hm Hstage Hv. unfold calculateProbabilities, determineOptimalMethod.
  rewrite Hv, Hm. cbn [negb]. rewrite bool_decide_eq_true_2 by discriminate.
  unfold calculateHandProbabilities.
  rewrite calculateUsingExact_stage by (apply GameStage_values_NaN; exact Hstage).
  eexists. split; [reflexivity|]. cbn [CalculationResults.method CalculationResults.probabilities].
  split; [reflexivity|]. split; [reflexivity|].
  unfold nothing_simulated. apply Forall_map, Forall_forall. intros h _.
  repeat split.
Qed.

End ExactMethod.

Lemma calculateProbabilities_exact_nothing_witness :
  exists res : CalculationResults.t,
    calculateProbabilities (fun _ => 0%nat) 0 1 0 (pocket_aces exact) 0 = Ok res /\
    CalculationResults.method res = exact /\
    map handType (CalculationResults.probabilities res) = HandStrength_all /\
    Forall (fun r => totalOutcomes r = VStr "pre-flop" /\
                     occurrences r = 0 /\ probability r = NaN /\ percentage r = NaN /\
                     odds r = "NaN:1")
           (CalculationResults.probabilities res).
Proof.
  apply (calculateProbabilities_exact_nothing (fun _ => 0%nat) 0 1 0 (pocket_aces exact) 0).
  - reflexivity.
  - by_decide.
  - vm_compute. reflexivity.
Defined.

(** ** The five cards of the best hand *)

Lemma rank_filter_length (cards : list Card) (r : Rank) (n : Z) :
  occ r (map rank cards) = n ->
  Z.of_nat (length (filter (fun c => rank c = r) cards)) = n.
Proof. intros <-. rewrite occ_map. reflexivity. Qed.

Lemma find_head_filter {A : Type} (P : A -> Prop) `{forall x, Decision (P x)} (l : list A) :
  find (fun x => bool_decide (P x)) l = head (filter P l).
Proof.
  induction l as [|x l IH]; [reflexivity|].
  cbn [find]. rewrite filter_cons. destruct (decide (P x)) as [Hp|Hp].
  - rewrite bool_decide_eq_true_2 by exact Hp. reflexivity.
  - rewrite bool_decide_eq_false_2 by exact Hp. exact IH.
Qed.

Lemma rank_split (cards : list Card) (r : Rank) :
  filter (fun c => rank c = r) cards ++ filter (fun c => rank c <> r) cards ≡ₚ cards.
Proof. apply (filter_app_complement (fun c => rank c = r)). Qed.

Lemma rank_rest_length (cards : list Card) (r : Rank) :
  (length (filter (fun c => rank c = r) cards)
   + length (filter (fun c => rank c <> r) cards) = length cards)%nat.
Proof. rewrite <- length_app, rank_split. reflexivity. Qed.

Lemma checkFourOfAKind_holds (cards : list Card) (ev : HandEvaluation) :
  length cards = 5%nat -> checkFourOfAKind cards = Some ev -> holds_cards ev cards.
Proof.
  intros Hlen. unfold checkFourOfAKind.
  pose proof (find_count_is cards 4) as Hf.
  destruct (find _ _) as [r|]; [|discriminate].
  destruct Hf as [[_ Hocc] _]. intros H. injection H as <-.
  apply rank_filter_length in Hocc. pose proof (rank_rest_length cards r) as Hrest.
  assert (Hone : length (filter (fun c => rank c <> r) cards) = 1%nat) by lia.
  rewrite (find_head_filter (fun c => rank c <> r)).
  destruct (filter (fun c => rank c <> r) cards) as [|k [|]] eqn:Hk; try discriminate Hone.
  exists (filter (fun c => rank c = r) cards ++ [k]). cbn [bestHand head]. split.
  - rewrite map_app. reflexivity.
  - rewrite <- Hk. apply rank_split.
Qed.

Lemma take_all_Permutation {A : Type} (n : nat) (l k : list A) :
  l ≡ₚ k -> (length k <= n)%nat -> take n l ≡ₚ k.
Proof.
  intros Hp Hlen. rewrite take_ge; [exact Hp|]. rewrite Hp. exact Hlen.
Qed.

Lemma checkThreeOfAKind_holds (cards : list Card) (ev : HandEvaluation) :
  length cards = 5%nat -> checkThreeOfAKind cards = Some ev -> holds_cards ev cards.
Proof.
  intros Hlen. unfold checkThreeOfAKind.
  pose proof (find_count_is cards 3) as Hf.
  destruct (find _ _) as [r|]; [|discriminate].
  destruct Hf as [[_ Hocc] _]. intros H. injection H as <-.
  apply rank_filter_length in Hocc. pose proof (rank_rest_length cards r) as Hrest.
  eexists. cbn [bestHand]. split; [reflexivity|].
  rewrite (take_all_Permutation 2 _ (filter (fun c => rank c <> r) cards)).
  - apply rank_split.
  - apply Array_sort_Permutation.
  - lia.
Qed.

Lemma checkOnePair_holds (cards : list Card) (ev : HandEvaluation) :
  length cards = 5%nat -> checkOnePair cards = Some ev -> holds_cards ev cards.
Proof.
  intros Hlen. unfold checkOnePair.
  pose proof (find_count_is cards 2) as Hf.
  destruct (find _ _) as [r|]; [|discriminate].
  destruct Hf as [[_ Hocc] _]. intros H. injection H as <-.
  apply rank_filter_length in Hocc. pose proof (rank_rest_length cards r) as Hrest.
  eexists. cbn [bestHand]. split; [reflexivity|].
  rewrite (take_all_Permutation 3 _ (filter (fun c => rank c <> r) cards)).
  - apply rank_split.
  - apply Array_sort_Permutation.
  - lia.
Qed.

Lemma checkFullHouse_holds (cards : list Card) (ev : HandEvaluation) :
  length cards = 5%nat -> checkFullHouse cards = Some ev -> holds_cards ev cards.
Proof.
  intros Hlen. unfold checkFullHouse.
  pose proof (find_count_is cards 3) as Hf3. pose proof (find_count_is cards 2) as Hf2.
  destruct (find (count_is _ 3) _) as [r3|]; [|discriminate].
  destruct (find (count_is _ 2) _) as [r2|]; [|discriminate].
  destruct Hf3 as [[_ Hocc3] _]. destruct Hf2 as [[_ Hocc2] _].
  intros H. injection H as <-.
  assert (Hne : r2 <> r3) by (intros ->; lia).
  apply rank_filter_length in Hocc3, Hocc2.
  pose proof (rank_rest_length cards r3) as Hrest.
  eexists. cbn [bestHand]. split; [reflexivity|].
  assert (Hpair : filter (fun c => rank c = r2) cards = filter (fun c => rank c <> r3) cards).
  { assert (Hsub : filter (fun c => rank c = r2) cards
                   = filter (fun c => rank c = r2) (filter (fun c => rank c <> r3) cards)).
    { rewrite list_filter_filter. apply list_filter_iff. intros c. split; [|tauto].
      intros Hc. split; [exact Hc | congruence]. }
    rewrite Hsub. apply sublist_same_length; [apply sublist_filter|].
    rewrite <- Hsub. lia. }
  rewrite Hpair. apply rank_split.
Qed.

Lemma checkFlush_holds (cards : list Card) (ev : HandEvaluation) :
  length cards = 5%nat -> checkFlush cards = Ok (Some ev) -> holds_cards ev cards.
Proof.
  intros Hlen. unfold checkFlush.
  destruct (find _ (Object_keys_Suit (countSuits cards))) as [s|] eqn:Hf; [|discriminate].
  apply find_some in Hf as [_ Hn]. rewrite countSuits_get in Hn.
  destruct (decide (s ∈ map suit cards)); [|discriminate Hn].
  apply Z.leb_le in Hn. rewrite occ_map in Hn.
  assert (Hall : filter (fun c => suit c = s) cards = cards).
  { apply sublist_same_length; [apply sublist_filter|].
    pose proof (length_filter (fun c => suit c = s) cards). lia. }
  rewrite Hall, take_ge by lia.
  destruct cards as [|c0 cards']; [discriminate Hlen|].
  intros H. injection H as <-. exists (c0 :: cards'). split; reflexivity.
Qed.

Lemma checkRoyalFlush_holds (cards : list Card) (ev : HandEvaluation) :
  checkRoyalFlush cards = Ok (Some ev) -> holds_cards ev cards.
Proof.
  unfold checkRoyalFlush. destruct (checkFlush cards) as [[f|]| |]; try discriminate.
  cbn [bind]. destruct (forallb _ _); [|discriminate].
  destruct cards as [|c0 cards']; [discriminate|].
  intros H. injection H as <-. exists (c0 :: cards'). split; reflexivity.
Qed.

Lemma checkStraightFlush_holds (cards : list Card) (ev : HandEvaluation) :
  checkStraightFlush cards = Ok (Some ev) -> holds_cards ev cards.
Proof.
  unfold checkStraightFlush. destruct (checkFlush cards) as [f| |]; try discriminate.
  cbn [bind]. destruct (checkStraight cards) as [s| |]; try discriminate.
  cbn [bind]. destruct f as [f|], s as [s|]; try discriminate.
  destruct cards as [|c0 cards']; [discriminate|].
  intros H. injection H as <-. exists (c0 :: cards'). split; reflexivity.
Qed.

Lemma Set_of_length {A : Type} `{EqDecision A} (l : list A) :
  (length (Set_of l) <= length l)%nat.
Proof.
  induction l as [|x l IH]; [reflexivity|]. cbn [Set_of length].
  pose proof (length_filter (fun y => y <> x) (Set_of l)). lia.
Qed.

Lemma uniqueValues_length (cards : list Card) :
  (length (uniqueValues cards) <= length cards)%nat.
Proof.
  unfold uniqueValues. rewrite Array_sort_Permutation.
  pose proof (Set_of_length (map value cards)) as H. rewrite length_map in H. exact H.
Qed.

Lemma filter_all_elem {A : Type} (P : A -> Prop) `{forall x, Decision (P x)} (l : list A) :
  (forall x, x ∈ l -> P x) -> filter P l = l.
Proof.
  intros HP. induction l as [|x l IH]; [reflexivity|].
  rewrite filter_cons, decide_True by (apply HP; left). rewrite IH; [reflexivity|].
  intros y Hy. apply HP. right. exact Hy.
Qed.


Lemma checkStraight_loop_holds (cards : list Card) (ev : HandEvaluation) :
  length cards = 5%nat ->
  checkStraight_loop cards (uniqueValues cards) = Ok (Some ev) -> holds_cards ev cards.
Proof.
  intros Hlen.
  pose proof (uniqueValues_length cards) as Hul.
  pose proof (Array_sort_desc_Sorted (Set_of (map value cards))) as Hsorted.
  fold (uniqueValues cards) in Hsorted.
  pose proof (uniqueValues_elem cards) as Helem.
  destruct (uniqueValues cards) as [|hi [|a [|b [|c [|lo [|x rest]]]]]];
    try discriminate; try (cbn in Hul; lia).
  cbn -[Z.sub Z.eqb Z.leb].
  assert (Hall : filter (fun c0 => (lo <=? value c0) && (value c0 <=? hi)) cards = cards).
  { apply filter_all_elem. intros c0 Hc0.
    assert (Hv : value c0 ∈ [hi; a; b; c; lo]).
    { apply Helem, list_elem_of_fmap. exists c0. split; [reflexivity | exact Hc0]. }
    apply StronglySorted_inv in Hsorted as [Hs1 Hhi].
    apply StronglySorted_inv in Hs1 as [Hs2 Ha].
    apply StronglySorted_inv in Hs2 as [Hs3 Hb].
    apply StronglySorted_inv in Hs3 as [_ Hc].
    rewrite Forall_forall in Hhi, Ha, Hb, Hc.
    assert (Hlo : forall v, v ∈ [hi; a; b; c; lo] -> lo <= v <= hi).
    { unfold desc in *. intros v Hin.
      pose proof (Hhi a ltac:(by_mem)). pose proof (Hhi lo ltac:(by_mem)).
      pose proof (Ha lo ltac:(by_mem)). pose proof (Hb lo ltac:(by_mem)).
      pose proof (Hc lo ltac:(by_mem)). pose proof (Hhi b ltac:(by_mem)).
      pose proof (Hhi c ltac:(by_mem)).
      mem_cases Hin; subst v; lia. }
    specialize (Hlo _ Hv). apply Is_true_true, andb_true_iff.
    split; apply Z.leb_le; lia. }
  destruct (hi - lo =? 4).
  - rewrite Hall, take_ge by lia.
    destruct cards as [|c0 cards']; [discriminate Hlen|].
    intros H. injection H as <-. exists (c0 :: cards'). split; reflexivity.
  - discriminate.
Qed.

Lemma find_rank_spec (cards : list Card) (r : Rank) (c : Card) :
  find_rank cards r = Some c -> c ∈ cards /\ rank c = r.
Proof.
  unfold find_rank. intros H. apply find_some in H as [Hin Hr].
  apply bool_decide_eq_true_1 in Hr. split; [apply list_elem_of_In; exact Hin | exact Hr].
Qed.

Lemma has_rank_find (cards : list Card) (r : Rank) :
  has_rank cards r = true -> exists c, find_rank cards r = Some c.
Proof.
  intros H. rewrite has_rank_elem in H. apply bool_decide_eq_true_1 in H.
  apply find_rank_Some. exact H.
Qed.

Lemma checkStraight_holds (cards : list Card) (ev : HandEvaluation) :
  length cards = 5%nat -> checkStraight cards = Ok (Some ev) -> holds_cards ev cards.
Proof.
  intros Hlen. unfold checkStraight. fold (uniqueValues cards).
  pose proof (checkStraight_loop_holds cards) as Hloop.
  destruct (checkStraight_loop cards (uniqueValues cards)) as [[found|]| |];
    try discriminate; cbn [bind].
  - intros H. injection H as <-. apply Hloop; [exact Hlen | reflexivity].
  - destruct (has_rank cards rA) eqn:HA; [|discriminate].
    destruct (has_rank cards r2) eqn:H2; [|discriminate].
    destruct (has_rank cards r3) eqn:H3; [|discriminate].
    destruct (has_rank cards r4) eqn:H4; [|discriminate].
    destruct (has_rank cards r5) eqn:H5; [|discriminate].
    cbn [andb]. intros H. injection H as <-.
    destruct (has_rank_find _ _ HA) as [cA HcA]. destruct (has_rank_find _ _ H2) as [c2 Hc2].
    destruct (has_rank_find _ _ H3) as [c3 Hc3]. destruct (has_rank_find _ _ H4) as [c4 Hc4].
    destruct (has_rank_find _ _ H5) as [c5 Hc5].
    rewrite HcA, Hc2, Hc3, Hc4, Hc5.
    apply find_rank_spec in HcA as [HinA HrA], Hc2 as [Hin2 Hr2], Hc3 as [Hin3 Hr3],
      Hc4 as [Hin4 Hr4], Hc5 as [Hin5 Hr5].
    exists [c5; c4; c3; c2; cA]. split; [reflexivity|].
    apply submseteq_length_Permutation; [|simpl; lia].
    apply NoDup_submseteq.
    + repeat (constructor;
              [intros Hin; mem_cases Hin; subst; congruence|]). constructor.
    + intros x Hx. mem_cases Hx; subst x; assumption.
Qed.

Lemma checkTwoPair_holds (cards : list Card) (ev : HandEvaluation) :
  length cards = 5%nat -> checkTwoPair cards = Ok (Some ev) -> holds_cards ev cards.
Proof.
  intros Hlen. unfold checkTwoPair.
  set (pairs := filter (fun r => count_is (countRanks cards) 2 r)
                       (Object_keys_Rank (countRanks cards))).
  assert (Hpairs : forall r, r ∈ pairs -> r ∈ map rank cards /\ occ r (map rank cards) = 2).
  { intros r Hr. apply list_elem_of_filter in Hr as [Hr _].
    apply Is_true_true, count_is_true in Hr. exact Hr. }
  assert (Hnd : NoDup pairs).
  { apply NoDup_filter, Object_keys_Rank_NoDup, countRanks_NoDup. }
  destruct (2 <=? length pairs)%nat eqn:H2; [|discriminate].
  apply Nat.leb_le in H2.
  destruct (Array_sortM_ok (byPairValueDesc cards) pairs) as (sortedPairs & -> & Hperm).
  { intros x y Hx Hy. unfold byPairValueDesc.
    destruct (find_rank_Some cards x) as [cx ->]; [apply Hpairs, Hx|].
    destruct (find_rank_Some cards y) as [cy ->]; [apply Hpairs, Hy|]. eauto. }
  cbn [bind]. intros H. injection H as <-.
  assert (Hpairs' : forall r, r ∈ sortedPairs ->
                              r ∈ map rank cards /\ occ r (map rank cards) = 2).
  { intros r Hr. apply Hpairs. rewrite <- Hperm. exact Hr. }
  assert (Hnd' : NoDup sortedPairs) by (rewrite Hperm; exact Hnd).
  assert (H2' : (2 <= length sortedPairs)%nat) by (rewrite Hperm; exact H2).
  clear Hpairs Hnd H2 Hperm. clearbody pairs. clear pairs.
  rename Hpairs' into Hpairs, Hnd' into Hnd, H2' into H2.
  destruct sortedPairs as [|a [|b rest]]; try (simpl in H2; lia).
  assert (Hab : a <> b).
  { apply NoDup_cons in Hnd as [Hnin _]. intros ->. apply Hnin. left. }
  destruct (Hpairs a ltac:(by_mem)) as [_ Ha]. destruct (Hpairs b ltac:(by_mem)) as [_ Hb].
  apply rank_filter_length in Ha, Hb.
  set (others := filter (fun c => rank c <> a) cards).
  assert (Hlow : filter (fun c => rank c = b) cards = filter (fun c => rank c = b) others).
  { unfold others. rewrite list_filter_filter. apply list_filter_iff. intros c.
    split; [intros Hc; split; [exact Hc | congruence] | tauto]. }
  set (left_over := filter (fun c => rank c <> b) others).
  assert (Hsplit : (filter (fun c => rank c = a) cards ++ filter (fun c => rank c = b) cards)
                   ++ left_over ≡ₚ cards).
  { rewrite <- app_assoc, Hlow. unfold left_over. rewrite rank_split. apply rank_split. }
  assert (Hone : length left_over = 1%nat).
  { apply Permutation_length in Hsplit. rewrite !length_app in Hsplit. lia. }
  assert (Hrest : rest = []).
  { destruct rest as [|c rest]; [reflexivity|]. exfalso.
    destruct (Hpairs c ltac:(by_mem)) as [_ Hc]. apply rank_filter_length in Hc.
    assert (Hca : c <> a).
    { apply NoDup_cons in Hnd as [Hnin _]. intros ->. apply Hnin. by_mem. }
    assert (Hcb : c <> b).
    { apply NoDup_cons in Hnd as [_ Hnd]. apply NoDup_cons in Hnd as [Hnin _].
      intros ->. apply Hnin. by_mem. }
    assert (Hsub : filter (fun x => rank x = c) cards
                   = filter (fun x => rank x = c) left_over).
    { unfold left_over, others. rewrite !list_filter_filter. apply list_filter_iff.
      intros x. split; [intros Hx; repeat split; congruence | tauto]. }
    pose proof (length_filter (fun x => rank x = c) left_over) as Hle.
    rewrite <- Hsub in Hle. lia. }
  subst rest.
  assert (Hhigh : filter (fun c => Some (rank c) = [a; b] !! 0%nat) cards
                  = filter (fun c => rank c = a) cards).
  { apply list_filter_iff. intros c. simpl. split; [intros H; injection H as H; exact H|].
    intros ->. reflexivity. }
  assert (Hlower : filter (fun c => Some (rank c) = [a; b] !! 1%nat) cards
                   = filter (fun c => rank c = b) cards).
  { apply list_filter_iff. intros c. simpl. split; [intros H; injection H as H; exact H|].
    intros ->. reflexivity. }
  assert (Hkick : filter (fun c => negb (includes [a; b] (rank c))) cards = left_over).
  { unfold left_over, others. rewrite list_filter_filter. apply list_filter_iff.
    intros c. unfold includes. cbn [existsb].
    destruct (bool_decide_reflect (a = rank c)), (bool_decide_reflect (b = rank c));
      simpl; split; try tauto; try (intros [? ?]; congruence).
    intros _. split; congruence. }
  rewrite Hhigh, Hlower, Hkick.
  destruct left_over as [|k [|]] eqn:Hk; try discriminate Hone.
  exists ((filter (fun c => rank c = a) cards ++ filter (fun c => rank c = b) cards) ++ [k]).
  cbn [bestHand]. split; [|exact Hsplit].
  rewrite (map_app _ (_ ++ _) [k]). reflexivity.
Qed.

Lemma orElse_inv (r : Outcome (option HandEvaluation)) (k : Outcome HandEvaluation)
    (ev : HandEvaluation) :
  orElse r k = Ok ev -> r = Ok (Some ev) \/ (r = Ok None /\ k = Ok ev).
Proof.
  unfold orElse. destruct r as [[found|]| |]; cbn [bind]; try discriminate.
  - intros H. injection H as ->. left. reflexivity.
  - intros H. right. split; [reflexivity | exact H].
Qed.

Lemma holds_cards_Permutation (ev : HandEvaluation) (l l' : list Card) :
  l ≡ₚ l' -> holds_cards ev l -> holds_cards ev l'.
Proof. intros Hp (best & Hb & Hbp). exists best. split; [exact Hb | rewrite Hbp; exact Hp]. Qed.

(** The best hand of five cards is those five cards. *)
Lemma evaluateFiveCardHand_holds (cards : list Card) (ev : HandEvaluation) :
  length cards = 5%nat -> evaluateFiveCardHand cards = Ok ev -> holds_cards ev cards.
Proof.
  intros Hlen Hev. apply (holds_cards_Permutation ev (Array_sort byValueDesc cards));
    [apply Array_sort_Permutation|].
  assert (Hsl : length (Array_sort byValueDesc cards) = 5%nat).
  { rewrite Array_sort_Permutation. exact Hlen. }
  unfold evaluateFiveCardHand in Hev.
  set (sortedCards := Array_sort byValueDesc cards) in *. clearbody sortedCards.
  apply orElse_inv in Hev as [H | [_ Hev]]; [apply checkRoyalFlush_holds; exact H|].
  apply orElse_inv in Hev as [H | [_ Hev]]; [apply checkStraightFlush_holds; exact H|].
  apply orElse_inv in Hev as [H | [_ Hev]];
    [injection H as H; apply checkFourOfAKind_holds; assumption|].
  apply orElse_inv in Hev as [H | [_ Hev]];
    [injection H as H; apply checkFullHouse_holds; assumption|].
  apply orElse_inv in Hev as [H | [_ Hev]]; [apply checkFlush_holds; assumption|].
  apply orElse_inv in Hev as [H | [_ Hev]]; [apply checkStraight_holds; assumption|].
  apply orElse_inv in Hev as [H | [_ Hev]];
    [injection H as H; apply checkThreeOfAKind_holds; assumption|].
  apply orElse_inv in Hev as [H | [_ Hev]]; [apply checkTwoPair_holds; assumption|].
  apply orElse_inv in Hev as [H | [_ Hev]];
    [injection H as H; apply checkOnePair_holds; assumption|].
  destruct sortedCards as [|c0 rest]; [discriminate Hev|].
  injection Hev as <-. exists (c0 :: rest). split; reflexivity.
Qed.

(** What [findBest_loop] returns is the best hand it started with or the
    evaluation of one of the combinations. *)
Lemma findBest_loop_source (combinations : list (list Card)) :
  forall (best r : option HandEvaluation),
    findBest_loop combinations best = Ok r ->
    r = best \/
    exists combo ev, combo ∈ combinations /\ evaluateFiveCardHand combo = Ok ev /\ r = Some ev.
Proof.
  induction combinations as [|combo combinations IH]; intros best r; cbn [findBest_loop].
  - intros H. injection H as ->. left. reflexivity.
  - unfold findBest_step.
    destruct (evaluateFiveCardHand combo) as [ev| |] eqn:Hev; cbn [bind]; try discriminate.
    assert (Hstep : forall best', 
      (best' = best \/ best' = Some ev) ->
      findBest_loop combinations best' = Ok r ->
      r = best \/
      exists combo0 ev0, combo0 ∈ combo :: combinations /\
                         evaluateFiveCardHand combo0 = Ok ev0 /\ r = Some ev0).
    { intros best' Hb Hr. apply IH in Hr as [-> | (c & e & Hc & He & ->)].
      - destruct Hb as [-> | ->]; [left; reflexivity|].
        right. exists combo, ev. split; [left | split; [exact Hev | reflexivity]].
      - right. exists c, e. split; [right; exact Hc | split; [exact He | reflexivity]]. }
    destruct best as [b|]; cbn [bind].
    + repeat match goal with
             | |- context [if ?c then _ else _] => destruct c
             end; cbn [bind]; apply Hstep; tauto.
    + apply Hstep. tauto.
Qed.

(** X30: the best hand [evaluatePokerHand] returns for five cards or
    more has five entries, none of them undefined, which are cards of the
    input, none more often than the input has it, and the category of the
    result is the category of these five cards. *)
Theorem evaluatePokerHand_bestHand (cards : list Card) :
  (5 <= length cards)%nat ->
  exists ev best,
    evaluatePokerHand cards = Ok ev /\
    bestHand ev = map Some best /\
    length best = 5%nat /\
    best ⊆+ cards /\
    handStrength ev = strength5 best.
Proof.
  intros Hlen. unfold evaluatePokerHand.
  destruct (Nat.ltb_spec (length cards) 5) as [Hlt|_]; [lia|].
  assert (Hfive : forall combo ev,
            combo `sublist_of` cards -> length combo = 5%nat ->
            evaluateFiveCardHand combo = Ok ev ->
            exists best, bestHand ev = map Some best /\ length best = 5%nat /\
                         best ⊆+ cards /\ handStrength ev = strength5 best).
  { intros combo ev Hsub Hl Hev.
    destruct (evaluateFiveCardHand_holds combo ev Hl Hev) as (best & Hb & Hp).
    exists best. split; [exact Hb|]. split; [rewrite Hp; exact Hl|]. split.
    - rewrite Hp. apply sublist_submseteq. exact Hsub.
    - destruct (evaluateFiveCardHand_ok combo) as (ev' & Hev' & Hs).
      { intros ->. discriminate Hl. }
      rewrite Hev in Hev'. injection Hev' as <-.
      rewrite Hs. symmetry. apply strength5_Permutation. exact Hp. }
  destruct (Nat.eqb_spec (length cards) 5) as [Heq|Hne].
  - destruct (evaluateFiveCardHand_ok cards) as (ev & Hev & _).
    { intros ->. discriminate Heq. }
    destruct (Hfive cards ev) as (best & H); [reflexivity | exact Heq | exact Hev |].
    exists ev, best. split; [exact Hev | exact H].
  - destruct (findBestFiveCardHand_ok cards Hlen) as (ev & Hev & _).
    rewrite Hev. unfold findBestFiveCardHand in Hev.
    destruct (findBest_loop (getCombinations cards 5) None) as [[r|]| |] eqn:Hloop;
      cbn [bind] in Hev; try discriminate Hev.
    injection Hev as ->.
    apply findBest_loop_source in Hloop as [Hnone | (combo & e & Hc & He & Hr)];
      [discriminate Hnone|].
    injection Hr as <-. apply getCombinations_elem in Hc as [Hsub Hl].
    destruct (Hfive combo ev Hsub Hl He) as (best & H).
    exists ev, best. split; [reflexivity | exact H].
Qed.

Lemma evaluatePokerHand_bestHand_witness :
  exists ev best,
    evaluatePokerHand quads_kings = Ok ev /\
    bestHand ev = map Some best /\
    length best = 5%nat /\
    best ⊆+ quads_kings /\
    handStrength ev = strength5 best.
Proof. apply (evaluatePokerHand_bestHand quads_kings). simpl. lia. Defined.
